(** * ETA/ATA deep dive by BOL: the aggregation and classification core of app.py

    The development embeds the data path of [src/app.py] (lines 52-250):
    the container filter, the timestamp columns, the per-BOL aggregation,
    the spread buckets, the mixed ATA presence detail and the summary table.

    Conventions of the embedding.
    - A data frame is the list of its rows, a column is the list of its cells;
      the uploaded frame of the role mapping is kept by column, as a finite map
      from header to column.
    - Text is [string], read as the UTF-8 bytes of a Python [str].  [strip]
      removes the white space characters of [str.isspace] at both ends: the
      ASCII ones and U+0085, U+00A0, U+1680, U+2000 to U+200A, U+2028, U+2029,
      U+202F, U+205F and U+3000.  [upper] is the case mapping of the Unicode
      character database, which is not part of the program: it is taken as
      given (class [PyStr.Casing]), known to turn a to z into A to Z and to
      leave every other character of an ASCII text alone.
    - A parsed timestamp is an integer number of nanoseconds ([Z]); [None]
      stands for NaT.
    - A spread in hours is a Python float: NaN, an infinity or a finite value,
      the last one kept as an exact rational, on which [==], [<] and [<=]
      decide as they do on floats.  The division that produces a spread is
      exact: float rounding is outside the model.
    - The date parser of pandas is not part of the program; it is a parameter
      of the run, and so is the test that tells on which columns
      [pd.to_datetime] raises in spite of [errors="coerce"].
    - [run] builds the report of a run that is not stopped; [run_checked] is
      the run with its three ends: the warning, the [except] branch (after a
      raise of [pd.to_datetime] or an overflow of [max - min]) and the
      report. *)

From Stdlib Require Import ZArith QArith Qminmax Ascii String List Lia Permutation Sorted.
From stdpp Require Import base decidable list sets sorting strings gmap.

Import ListNotations.
Local Open Scope string_scope.
Local Open Scope list_scope.

(** ** Python strings *)

Module PyStr.

(** The value of a byte. *)
Definition code (c : ascii) : nat := nat_of_ascii c.

(** White space of one byte: U+0009..U+000D, U+001C..U+001F and U+0020. *)
Definition isspace1 (a : ascii) : bool :=
  ((9 <=? code a) && (code a <=? 13) || (28 <=? code a) && (code a <=? 32))%nat.

(** White space of two bytes: U+0085 (C2 85) and U+00A0 (C2 A0). *)
Definition isspace2 (a b : ascii) : bool :=
  ((code a =? 194) && ((code b =? 133) || (code b =? 160)))%nat.

(** White space of three bytes: U+1680 (E1 9A 80), U+2000..U+200A
    (E2 80 80..8A), U+2028 and U+2029 (E2 80 A8, A9), U+202F (E2 80 AF),
    U+205F (E2 81 9F) and U+3000 (E3 80 80). *)
Definition isspace3 (a b c : ascii) : bool :=
  ((code a =? 225) && (code b =? 154) && (code c =? 128)
   || (code a =? 226) && (code b =? 128)
      && ((128 <=? code c) && (code c <=? 138)
          || (code c =? 168) || (code c =? 169) || (code c =? 175))
   || (code a =? 226) && (code b =? 129) && (code c =? 159)
   || (code a =? 227) && (code b =? 128) && (code c =? 128))%nat.

(** The white space character at the head of a text, with the text after
    it. *)
Definition head_space (s : string) : option (string * string) :=
  match s with
  | String a s1 =>
      if isspace1 a then Some (String a "", s1)
      else match s1 with
           | String b s2 =>
               if isspace2 a b then Some (String a (String b ""), s2)
               else match s2 with
                    | String c s3 =>
                        if isspace3 a b c
                        then Some (String a (String b (String c "")), s3)
                        else None
                    | "" => None
                    end
           | "" => None
           end
  | "" => None
  end.

(** A text read from the left: its white space characters, and every other
    byte on its own. *)
Inductive token : Type :=
| Space (bytes : string)
| Other (b : ascii).

Fixpoint tokens (s : string) : list token :=
  match s with
  | "" => []
  | String a s1 =>
      if isspace1 a then Space (String a "") :: tokens s1
      else match s1 with
           | String b s2 =>
               if isspace2 a b then Space (String a (String b "")) :: tokens s2
               else match s2 with
                    | String c s3 =>
                        if isspace3 a b c
                        then Space (String a (String b (String c ""))) :: tokens s3
                        else Other a :: tokens s1
                    | "" => Other a :: tokens s1
                    end
           | "" => [Other a]
           end
  end.

Definition token_text (t : token) : string :=
  match t with
  | Space bytes => bytes
  | Other b => String b ""
  end.

Fixpoint untokens (l : list token) : string :=
  match l with
  | [] => ""
  | t :: l' => token_text t +:+ untokens l'
  end.

Definition is_space (t : token) : bool :=
  match t with Space _ => true | Other _ => false end.

Fixpoint lstrip_tokens (l : list token) : list token :=
  match l with
  | [] => []
  | t :: l' => if is_space t then lstrip_tokens l' else l
  end.

(** From the right: a token is dropped when it is white space and everything
    after it has been dropped. *)
Fixpoint rstrip_tokens (l : list token) : list token :=
  match l with
  | [] => []
  | t :: l' =>
      match rstrip_tokens l' with
      | [] => if is_space t then [] else [t]
      | r => t :: r
      end
  end.

Definition strip_tokens (l : list token) : list token :=
  rstrip_tokens (lstrip_tokens l).

(** [str.strip()]: the white space characters at both ends are removed. *)
Definition strip (s : string) : string := untokens (strip_tokens (tokens s)).

(** Text made of white space characters only (the empty text included). *)
Definition all_space (s : string) : bool := forallb is_space (tokens s).

Definition tight_tokens (l : list token) : bool :=
  match l with
  | [] => true
  | t :: r => negb (is_space t) && negb (is_space (List.last r t))
  end.

(** Text that neither begins nor ends with a white space character. *)
Definition tight (s : string) : bool := tight_tokens (tokens s).

(** The same two notions said without the reader of tokens.  The white
    space characters of [str.isspace], as code points: *)
Definition whitespace : list N :=
  [9; 10; 11; 12; 13; 28; 29; 30; 31; 32; 133; 160; 5760;
   8192; 8193; 8194; 8195; 8196; 8197; 8198; 8199; 8200; 8201; 8202;
   8232; 8233; 8239; 8287; 12288]%N.

(** UTF-8 of a code point below U+10000. *)
Definition utf8 (cp : N) : string :=
  if (cp <? 128)%N then String (ascii_of_N cp) ""
  else if (cp <? 2048)%N then
    String (ascii_of_N (192 + cp / 64))
      (String (ascii_of_N (128 + cp mod 64)) "")
  else
    String (ascii_of_N (224 + cp / 4096))
      (String (ascii_of_N (128 + (cp / 64) mod 64))
         (String (ascii_of_N (128 + cp mod 64)) "")).

(** A blank text is a sequence of white space characters. *)
Inductive blank : string -> Prop :=
| blank_empty : blank ""
| blank_space (cp : N) (s : string) :
    In cp whitespace -> blank s -> blank (utf8 cp +:+ s).

(** A trimmed text has no white space character at either end. *)
Definition trimmed (s : string) : Prop :=
  (forall ws rest, s = ws +:+ rest -> blank ws -> ws = "")
  /\ (forall rest ws, s = rest +:+ ws -> blank ws -> ws = "").

(** Upper-casing of the letters a to z. *)
Definition ascii_upper_char (c : ascii) : ascii :=
  if ((97 <=? code c) && (code c <=? 122))%nat then ascii_of_nat (code c - 32) else c.

Fixpoint ascii_upper (s : string) : string :=
  match s with
  | "" => ""
  | String c s' => String (ascii_upper_char c) (ascii_upper s')
  end.

Fixpoint is_ascii (s : string) : bool :=
  match s with
  | "" => true
  | String c s' => (code c <? 128)%nat && is_ascii s'
  end.

(** [str.upper()]: the upper-casing of the Unicode character database, which
    is not part of the program, taken as given; on ASCII text it upper-cases
    the letters a to z and nothing else. *)
Class Casing : Type := {
  upper : string -> string;
  upper_ascii : forall s, is_ascii s = true -> upper s = ascii_upper s
}.

(** The casing that leaves every byte outside a to z alone. *)
Definition ascii_casing : Casing :=
  {| upper := ascii_upper; upper_ascii := fun s _ => eq_refl |}.

(** [x in xs] for a list of strings, as [Series.isin] uses it. *)
Definition isin (x : string) (xs : list string) : bool :=
  existsb (String.eqb x) xs.

End PyStr.

(** ** Reading a text: notions for the proofs *)

(** A text that can follow any other text without changing how that one is
    read: it does not begin with a continuation byte. *)
Definition starts_clean (s : string) : Prop :=
  match s with
  | "" => True
  | String c _ => (PyStr.code c < 128 \/ 192 <= PyStr.code c)%nat
  end.

(** A white space token that holds one white space character. *)
Definition valid_token (t : PyStr.token) : Prop :=
  match t with
  | PyStr.Space enc => forall x, PyStr.head_space (enc +:+ x) = Some (enc, x)
  | PyStr.Other _ => True
  end.

(** The encodings of the white space characters. *)
Definition is_ws_enc (enc : string) : bool :=
  existsb (String.eqb enc) (map PyStr.utf8 PyStr.whitespace).

(** A token after the letters a to z are upper-cased. *)
Definition upper_token (t : PyStr.token) : PyStr.token :=
  match t with
  | PyStr.Space enc => PyStr.Space enc
  | PyStr.Other b => PyStr.Other (PyStr.ascii_upper_char b)
  end.

(** ** Python floats and the spread classifier *)

Inductive pyfloat : Type :=
| FNaN
| FNegInf
| FPosInf
| FFin (q : Q).

Module PyFloat.

Definition isna (v : pyfloat) : bool :=
  match v with FNaN => true | _ => false end.

(** IEEE comparisons: every comparison with NaN is false. *)
Definition eqb (a b : pyfloat) : bool :=
  match a, b with
  | FFin x, FFin y => Qeq_bool x y
  | FNegInf, FNegInf | FPosInf, FPosInf => true
  | _, _ => false
  end.

Definition leb (a b : pyfloat) : bool :=
  match a, b with
  | FNaN, _ | _, FNaN => false
  | FNegInf, _ | _, FPosInf => true
  | FFin x, FFin y => Qle_bool x y
  | _, _ => false
  end.

Definition ltb (a b : pyfloat) : bool :=
  match a, b with
  | FNaN, _ | _, FNaN => false
  | FFin x, FFin y => negb (Qle_bool y x)
  | FNegInf, FNegInf | FPosInf, FPosInf => false
  | FNegInf, _ | _, FPosInf => true
  | _, _ => false
  end.

Definition of_Z (z : Z) : pyfloat := FFin (inject_Z z).

End PyFloat.

Definition NO_VALID_TIMESTAMP : string := "NO_VALID_TIMESTAMP".
Definition NO_DIFFERENCE : string := "NO_DIFFERENCE".
Definition BETWEEN_1_AND_24_HOURS : string := "BETWEEN_1_AND_24_HOURS".
Definition MORE_THAN_24_HOURS : string := "MORE_THAN_24_HOURS".
Definition MIXED_PRESENT_AND_MISSING : string := "MIXED_PRESENT_AND_MISSING".

(** The four spread buckets. *)
Definition bucket_labels : list string :=
  [NO_VALID_TIMESTAMP; NO_DIFFERENCE; BETWEEN_1_AND_24_HOURS; MORE_THAN_24_HOURS].

(** [classify_spread_hours(value)]; the argument is [None] or a float. *)
Definition classify_spread_hours (value : option pyfloat) : string :=
  match value with
  | None => NO_VALID_TIMESTAMP
  | Some v =>
      if PyFloat.isna v then NO_VALID_TIMESTAMP
      else if PyFloat.eqb v (PyFloat.of_Z 0) then NO_DIFFERENCE
      else if PyFloat.ltb (PyFloat.of_Z 0) v && PyFloat.leb v (PyFloat.of_Z 24)
           then BETWEEN_1_AND_24_HOURS
      else MORE_THAN_24_HOURS
  end.

(** ** Rows *)

(** A row of [work_df], reduced to the five role-mapped working columns;
    every cell is text ([dtype=str], blanks filled with the empty string). *)
Record InputRow : Type := mkInputRow {
  identifier : string;
  shipment_type : string;
  bol_id : string;
  eta : string;
  ata : string
}.

(** A row of [containers] once the two timestamp columns are attached. *)
Record ContainerRow : Type := mkContainerRow {
  c_row : InputRow;
  eta_dt : option Z;
  ata_dt : option Z
}.

(** The working columns read off a container row. *)
Abbreviation row_bol_id := (fun r : ContainerRow => bol_id (c_row r)).
Abbreviation row_eta := (fun r : ContainerRow => eta (c_row r)).
Abbreviation row_ata := (fun r : ContainerRow => ata (c_row r)).

Global Instance InputRow_eq_dec : EqDecision InputRow.
Proof. solve_decision. Defined.

Global Instance ContainerRow_eq_dec : EqDecision ContainerRow.
Proof. solve_decision. Defined.

(** ** Row classifier (lines 92-97) *)

Section Classifier.

Context {casing : PyStr.Casing}.

Definition is_container (st : string) : bool :=
  PyStr.isin (PyStr.upper (PyStr.strip st)) ["CONTAINER"; "CONTAINER_ID"].

Definition container_rows (work_df : list InputRow) : list InputRow :=
  List.filter (fun r => is_container (shipment_type r)) work_df.

End Classifier.

(** ** Timestamp columns (lines 110-111) *)

(** What the date parser of pandas makes of one non-empty cell. *)
Inductive parse_outcome : Type :=
| Parsed (t : Z)
| Unparsable.

Section Timestamps.

(** The general-purpose date parser behind [pd.to_datetime], taken as
    given.  It sees the whole column, since pandas may settle on a format
    from the column before it reads the cells. *)
Variable dateparse : list string -> string -> parse_outcome.

(** One cell under [errors="coerce"]: the empty string is a missing value,
    and a cell the parser rejects becomes NaT instead of an exception. *)
Definition coerce_cell (col : list string) (s : string) : option Z :=
  if String.eqb s "" then None
  else match dateparse col s with
       | Parsed t => Some t
       | Unparsable => None
       end.

(** [pd.to_datetime(col, errors="coerce")]. *)
Definition to_datetime (col : list string) : list (option Z) :=
  map (coerce_cell col) col.

(** [containers["eta_dt"] = ...; containers["ata_dt"] = ...]. *)
Definition assign_timestamps (containers : list InputRow) : list ContainerRow :=
  zip_with (fun r dts => mkContainerRow r (fst dts) (snd dts))
    containers
    (zip (to_datetime (map eta containers)) (to_datetime (map ata containers))).

End Timestamps.

(** ** BOL aggregator (lines 114-127) *)

(** [Series.min] and [Series.max] of a timestamp column: NaT cells are
    skipped, and the result is NaT when nothing is left. *)
Definition skipna_reduce (op : Z -> Z -> Z) (s : list (option Z)) : option Z :=
  foldr (fun x acc =>
           match x, acc with
           | None, _ => acc
           | Some t, None => Some t
           | Some t, Some m => Some (op t m)
           end) None s.

Definition series_min : list (option Z) -> option Z := skipna_reduce Z.min.
Definition series_max : list (option Z) -> option Z := skipna_reduce Z.max.

(** [(s.str.strip() != "").sum()] and [(s.str.strip() == "").sum()]. *)
Definition count_present (s : list string) : nat :=
  length (filter (fun x => PyStr.strip x <> "") s).

Definition count_missing (s : list string) : nat :=
  length (filter (fun x => PyStr.strip x = "") s).

(** [containers.groupby("bol_id", dropna=False)]: one group per distinct key,
    keys in ascending order, rows of a group in their order in the frame. *)
Definition group_keys (containers : list ContainerRow) : list string :=
  merge_sort String.le (remove_dups (map (fun r => bol_id (c_row r)) containers)).

Definition group_rows (k : string) (containers : list ContainerRow) : list ContainerRow :=
  filter (fun r => bol_id (c_row r) = k) containers.

Definition groupby_bol_id (containers : list ContainerRow)
  : list (string * list ContainerRow) :=
  map (fun k => (k, group_rows k containers)) (group_keys containers).

(** A row of [bol_spread] after [reset_index]. *)
Record BolAggregate : Type := mkBolAggregate {
  agg_bol_id : string;
  n_containers : nat;
  n_eta_present : nat;
  n_eta_missing : nat;
  n_ata_present : nat;
  n_ata_missing : nat;
  eta_min : option Z;
  eta_max : option Z;
  ata_min : option Z;
  ata_max : option Z;
  eta_spread_hours : pyfloat;
  ata_spread_hours : pyfloat;
  eta_spread_bucket : string;
  ata_spread_bucket : string
}.

(** [(max - min).dt.total_seconds() / 3600.0]: NaN when either end is NaT,
    else the difference in nanoseconds over 3.6e12. *)
Definition spread_hours (mx mn : option Z) : pyfloat :=
  match mx, mn with
  | Some a, Some b => FFin (Qmake (a - b) 3600000000000)
  | _, _ => FNaN
  end.

(** The named aggregations of [grouped.agg] on one group, followed by the
    spread and bucket columns of lines 131-148. *)
Definition aggregate_group (k : string) (g : list ContainerRow) : BolAggregate :=
  let etas := map (fun r => eta (c_row r)) g in
  let atas := map (fun r => ata (c_row r)) g in
  let emin := series_min (map eta_dt g) in
  let emax := series_max (map eta_dt g) in
  let amin := series_min (map ata_dt g) in
  let amax := series_max (map ata_dt g) in
  let eh := spread_hours emax emin in
  let ah := spread_hours amax amin in
  {| agg_bol_id := k;
     n_containers := length g;
     n_eta_present := count_present etas;
     n_eta_missing := count_missing etas;
     n_ata_present := count_present atas;
     n_ata_missing := count_missing atas;
     eta_min := emin; eta_max := emax;
     ata_min := amin; ata_max := amax;
     eta_spread_hours := eh;
     ata_spread_hours := ah;
     eta_spread_bucket := classify_spread_hours (Some eh);
     ata_spread_bucket := classify_spread_hours (Some ah) |}.

Definition bol_spread (containers : list ContainerRow) : list BolAggregate :=
  map (fun kg => aggregate_group (fst kg) (snd kg)) (groupby_bol_id containers).

(** The count columns of an aggregate row, next to its key. *)
Definition presence_counts (a : BolAggregate) : string * nat * (nat * nat) * (nat * nat) :=
  (agg_bol_id a, n_containers a,
   (n_eta_present a, n_eta_missing a), (n_ata_present a, n_ata_missing a)).

(** The two column selections of lines 154-178, one shape for both metrics. *)
Record SpreadView : Type := mkSpreadView {
  v_bol_id : string;
  v_n_containers : nat;
  v_n_present : nat;
  v_n_missing : nat;
  v_min : option Z;
  v_max : option Z;
  v_spread_hours : pyfloat;
  v_spread_bucket : string
}.

Definition eta_view (a : BolAggregate) : SpreadView :=
  mkSpreadView (agg_bol_id a) (n_containers a) (n_eta_present a) (n_eta_missing a)
    (eta_min a) (eta_max a) (eta_spread_hours a) (eta_spread_bucket a).

Definition ata_view (a : BolAggregate) : SpreadView :=
  mkSpreadView (agg_bol_id a) (n_containers a) (n_ata_present a) (n_ata_missing a)
    (ata_min a) (ata_max a) (ata_spread_hours a) (ata_spread_bucket a).

(** ** Mixed ATA presence (lines 182-190) *)

Definition is_mixed (a : BolAggregate) : Prop :=
  (0 < n_ata_present a)%nat /\ (0 < n_ata_missing a)%nat.

Global Instance is_mixed_dec a : Decision (is_mixed a).
Proof. unfold is_mixed. apply _. Defined.

Definition mixed_ata_bols (spread : list BolAggregate) : list string :=
  map agg_bol_id (filter is_mixed spread).

Definition bol_mixed_ata_presence_detail
    (containers : list ContainerRow) (mixed : list string) : list InputRow :=
  map c_row (filter (fun r => bol_id (c_row r) ∈ mixed) containers).

(** ** Summary table (lines 193-250) *)

Record SummaryRow : Type := mkSummaryRow {
  metric : string;
  bucket : string;
  description : string;
  count : nat
}.

Definition bucket_descriptions : list (string * string) :=
  [ (NO_DIFFERENCE, "Spread = 0 hours");
    (BETWEEN_1_AND_24_HOURS, "Spread > 0 and ≤ 24 hours");
    (MORE_THAN_24_HOURS, "Spread > 24 hours");
    (NO_VALID_TIMESTAMP, "No parsable timestamps for this metric in the BOL");
    (MIXED_PRESENT_AND_MISSING, "BOLs where some containers have ATA and others do not") ].

(** [d.get(key, default)]. *)
Fixpoint dict_get (d : list (string * string)) (key default : string) : string :=
  match d with
  | [] => default
  | (k, v) :: d' => if String.eqb k key then v else dict_get d' key default
  end.

(** The distinct values of a column in order of first appearance. *)
Fixpoint unique (l : list string) : list string :=
  match l with
  | [] => []
  | x :: l' => x :: filter (fun y => y <> x) (unique l')
  end.

Definition occurrences (b : string) (l : list string) : nat :=
  length (filter (fun y => y = b) l).

(** Stable insertion by descending count: [p] goes in front of the first
    entry whose count does not exceed its own. *)
Fixpoint insert_desc (p : string * nat) (l : list (string * nat)) : list (string * nat) :=
  match l with
  | [] => [p]
  | q :: l' => if (snd q <=? snd p)%nat then p :: l else q :: insert_desc p l'
  end.

Definition sort_values_desc (l : list (string * nat)) : list (string * nat) :=
  foldr insert_desc [] l.

(** [Series.value_counts(dropna=False).to_dict()]: one entry per value that
    occurs, with its number of occurrences, largest count first, equal counts
    in order of first appearance. *)
Definition value_counts (l : list string) : list (string * nat) :=
  sort_values_desc (map (fun b => (b, occurrences b l)) (unique l)).

Definition bucket_rows (m : string) (counts : list (string * nat)) : list SummaryRow :=
  map (fun bc =>
         mkSummaryRow m (fst bc) (dict_get bucket_descriptions (fst bc) (fst bc)) (snd bc))
      counts.

Definition mixed_row (mixed : list string) : SummaryRow :=
  mkSummaryRow "ATA_MIXED_PRESENCE" MIXED_PRESENT_AND_MISSING
    (dict_get bucket_descriptions MIXED_PRESENT_AND_MISSING "") (length mixed).

Definition summary_rows (spread : list BolAggregate) : list SummaryRow :=
  let eta_counts := value_counts (map eta_spread_bucket spread) in
  let ata_counts := value_counts (map ata_spread_bucket spread) in
  bucket_rows "ETA" eta_counts
  ++ bucket_rows "ATA" ata_counts
  ++ [mixed_row (mixed_ata_bols spread)].

(** ** The run (lines 84-250) *)

Record Report : Type := mkReport {
  bol_eta_spread : list SpreadView;
  bol_ata_spread : list SpreadView;
  mixed_detail : list InputRow;
  summary_df : list SummaryRow
}.

(** The tables built from [containers] once it is known to be non-empty. *)
Definition report_of (containers : list ContainerRow) : Report :=
  let spread := bol_spread containers in
  let mixed := mixed_ata_bols spread in
  {| bol_eta_spread := map eta_view spread;
     bol_ata_spread := map ata_view spread;
     mixed_detail := bol_mixed_ata_presence_detail containers mixed;
     summary_df := summary_rows spread |}.

(** The report of a run that nothing stops; [None] is the branch
    [containers.empty], which only shows a warning. *)
Definition run {casing : PyStr.Casing} (dateparse : list string -> string -> parse_outcome)
    (work_df : list InputRow) : option Report :=
  match container_rows work_df with
  | [] => None
  | containers => Some (report_of (assign_timestamps dateparse containers))
  end.

(** ** The bucket of a BOL read off its extrema *)

(** Twenty-four hours in nanoseconds. *)
Definition day_ns : Z := 86400000000000.

(** The bucket as a test on the nanoseconds between the two extrema; compared
    below with [classify_spread_hours] applied to [spread_hours]. *)
Definition bucket_of_extrema (mn mx : option Z) : string :=
  match mn, mx with
  | Some a, Some b =>
      if (b - a =? 0)%Z then NO_DIFFERENCE
      else if ((0 <? b - a) && (b - a <=? day_ns))%Z then BETWEEN_1_AND_24_HOURS
      else MORE_THAN_24_HOURS
  | _, _ => NO_VALID_TIMESTAMP
  end.

(** ** Exchanging the two metrics *)

(** The frame with its ETA and ATA columns exchanged. *)
Definition swap_eta_ata (r : InputRow) : InputRow :=
  mkInputRow (identifier r) (shipment_type r) (bol_id r) (ata r) (eta r).

Definition swap_timestamps (c : ContainerRow) : ContainerRow :=
  mkContainerRow (swap_eta_ata (c_row c)) (ata_dt c) (eta_dt c).

(** ** Role mapping and the whole handler (lines 84-89, 63-103, 299-300) *)

(** The names of the five working columns, in the order they are written. *)
Definition working_names : list string :=
  ["identifier"; "shipment_type"; "bol_id"; "eta"; "ata"].

(** A frame of [n] rows: every column has [n] cells. *)
Definition frame_height (n : nat) (df : gmap string (list string)) : Prop :=
  forall c col, df !! c = Some col -> length col = n.

(** The five column names chosen in the select boxes. *)
Record Roles : Type := mkRoles {
  identifier_col : string;
  shipment_type_col : string;
  bol_id_col : string;
  eta_col : string;
  ata_col : string
}.

(** [work_df[name] = work_df[src].astype(str)] on a frame kept by column;
    [None] is the KeyError of a column that is not there. *)
Definition assign_column (name src : string) (df : gmap string (list string))
  : option (gmap string (list string)) :=
  col ← df !! src; Some (<[name := col]> df).

(** The five assignments of lines 85-89, one after the other on the same
    frame. *)
Definition map_roles (roles : Roles) (df : gmap string (list string))
  : option (gmap string (list string)) :=
  w1 ← assign_column "identifier" (identifier_col roles) df;
  w2 ← assign_column "shipment_type" (shipment_type_col roles) w1;
  w3 ← assign_column "bol_id" (bol_id_col roles) w2;
  w4 ← assign_column "eta" (eta_col roles) w3;
  assign_column "ata" (ata_col roles) w4.

(** The rows of five columns of equal height. *)
Fixpoint rows_of_columns (ids sts bols etas atas : list string) : list InputRow :=
  match ids, sts, bols, etas, atas with
  | i :: ids', s :: sts', b :: bols', e :: etas', a :: atas' =>
      mkInputRow i s b e a :: rows_of_columns ids' sts' bols' etas' atas'
  | _, _, _, _, _ => []
  end.

(** The working columns of a frame, read by row. *)
Definition work_rows (w : gmap string (list string)) : option (list InputRow) :=
  ids ← w !! "identifier";
  sts ← w !! "shipment_type";
  bols ← w !! "bol_id";
  etas ← w !! "eta";
  atas ← w !! "ata";
  Some (rows_of_columns ids sts bols etas atas).

(** ** The ends of a run (lines 99-103, 110-111, 131-140 and 299-300) *)

(** What pressing the button leads to: the error message of the [except]
    branch, the warning of the empty branch, or the report. *)
Inductive outcome : Type :=
| Failed
| NoContainers
| Completed (rep : Report).

(** pandas keeps a timestamp and a difference of timestamps as a 64-bit
    number of nanoseconds. *)
Definition int64_max : Z := 9223372036854775807.
Definition int64_min : Z := -9223372036854775808.

(** [max - min] on one row of the aggregate frame: NaT when an end is NaT;
    otherwise the subtraction raises OverflowError when the difference is no
    64-bit number. *)
Definition sub_overflows (mx mn : option Z) : bool :=
  match mx, mn with
  | Some a, Some b => negb ((int64_min <=? a - b)%Z && (a - b <=? int64_max)%Z)
  | _, _ => false
  end.

(** The subtraction of two columns of the aggregate frame raises when it
    does on one row. *)
Definition column_sub_raises (mx mn : BolAggregate -> option Z)
    (spread : list BolAggregate) : bool :=
  existsb (fun a => sub_overflows (mx a) (mn a)) spread.

Section Run.

Context {casing : PyStr.Casing}.

(** Whether [pd.to_datetime] raises on a column in spite of
    [errors="coerce"], as it does on cells that carry different UTC
    offsets.  Like the parser it belongs to pandas and is taken as given. *)
Variable to_datetime_raises : list string -> bool.

Variable dateparse : list string -> string -> parse_outcome.

(** [pd.to_datetime(col, errors="coerce")] with its exception; [None] is
    the raise. *)
Definition pd_to_datetime (col : list string) : option (list (option Z)) :=
  if to_datetime_raises col then None else Some (to_datetime dateparse col).

(** Lines 92-250 with their three ends. *)
Definition run_checked (work_df : list InputRow) : outcome :=
  match container_rows work_df with
  | [] => NoContainers
  | containers =>
      match pd_to_datetime (map eta containers), pd_to_datetime (map ata containers) with
      | Some etas, Some atas =>
          let cs := zip_with (fun r dts => mkContainerRow r (fst dts) (snd dts))
                      containers (zip etas atas) in
          let spread := bol_spread cs in
          if column_sub_raises eta_max eta_min spread
             || column_sub_raises ata_max ata_min spread
          then Failed
          else Completed (report_of cs)
      | _, _ => Failed
      end
  end.

(** The handler of the button: the role mapping, whose KeyError also ends in
    the [except] branch, then the run. *)
Definition run_app (roles : Roles) (df : gmap string (list string)) : outcome :=
  match map_roles roles df ≫= work_rows with
  | None => Failed
  | Some rows => run_checked rows
  end.

End Run.

(** ** A small frame to run the definitions on *)

Module Sample.

#[local] Existing Instance PyStr.ascii_casing.

(** A parser that knows three spellings and rejects everything else. *)
Definition dateparse (col : list string) (s : string) : parse_outcome :=
  if String.eqb s "2024-01-01T00:00:00" then Parsed 1704067200000000000
  else if String.eqb s "2024-01-01T12:00:00" then Parsed 1704110400000000000
  else if String.eqb s "2024-02-01" then Parsed 1706745600000000000
  else Unparsable.

Definition work_df : list InputRow :=
  [ mkInputRow "c1" "Container" "B1" "2024-01-01T00:00:00" "";
    mkInputRow "c2" " container_id " "B1" "2024-01-01T12:00:00" "2024-02-01";
    mkInputRow "t1" "TRUCK" "B1" "2024-02-01" "2024-02-01";
    mkInputRow "c3" "CONTAINER" "A0" "not a date" "  ";
    mkInputRow "c4" "CONTAINER" "B2" "" "" ].

Definition containers : list ContainerRow :=
  assign_timestamps dateparse (container_rows work_df).

Definition report : Report := report_of containers.

End Sample.

Module SampleCsv.

(** The sample frame as an upload with its own headers. *)
Definition df : gmap string (list string) :=
  list_to_map
    [ ("Container No", ["c1"; "c2"; "t1"; "c3"; "c4"]);
      ("Type", ["Container"; " container_id "; "TRUCK"; "CONTAINER"; "CONTAINER"]);
      ("BOL", ["B1"; "B1"; "B1"; "A0"; "B2"]);
      ("Dest ETA", ["2024-01-01T00:00:00"; "2024-01-01T12:00:00"; "2024-02-01";
                    "not a date"; ""]);
      ("Dest ATA", [""; "2024-02-01"; "2024-02-01"; "  "; ""]) ].

Definition roles : Roles := mkRoles "Container No" "Type" "BOL" "Dest ETA" "Dest ATA".

(** An upload whose headers are the working names, with the ETA role pointed
    at its column ata and the ATA role at its column eta. *)
Definition crossed_df : gmap string (list string) :=
  list_to_map
    [ ("identifier", ["c1"]); ("shipment_type", ["CONTAINER"]);
      ("bol_id", ["B1"]); ("eta", ["2024-02-01"]); ("ata", [""]) ].

Definition crossed_roles : Roles :=
  mkRoles "identifier" "shipment_type" "bol_id" "ata" "eta".

End SampleCsv.

Module SampleStops.

#[local] Existing Instance PyStr.ascii_casing.

(** A parser for one instant written with two UTC offsets and for two days
    550 years apart. *)
Definition dateparse (col : list string) (s : string) : parse_outcome :=
  if String.eqb s "2024-01-01T00:00:00+01:00" then Parsed 1704063600000000000
  else if String.eqb s "2024-01-01T00:00:00+02:00" then Parsed 1704060000000000000
  else if String.eqb s "1700-01-01" then Parsed (-8520336000000000000)
  else if String.eqb s "2250-01-01" then Parsed 8835955200000000000
  else Unparsable.

(** The UTC offset a cell is written with. *)
Definition utc_offset (s : string) : option string :=
  if String.eqb s "2024-01-01T00:00:00+01:00" then Some "+01:00"
  else if String.eqb s "2024-01-01T00:00:00+02:00" then Some "+02:00"
  else None.

(** [pd.to_datetime] raises on a column with two different UTC offsets. *)
Definition raises (col : list string) : bool :=
  match remove_dups (omap utc_offset col) with
  | _ :: _ :: _ => true
  | _ => false
  end.

Definition offsets_df : list InputRow :=
  [ mkInputRow "c1" "CONTAINER" "B1" "2024-01-01T00:00:00+01:00" "";
    mkInputRow "c2" "CONTAINER" "B1" "2024-01-01T00:00:00+02:00" "" ].

Definition far_apart_df : list InputRow :=
  [ mkInputRow "c1" "CONTAINER" "B1" "1700-01-01" "";
    mkInputRow "c2" "CONTAINER" "B1" "2250-01-01" "" ].


(** The frame of the two offsets as an upload. *)
Definition df : gmap string (list string) :=
  list_to_map
    [ ("Container No", ["c1"; "c2"]);
      ("Type", ["CONTAINER"; "CONTAINER"]);
      ("BOL", ["B1"; "B1"]);
      ("Dest ETA", ["2024-01-01T00:00:00+01:00"; "2024-01-01T00:00:00+02:00"]);
      ("Dest ATA", [""; ""]) ].

Definition roles : Roles := mkRoles "Container No" "Type" "BOL" "Dest ETA" "Dest ATA".

End SampleStops.

Module SampleBlank.

#[local] Existing Instance PyStr.ascii_casing.

(** NO-BREAK SPACE and EM SPACE. *)
Definition nbsp : string := PyStr.utf8 160.
Definition emsp : string := PyStr.utf8 8195.

(** One BOL whose cells are padded or blank in several ways: the ATA cell of
    k1 is a NO-BREAK SPACE, the ETA cell of k3 two spaces, and the ETA cell
    of k2 is text the sample parser rejects. *)
Definition work_df : list InputRow :=
  [ mkInputRow "k1" "CONTAINER" "K1" "2024-02-01" nbsp;
    mkInputRow "k2" (nbsp +:+ "container" +:+ emsp) "K1" "not a date" "2024-02-01";
    mkInputRow "k3" "Container" "K1" "  " "2024-01-01T00:00:00" ].

Definition containers : list ContainerRow :=
  assign_timestamps Sample.dateparse (container_rows work_df).

Definition aggregate : BolAggregate :=
  aggregate_group "K1" (group_rows "K1" containers).

End SampleBlank.

(** ** Tactics *)

Ltac bool_facts :=
  repeat match goal with
         | H : (_ && _) = true |- _ => apply andb_true_iff in H as [? ?]
         | H : (_ || _) = true |- _ => apply orb_true_iff in H as [?|?]
         | H : (_ =? _)%nat = true |- _ => apply Nat.eqb_eq in H
         | H : (_ <=? _)%nat = true |- _ => apply Nat.leb_le in H
         | H : (_ <? _)%nat = true |- _ => apply Nat.ltb_lt in H
         end.

Ltac bool_false :=
  apply not_true_iff_false; intros ?; bool_facts; lia.

(** A container test on a given text: the text is trimmed by computation and
    upper-cased by the law of ASCII text. *)
Ltac container_fact :=
  unfold is_container;
  match goal with
  | |- context [PyStr.strip ?s] =>
      let v := eval vm_compute in (PyStr.strip s) in
      change (PyStr.strip s) with v
  end;
  rewrite PyStr.upper_ascii by reflexivity; reflexivity.

Ltac split_names :=
  repeat match goal with
         | H : _ ∈ _ :: _ |- _ => apply elem_of_cons in H as [H|H]
         | H : _ ∈ [] |- _ => apply elem_of_nil in H; contradiction
         | H : ~ (_ ∈ _ :: _) |- _ => apply not_elem_of_cons in H as [? H]
         | H : _ ∉ _ :: _ |- _ => apply not_elem_of_cons in H as [? H]
         end.

(** * Properties *)

Section Properties.

Context {casing : PyStr.Casing}.

(** ** Spread classifier *)

Lemma classify_nan : classify_spread_hours (Some FNaN) = NO_VALID_TIMESTAMP.
Proof. reflexivity. Qed.

Lemma classify_fin_zero (q : Q) :
  (q == 0)%Q -> classify_spread_hours (Some (FFin q)) = NO_DIFFERENCE.
Proof.
  intros Hq. unfold classify_spread_hours; simpl.
  apply Qeq_bool_iff in Hq. unfold inject_Z. now rewrite Hq.
Qed.

Lemma classify_fin_nonzero (q : Q) :
  ~ (q == 0)%Q ->
  classify_spread_hours (Some (FFin q)) =
    if negb (Qle_bool q 0) && Qle_bool q 24
    then BETWEEN_1_AND_24_HOURS else MORE_THAN_24_HOURS.
Proof.
  intros Hq. unfold classify_spread_hours; simpl.
  destruct (Qeq_bool q (inject_Z 0)) eqn:E.
  - apply Qeq_bool_iff in E. contradiction.
  - reflexivity.
Qed.

Lemma classify_fin_between (q : Q) :
  (0 < q)%Q -> (q <= 24)%Q ->
  classify_spread_hours (Some (FFin q)) = BETWEEN_1_AND_24_HOURS.
Proof.
  intros H0 H24. rewrite classify_fin_nonzero.
  - apply Qle_bool_iff in H24. rewrite H24.
    destruct (Qle_bool q 0) eqn:E; [|reflexivity].
    apply Qle_bool_iff in E. exfalso. apply (Qlt_not_le _ _ H0 E).
  - intros Heq. rewrite Heq in H0. now apply Qlt_irrefl in H0.
Qed.

Lemma classify_fin_above (q : Q) :
  (24 < q)%Q -> classify_spread_hours (Some (FFin q)) = MORE_THAN_24_HOURS.
Proof.
  intros H24. rewrite classify_fin_nonzero.
  - destruct (Qle_bool q 24) eqn:E.
    + apply Qle_bool_iff in E. exfalso. apply (Qlt_not_le _ _ H24 E).
    + now rewrite andb_false_r.
  - intros Heq. rewrite Heq in H24. now vm_compute in H24.
Qed.

Lemma classify_in_labels (value : option pyfloat) :
  classify_spread_hours value ∈ bucket_labels.
Proof.
  unfold classify_spread_hours, bucket_labels.
  destruct value as [v|]; [|set_solver].
  destruct (PyFloat.isna v); [set_solver|].
  destruct (PyFloat.eqb v _); [set_solver|].
  destruct (_ && _); set_solver.
Qed.

(** C1: the classifier follows the four rules of the spread classifier: a
    missing spread (None or NaN) is NO_VALID_TIMESTAMP, a spread equal to 0 is
    NO_DIFFERENCE, a spread in (0, 24] is BETWEEN_1_AND_24_HOURS (24 itself
    included), a spread above 24 is MORE_THAN_24_HOURS (24.0000001 included),
    and the result is always one of these four labels. *)
Theorem classify_spread_hours_rules :
  classify_spread_hours None = NO_VALID_TIMESTAMP
  /\ classify_spread_hours (Some FNaN) = NO_VALID_TIMESTAMP
  /\ (forall q : Q, (q == 0)%Q ->
        classify_spread_hours (Some (FFin q)) = NO_DIFFERENCE)
  /\ (forall q : Q, (0 < q)%Q /\ (q <= 24)%Q ->
        classify_spread_hours (Some (FFin q)) = BETWEEN_1_AND_24_HOURS)
  /\ (forall q : Q, (24 < q)%Q ->
        classify_spread_hours (Some (FFin q)) = MORE_THAN_24_HOURS)
  /\ classify_spread_hours (Some (FFin 0)) = NO_DIFFERENCE
  /\ classify_spread_hours (Some (FFin 24)) = BETWEEN_1_AND_24_HOURS
  /\ classify_spread_hours (Some (FFin (240000001 # 10000000))) = MORE_THAN_24_HOURS
  /\ (forall value, classify_spread_hours value ∈ bucket_labels)
  /\ NoDup bucket_labels.
Proof.
  repeat split; try reflexivity.
  - apply classify_fin_zero.
  - intros q [H0 H24]. now apply classify_fin_between.
  - apply classify_fin_above.
  - apply classify_in_labels.
  - unfold bucket_labels. apply NoDup_ListNoDup.
    repeat constructor; simpl; intuition discriminate.
Qed.

(** C10: every negative finite spread falls through to MORE_THAN_24_HOURS. *)
Theorem classify_negative_is_more_than_24 (q : Q) :
  (q < 0)%Q -> classify_spread_hours (Some (FFin q)) = MORE_THAN_24_HOURS.
Proof.
  intros Hneg. rewrite classify_fin_nonzero.
  - assert (E : Qle_bool q 0 = true) by (apply Qle_bool_iff, Qlt_le_weak, Hneg).
    now rewrite E.
  - intros Heq. rewrite Heq in Hneg. now apply Qlt_irrefl in Hneg.
Qed.

(** ** Aggregator: counts, extrema, groups *)

Lemma count_present_missing (s : list string) :
  count_present s + count_missing s = length s.
Proof.
  unfold count_present, count_missing.
  induction s as [|x s IH]; [reflexivity|].
  rewrite !filter_cons.
  destruct (decide (PyStr.strip x <> "")) as [Hx|Hx];
    destruct (decide (PyStr.strip x = "")) as [Hy|Hy]; simpl; try lia.
  - contradiction.
  - destruct (decide (PyStr.strip x = "")); tauto.
Qed.

Lemma count_present_app (s1 s2 : list string) :
  count_present (s1 ++ s2) = count_present s1 + count_present s2.
Proof. unfold count_present. now rewrite filter_app, length_app. Qed.

Lemma skipna_reduce_app_None op (s1 s2 : list (option Z)) :
  skipna_reduce op (s1 ++ None :: s2) = skipna_reduce op (s1 ++ s2).
Proof.
  unfold skipna_reduce. induction s1 as [|x s1 IH]; simpl; [reflexivity|].
  now rewrite IH.
Qed.

Lemma skipna_reduce_all_None op (s : list (option Z)) :
  skipna_reduce op s = None <-> Forall (fun x => x = None) s.
Proof.
  unfold skipna_reduce. induction s as [|x s IH]; simpl.
  - split; [constructor | reflexivity].
  - destruct x as [t|].
    + split.
      * destruct (foldr _ None s); discriminate.
      * intros H. inversion H; discriminate.
    + rewrite IH. split; [now constructor | intros H; now inversion H].
Qed.

Lemma skipna_reduce_Permutation op (s s' : list (option Z)) :
  (forall a b, op a b = op b a) ->
  (forall a b c, op a (op b c) = op (op a b) c) ->
  s ≡ₚ s' -> skipna_reduce op s = skipna_reduce op s'.
Proof.
  intros Hcomm Hassoc Hp. unfold skipna_reduce.
  induction Hp as [|x l l' _ IH|x y l|l l' l'' _ IH1 _ IH2]; simpl.
  - reflexivity.
  - now rewrite IH.
  - destruct x as [a|], y as [b|]; try reflexivity.
    destruct (foldr _ None l) as [m|]; f_equal.
    + now rewrite !Hassoc, (Hcomm b a).
    + apply Hcomm.
  - congruence.
Qed.

Lemma series_min_Permutation (s s' : list (option Z)) :
  s ≡ₚ s' -> series_min s = series_min s'.
Proof. apply skipna_reduce_Permutation; intros; lia. Qed.

Lemma series_max_Permutation (s s' : list (option Z)) :
  s ≡ₚ s' -> series_max s = series_max s'.
Proof. apply skipna_reduce_Permutation; intros; lia. Qed.

(** The minimum is one of the parsed cells and a lower bound of all of them. *)
Lemma series_min_spec (s : list (option Z)) (m : Z) :
  series_min s = Some m ->
  Some m ∈ s /\ (forall t, Some t ∈ s -> (m <= t)%Z).
Proof.
  unfold series_min, skipna_reduce. revert m.
  induction s as [|x s IH]; simpl; intros m Hm; [discriminate|].
  destruct x as [t|].
  - destruct (foldr _ None s) as [m'|] eqn:E.
    + injection Hm as <-. destruct (IH m' eq_refl) as [Hin Hlb]. split.
      * destruct (Z.min_spec t m') as [[_ ->]|[_ ->]]; [left | now right].
      * intros u Hu. apply elem_of_cons in Hu as [Hu|Hu].
        -- injection Hu as ->. lia.
        -- specialize (Hlb u Hu). lia.
    + injection Hm as <-. split; [left|].
      intros u Hu. apply elem_of_cons in Hu as [Hu|Hu].
      * injection Hu as ->. lia.
      * apply skipna_reduce_all_None in E. rewrite Forall_forall in E.
        specialize (E _ Hu). discriminate.
  - destruct (IH m Hm) as [Hin Hlb]. split; [now right|].
    intros u Hu. apply elem_of_cons in Hu as [Hu|Hu]; [discriminate | auto].
Qed.

Lemma series_max_spec (s : list (option Z)) (m : Z) :
  series_max s = Some m ->
  Some m ∈ s /\ (forall t, Some t ∈ s -> (t <= m)%Z).
Proof.
  unfold series_max, skipna_reduce. revert m.
  induction s as [|x s IH]; simpl; intros m Hm; [discriminate|].
  destruct x as [t|].
  - destruct (foldr _ None s) as [m'|] eqn:E.
    + injection Hm as <-. destruct (IH m' eq_refl) as [Hin Hlb]. split.
      * destruct (Z.max_spec t m') as [[_ ->]|[_ ->]]; [now right | left].
      * intros u Hu. apply elem_of_cons in Hu as [Hu|Hu].
        -- injection Hu as ->. lia.
        -- specialize (Hlb u Hu). lia.
    + injection Hm as <-. split; [left|].
      intros u Hu. apply elem_of_cons in Hu as [Hu|Hu].
      * injection Hu as ->. lia.
      * apply skipna_reduce_all_None in E. rewrite Forall_forall in E.
        specialize (E _ Hu). discriminate.
  - destruct (IH m Hm) as [Hin Hlb]. split; [now right|].
    intros u Hu. apply elem_of_cons in Hu as [Hu|Hu]; [discriminate | auto].
Qed.

Lemma elem_of_group_keys (cs : list ContainerRow) (k : string) :
  k ∈ group_keys cs <-> k ∈ map row_bol_id cs.
Proof.
  unfold group_keys. rewrite merge_sort_Permutation. apply elem_of_remove_dups.
Qed.

Lemma group_keys_NoDup (cs : list ContainerRow) : NoDup (group_keys cs).
Proof.
  unfold group_keys. rewrite merge_sort_Permutation. apply NoDup_remove_dups.
Qed.

Lemma group_keys_length (cs : list ContainerRow) :
  length (group_keys cs) = length (remove_dups (map row_bol_id cs)).
Proof. unfold group_keys. now rewrite merge_sort_Permutation. Qed.

Lemma group_keys_Sorted (cs : list ContainerRow) : Sorted String.le (group_keys cs).
Proof. apply (Sorted_merge_sort String.le). Qed.

Lemma group_keys_Permutation (cs cs' : list ContainerRow) :
  cs ≡ₚ cs' -> group_keys cs = group_keys cs'.
Proof.
  intros Hp. apply (Sorted_unique String.le); try apply group_keys_Sorted.
  unfold group_keys. rewrite !merge_sort_Permutation.
  apply NoDup_Permutation; try apply NoDup_remove_dups.
  intros k. rewrite !elem_of_remove_dups. now rewrite Hp.
Qed.

Lemma bol_spread_unfold (cs : list ContainerRow) :
  bol_spread cs = map (fun k => aggregate_group k (group_rows k cs)) (group_keys cs).
Proof. unfold bol_spread, groupby_bol_id. now rewrite map_map. Qed.

Lemma bol_spread_ids (cs : list ContainerRow) :
  map agg_bol_id (bol_spread cs) = group_keys cs.
Proof. rewrite bol_spread_unfold, map_map. simpl. apply map_id. Qed.

Lemma elem_of_bol_spread (cs : list ContainerRow) (a : BolAggregate) :
  a ∈ bol_spread cs <->
  exists k, k ∈ map row_bol_id cs /\ a = aggregate_group k (group_rows k cs).
Proof.
  rewrite bol_spread_unfold, list_elem_of_In, in_map_iff. split.
  - intros (k & <- & Hk). exists k. split; [|reflexivity].
    now apply elem_of_group_keys, list_elem_of_In.
  - intros (k & Hk & ->). exists k. split; [reflexivity|].
    now apply list_elem_of_In, elem_of_group_keys.
Qed.

Lemma aggregate_group_Permutation (k : string) (g g' : list ContainerRow) :
  g ≡ₚ g' -> aggregate_group k g = aggregate_group k g'.
Proof.
  intros Hp. unfold aggregate_group, count_present, count_missing.
  rewrite (series_min_Permutation (map eta_dt g) (map eta_dt g')) by now rewrite Hp.
  rewrite (series_max_Permutation (map eta_dt g) (map eta_dt g')) by now rewrite Hp.
  rewrite (series_min_Permutation (map ata_dt g) (map ata_dt g')) by now rewrite Hp.
  rewrite (series_max_Permutation (map ata_dt g) (map ata_dt g')) by now rewrite Hp.
  f_equal; now rewrite Hp.
Qed.

(** C3: in every row of the aggregate table the present and missing counts of
    ETA add up to the number of containers of the BOL, and so do those of ATA. *)
Theorem presence_counts_partition (cs : list ContainerRow) :
  Forall (fun a =>
            n_eta_present a + n_eta_missing a = n_containers a
            /\ n_ata_present a + n_ata_missing a = n_containers a)
         (bol_spread cs).
Proof.
  apply Forall_forall. intros a Ha.
  apply elem_of_bol_spread in Ha as (k & _ & ->). simpl.
  rewrite !count_present_missing, !length_map. split; reflexivity.
Qed.

(** C5: the aggregate table does not depend on the order of the container
    rows: two frames that are permutations of each other give the same groups
    in the same order with the same counts, extrema, spreads and buckets. *)
Theorem bol_spread_Permutation (cs cs' : list ContainerRow) :
  cs ≡ₚ cs' -> bol_spread cs = bol_spread cs'.
Proof.
  intros Hp. rewrite !bol_spread_unfold.
  rewrite (group_keys_Permutation cs cs' Hp).
  apply map_ext. intros k.
  apply aggregate_group_Permutation. unfold group_rows. now rewrite Hp.
Qed.

(** ** Timestamp columns *)

Lemma to_datetime_length dp (col : list string) :
  length (to_datetime dp col) = length col.
Proof. unfold to_datetime. apply length_map. Qed.

Lemma assign_timestamps_rows dp (crs : list InputRow) :
  map c_row (assign_timestamps dp crs) = crs.
Proof.
  unfold assign_timestamps.
  apply (fmap_zip_with_l (fun r dts => mkContainerRow r (fst dts) (snd dts)) c_row).
  - reflexivity.
  - rewrite length_zip_with_l_eq; rewrite !to_datetime_length, !length_map; lia.
Qed.

Lemma assign_timestamps_eta_dt dp (crs : list InputRow) :
  map eta_dt (assign_timestamps dp crs) = to_datetime dp (map eta crs).
Proof.
  unfold assign_timestamps.
  set (f := fun (r : InputRow) (dts : option Z * option Z) =>
              mkContainerRow r (fst dts) (snd dts)).
  set (e := to_datetime dp (map eta crs)).
  set (a := to_datetime dp (map ata crs)).
  assert (He : length e = length crs)
    by (unfold e; now rewrite to_datetime_length, length_map).
  assert (Ha : length a = length crs)
    by (unfold a; now rewrite to_datetime_length, length_map).
  clearbody e a. revert e a He Ha.
  induction crs as [|r crs IH]; intros [|x e] [|y a] He Ha; try discriminate;
    simpl in *; [reflexivity|].
  f_equal. apply IH; lia.
Qed.

Lemma assign_timestamps_ata_dt dp (crs : list InputRow) :
  map ata_dt (assign_timestamps dp crs) = to_datetime dp (map ata crs).
Proof.
  unfold assign_timestamps.
  set (f := fun (r : InputRow) (dts : option Z * option Z) =>
              mkContainerRow r (fst dts) (snd dts)).
  set (e := to_datetime dp (map eta crs)).
  set (a := to_datetime dp (map ata crs)).
  assert (He : length e = length crs)
    by (unfold e; now rewrite to_datetime_length, length_map).
  assert (Ha : length a = length crs)
    by (unfold a; now rewrite to_datetime_length, length_map).
  clearbody e a. revert e a He Ha.
  induction crs as [|r crs IH]; intros [|x e] [|y a] He Ha; try discriminate;
    simpl in *; [reflexivity|].
  f_equal. apply IH; lia.
Qed.

(** ** Mixed ATA presence *)

Lemma detail_as_filter (cs : list ContainerRow) (mixed : list string) :
  bol_mixed_ata_presence_detail cs mixed =
    filter (fun r => bol_id r ∈ mixed) (map c_row cs).
Proof.
  unfold bol_mixed_ata_presence_detail.
  induction cs as [|r cs IH]; [reflexivity|].
  simpl. rewrite !filter_cons.
  destruct (decide (bol_id (c_row r) ∈ mixed)); simpl; now rewrite IH.
Qed.

Lemma elem_of_mixed_ata_bols (spread : list BolAggregate) (k : string) :
  k ∈ mixed_ata_bols spread <->
  exists a, a ∈ spread /\ agg_bol_id a = k
            /\ (0 < n_ata_present a)%nat /\ (0 < n_ata_missing a)%nat.
Proof.
  unfold mixed_ata_bols. rewrite list_elem_of_In, in_map_iff. split.
  - intros (a & <- & Ha). apply list_elem_of_In, list_elem_of_filter in Ha as [[H1 H2] Ha].
    exists a. auto.
  - intros (a & Ha & <- & H1 & H2). exists a. split; [reflexivity|].
    apply list_elem_of_In, list_elem_of_filter. split; [split|]; assumption.
Qed.

Lemma bol_spread_id_in_rows (cs : list ContainerRow) (a : BolAggregate) :
  a ∈ bol_spread cs -> agg_bol_id a ∈ map bol_id (map c_row cs).
Proof.
  intros Ha. apply elem_of_bol_spread in Ha as (k & Hk & ->). simpl.
  now rewrite map_map.
Qed.

(** C2: a BOL shows up in the mixed ATA presence detail exactly when its
    aggregate has both a present and a missing ATA count above zero; its rows
    in the detail are then all the container rows of that BOL, and the detail
    keeps the order of the container rows; with no such BOL it is empty. *)
Theorem mixed_detail_correct dp (work_df : list InputRow) (rep : Report) :
  run dp work_df = Some rep ->
  let containers := container_rows work_df in
  let spread := bol_spread (assign_timestamps dp containers) in
  (forall k, k ∈ map bol_id (mixed_detail rep) <->
             exists a, a ∈ spread /\ agg_bol_id a = k
                       /\ (0 < n_ata_present a)%nat /\ (0 < n_ata_missing a)%nat)
  /\ (forall k, k ∈ map bol_id (mixed_detail rep) ->
                filter (fun r => bol_id r = k) (mixed_detail rep)
                = filter (fun r => bol_id r = k) containers)
  /\ mixed_detail rep
     = filter (fun r => bol_id r ∈ mixed_ata_bols spread) containers
  /\ (Forall (fun a => ~ is_mixed a) spread -> mixed_detail rep = []).
Proof.
  intros Hrun containers spread.
  assert (Hdet : mixed_detail rep
                 = filter (fun r => bol_id r ∈ mixed_ata_bols spread) containers).
  { unfold run in Hrun. fold containers in Hrun.
    destruct containers as [|r0 crs] eqn:E; [discriminate|].
    injection Hrun as <-. simpl. rewrite detail_as_filter.
    now rewrite assign_timestamps_rows. }
  assert (Hin : forall k, k ∈ map bol_id (mixed_detail rep) <->
                          k ∈ mixed_ata_bols spread).
  { intros k. rewrite Hdet, list_elem_of_In, in_map_iff. split.
    - intros (r & <- & Hr). now apply list_elem_of_In, list_elem_of_filter in Hr as [Hr _].
    - intros Hk. pose proof Hk as Hk'.
      apply elem_of_mixed_ata_bols in Hk' as (a & Ha & <- & _).
      apply bol_spread_id_in_rows in Ha. rewrite assign_timestamps_rows in Ha.
      apply list_elem_of_In, in_map_iff in Ha as (r & Hr & Hin).
      exists r. split; [assumption|].
      apply list_elem_of_In, list_elem_of_filter. split.
      + now rewrite Hr.
      + now apply list_elem_of_In. }
  repeat split.
  - intros Hk. now apply elem_of_mixed_ata_bols, Hin.
  - intros Hk. now apply Hin, elem_of_mixed_ata_bols.
  - intros k Hk. apply Hin in Hk. rewrite Hdet, list_filter_filter.
    apply list_filter_iff. intros r. split; [tauto|].
    intros ->. split; [reflexivity | assumption].
  - exact Hdet.
  - intros Hnone. rewrite Hdet.
    assert (Hm : mixed_ata_bols spread = []).
    { unfold mixed_ata_bols. replace (filter is_mixed spread) with (@nil BolAggregate); [reflexivity|].
      symmetry. clear -Hnone. induction Hnone as [|a l Ha _ IH]; [reflexivity|].
      rewrite filter_cons. destruct (decide (is_mixed a)); [contradiction | exact IH]. }
    rewrite Hm. clear. induction containers as [|r l IH]; [reflexivity|].
    rewrite filter_cons. destruct (decide (bol_id r ∈ [])) as [H|H]; [|exact IH].
    now apply elem_of_nil in H.
Qed.

(** ** Row classifier *)

Lemma container_rows_app (l1 l2 : list InputRow) :
  container_rows (l1 ++ l2) = container_rows l1 ++ container_rows l2.
Proof. unfold container_rows. apply List.filter_app. Qed.

Lemma container_rows_idem (work_df : list InputRow) :
  container_rows (container_rows work_df) = container_rows work_df.
Proof.
  unfold container_rows. induction work_df as [|r l IH]; [reflexivity|].
  simpl. destruct (is_container (shipment_type r)) eqn:E; [|exact IH].
  simpl. rewrite E. now f_equal.
Qed.

(** *** Reading a text *)

Lemma append_String (c : ascii) (a b : string) :
  String c a +:+ b = String c (a +:+ b).
Proof. reflexivity. Qed.

Lemma append_Empty (b : string) : "" +:+ b = b.
Proof. reflexivity. Qed.

Lemma append_Empty_r (a : string) : a +:+ "" = a.
Proof. induction a as [|c a IH]; [reflexivity|]. now rewrite append_String, IH. Qed.

Lemma append_assoc (a b c : string) : (a +:+ b) +:+ c = a +:+ (b +:+ c).
Proof. induction a as [|x a IH]; [reflexivity|]. now rewrite !append_String, IH. Qed.

Lemma untokens_app (l1 l2 : list PyStr.token) :
  PyStr.untokens (l1 ++ l2) = PyStr.untokens l1 +:+ PyStr.untokens l2.
Proof.
  induction l1 as [|t l1 IH]; [reflexivity|].
  simpl. now rewrite IH, append_assoc.
Qed.

(** The bytes after the first one of a white space character are
    continuation bytes, and its first byte is not. *)
Lemma isspace1_code (a : ascii) :
  PyStr.isspace1 a = true -> (PyStr.code a <= 32)%nat.
Proof. unfold PyStr.isspace1. intros H. bool_facts; lia. Qed.

Lemma isspace2_code (a b : ascii) :
  PyStr.isspace2 a b = true ->
  PyStr.code a = 194%nat /\ (128 <= PyStr.code b < 192)%nat.
Proof. unfold PyStr.isspace2. intros H. bool_facts; lia. Qed.

Lemma isspace3_code (a b c : ascii) :
  PyStr.isspace3 a b c = true ->
  (225 <= PyStr.code a <= 227)%nat
  /\ (128 <= PyStr.code b < 192)%nat /\ (128 <= PyStr.code c < 192)%nat.
Proof. unfold PyStr.isspace3. intros H. bool_facts; lia. Qed.

Lemma tokens_unfold (a : ascii) (s : string) :
  PyStr.tokens (String a s)
  = match PyStr.head_space (String a s) with
    | Some (enc, rest) => PyStr.Space enc :: PyStr.tokens rest
    | None => PyStr.Other a :: PyStr.tokens s
    end.
Proof.
  simpl. destruct (PyStr.isspace1 a); [reflexivity|].
  destruct s as [|b s]; [reflexivity|].
  destruct (PyStr.isspace2 a b); [reflexivity|].
  destruct s as [|c s]; [reflexivity|].
  destruct (PyStr.isspace3 a b c); reflexivity.
Qed.

Lemma head_space_Some (s enc rest : string) :
  PyStr.head_space s = Some (enc, rest) ->
  s = enc +:+ rest /\ (String.length rest < String.length s)%nat
  /\ forall x, PyStr.head_space (s +:+ x) = Some (enc, rest +:+ x).
Proof.
  destruct s as [|a s]; [discriminate|]. intros H.
  assert (Hx : forall x, PyStr.head_space (String a (s +:+ x)) = Some (enc, rest +:+ x)).
  { intros x. simpl in *. destruct (PyStr.isspace1 a); [now injection H as <- <-|].
    destruct s as [|b s]; [discriminate|]. rewrite append_String.
    destruct (PyStr.isspace2 a b); [now injection H as <- <-|].
    destruct s as [|c s]; [discriminate|]. rewrite append_String.
    destruct (PyStr.isspace3 a b c); [now injection H as <- <-|discriminate]. }
  simpl in H. destruct (PyStr.isspace1 a).
  { injection H as <- <-. split; [reflexivity|]. split; [simpl; lia | exact Hx]. }
  destruct s as [|b s]; [discriminate|].
  destruct (PyStr.isspace2 a b).
  { injection H as <- <-. split; [reflexivity|]. split; [simpl; lia | exact Hx]. }
  destruct s as [|c s]; [discriminate|].
  destruct (PyStr.isspace3 a b c); [|discriminate].
  injection H as <- <-. split; [reflexivity|]. split; [simpl; lia | exact Hx].
Qed.

Lemma head_space_None_app (a : ascii) (s x : string) :
  PyStr.head_space (String a s) = None -> starts_clean x ->
  PyStr.head_space (String a s +:+ x) = None.
Proof.
  rewrite append_String. simpl.
  destruct (PyStr.isspace1 a) eqn:E1; [discriminate|].
  destruct s as [|b s].
  { intros _ Hx. rewrite append_Empty. destruct x as [|y x]; [reflexivity|].
    simpl in Hx. destruct (PyStr.isspace2 a y) eqn:E2.
    { apply isspace2_code in E2. lia. }
    destruct x as [|z x]; [reflexivity|].
    destruct (PyStr.isspace3 a y z) eqn:E3; [|reflexivity].
    apply isspace3_code in E3. lia. }
  rewrite append_String.
  destruct (PyStr.isspace2 a b) eqn:E2; [discriminate|].
  destruct s as [|c s].
  { intros _ Hx. rewrite append_Empty. destruct x as [|z x]; [reflexivity|].
    simpl in Hx. destruct (PyStr.isspace3 a b z) eqn:E3; [|reflexivity].
    apply isspace3_code in E3. lia. }
  rewrite append_String.
  destruct (PyStr.isspace3 a b c) eqn:E3; [discriminate | reflexivity].
Qed.

Lemma string_length_ind (P : string -> Prop) :
  (forall s, (forall t, (String.length t < String.length s)%nat -> P t) -> P s) ->
  forall s, P s.
Proof.
  intros Hstep s.
  assert (H : forall n t, (String.length t < n)%nat -> P t).
  { induction n as [|n IH]; intros t Ht; [lia|].
    apply Hstep. intros u Hu. apply IH. lia. }
  apply (H (S (String.length s))). lia.
Qed.

Lemma untokens_tokens (s : string) : PyStr.untokens (PyStr.tokens s) = s.
Proof.
  induction s as [s IH] using string_length_ind.
  destruct s as [|a s]; [reflexivity|].
  rewrite tokens_unfold. destruct (PyStr.head_space (String a s)) as [[enc rest]|] eqn:E.
  - apply head_space_Some in E as (Hs & Hlen & _). simpl.
    rewrite IH by assumption. now rewrite Hs.
  - simpl. rewrite IH by (simpl; lia). reflexivity.
Qed.

(** Reading [a +:+ x] when [x] does not begin with a continuation byte. *)
Lemma tokens_app_clean (a x : string) :
  starts_clean x ->
  PyStr.tokens (a +:+ x) = PyStr.tokens a ++ PyStr.tokens x.
Proof.
  intros Hx. induction a as [a IH] using string_length_ind.
  destruct a as [|c a]; [reflexivity|].
  rewrite (tokens_unfold c a).
  destruct (PyStr.head_space (String c a)) as [[enc rest]|] eqn:E.
  - pose proof (head_space_Some _ _ _ E) as (Hs & Hlen & Happ).
    rewrite append_String, tokens_unfold.
    change (String c (a +:+ x)) with (String c a +:+ x). rewrite Happ.
    simpl. now rewrite IH.
  - pose proof (head_space_None_app c a x E Hx) as Hn.
    rewrite append_String, tokens_unfold.
    change (String c (a +:+ x)) with (String c a +:+ x) at 1. rewrite Hn.
    simpl. rewrite IH by (simpl; lia). reflexivity.
Qed.

(** Reading [a +:+ x] when [a] is white space. *)
Lemma tokens_app_space (a x : string) :
  PyStr.all_space a = true ->
  PyStr.tokens (a +:+ x) = PyStr.tokens a ++ PyStr.tokens x.
Proof.
  unfold PyStr.all_space. induction a as [a IH] using string_length_ind.
  destruct a as [|c a]; [reflexivity|].
  rewrite (tokens_unfold c a).
  destruct (PyStr.head_space (String c a)) as [[enc rest]|] eqn:E.
  - pose proof (head_space_Some _ _ _ E) as (Hs & Hlen & Happ).
    intros Hall. simpl in Hall.
    rewrite append_String, tokens_unfold.
    change (String c (a +:+ x)) with (String c a +:+ x). rewrite Happ.
    simpl. now rewrite IH.
  - intros Hall. simpl in Hall. discriminate.
Qed.

Lemma all_space_starts_clean (s : string) :
  PyStr.all_space s = true -> starts_clean s.
Proof.
  unfold PyStr.all_space. destruct s as [|a s]; [constructor|].
  simpl. destruct (PyStr.isspace1 a) eqn:E1.
  { intros _. apply isspace1_code in E1. lia. }
  destruct s as [|b s]; [discriminate|].
  destruct (PyStr.isspace2 a b) eqn:E2.
  { intros _. apply isspace2_code in E2. lia. }
  destruct s as [|c s]; [discriminate|].
  destruct (PyStr.isspace3 a b c) eqn:E3; [|discriminate].
  intros _. apply isspace3_code in E3. lia.
Qed.

Lemma all_space_append (a b : string) :
  PyStr.all_space a = true ->
  PyStr.all_space (a +:+ b) = PyStr.all_space b.
Proof.
  intros Ha. unfold PyStr.all_space. rewrite tokens_app_space by assumption.
  rewrite forallb_app. unfold PyStr.all_space in Ha. now rewrite Ha.
Qed.

Lemma head_space_enc (s enc rest : string) :
  PyStr.head_space s = Some (enc, rest) ->
  forall x, PyStr.head_space (enc +:+ x) = Some (enc, x).
Proof.
  destruct s as [|a s]; [discriminate|]. simpl.
  destruct (PyStr.isspace1 a) eqn:E1.
  { intros [= <- <-] x. simpl. now rewrite E1. }
  destruct s as [|b s]; [discriminate|].
  destruct (PyStr.isspace2 a b) eqn:E2.
  { intros [= <- <-] x. simpl. now rewrite E1, E2. }
  destruct s as [|c s]; [discriminate|].
  destruct (PyStr.isspace3 a b c) eqn:E3; [|discriminate].
  intros [= <- <-] x. simpl. now rewrite E1, E2, E3.
Qed.

Lemma tokens_valid (s : string) : Forall valid_token (PyStr.tokens s).
Proof.
  induction s as [s IH] using string_length_ind.
  destruct s as [|a s]; [constructor|].
  rewrite tokens_unfold.
  destruct (PyStr.head_space (String a s)) as [[enc rest]|] eqn:E.
  - pose proof (head_space_Some _ _ _ E) as (_ & Hlen & _).
    constructor; [exact (head_space_enc _ _ _ E) | now apply IH].
  - constructor; [exact I | apply IH; simpl; lia].
Qed.

Lemma tokens_space_prefix (sp : list PyStr.token) (x : string) :
  Forall valid_token sp -> forallb PyStr.is_space sp = true ->
  PyStr.tokens (PyStr.untokens sp +:+ x) = sp ++ PyStr.tokens x.
Proof.
  induction 1 as [|t sp Ht _ IH]; [reflexivity|].
  simpl. intros Hsp. apply andb_true_iff in Hsp as [Hs Hsp].
  destruct t as [enc|b]; [|discriminate]. simpl in *.
  rewrite append_assoc.
  pose proof (Ht (PyStr.untokens sp +:+ x)) as Hh.
  destruct (enc +:+ (PyStr.untokens sp +:+ x)) as [|a r] eqn:E; [discriminate|].
  rewrite tokens_unfold, Hh. now rewrite IH.
Qed.

(** *** White space at the two ends of a token list *)

Lemma lstrip_tokens_decompose (l : list PyStr.token) :
  exists sp, l = sp ++ PyStr.lstrip_tokens l /\ forallb PyStr.is_space sp = true.
Proof.
  induction l as [|t l (sp & Hl & Hsp)]; simpl.
  - exists []. split; reflexivity.
  - destruct (PyStr.is_space t) eqn:Et.
    + exists (t :: sp). simpl. rewrite Et, Hsp. split; [now f_equal | reflexivity].
    + exists []. split; reflexivity.
Qed.

Lemma rstrip_tokens_decompose (l : list PyStr.token) :
  exists sp, l = PyStr.rstrip_tokens l ++ sp /\ forallb PyStr.is_space sp = true.
Proof.
  induction l as [|t l (sp & Hl & Hsp)]; simpl.
  - exists []. split; reflexivity.
  - destruct (PyStr.rstrip_tokens l) as [|u r] eqn:Er.
    + simpl in Hl. subst sp. destruct (PyStr.is_space t) eqn:Et.
      * exists (t :: l). simpl. rewrite Et, Hsp. split; reflexivity.
      * exists l. split; [reflexivity | assumption].
    + exists sp. split; [simpl; now f_equal | assumption].
Qed.

Lemma lstrip_tokens_app_space (sp l : list PyStr.token) :
  forallb PyStr.is_space sp = true ->
  PyStr.lstrip_tokens (sp ++ l) = PyStr.lstrip_tokens l.
Proof.
  induction sp as [|t sp IH]; [reflexivity|].
  simpl. intros H. apply andb_true_iff in H as [Ht Hsp]. rewrite Ht. now apply IH.
Qed.

Lemma rstrip_tokens_nil_iff (l : list PyStr.token) :
  PyStr.rstrip_tokens l = [] <-> forallb PyStr.is_space l = true.
Proof.
  induction l as [|t l IH]; simpl; [tauto|].
  destruct (PyStr.rstrip_tokens l) as [|u r] eqn:Er.
  - destruct IH as [IH _]. rewrite (IH eq_refl), andb_true_r.
    destruct (PyStr.is_space t); split; congruence.
  - split; [discriminate|]. intros H. apply andb_true_iff in H as [_ H].
    apply IH in H. discriminate.
Qed.

Lemma lstrip_tokens_all_space (l : list PyStr.token) :
  forallb PyStr.is_space l = true -> PyStr.lstrip_tokens l = [].
Proof.
  intros H. rewrite <- (app_nil_r l). now rewrite lstrip_tokens_app_space.
Qed.

Lemma rstrip_tokens_app_space (l sp : list PyStr.token) :
  forallb PyStr.is_space sp = true ->
  PyStr.rstrip_tokens (l ++ sp) = PyStr.rstrip_tokens l.
Proof.
  intros Hsp. induction l as [|t l IH]; simpl.
  - now apply rstrip_tokens_nil_iff.
  - now rewrite IH.
Qed.

Lemma forallb_lstrip_tokens (l : list PyStr.token) :
  forallb PyStr.is_space (PyStr.lstrip_tokens l) = forallb PyStr.is_space l.
Proof.
  induction l as [|t l IH]; [reflexivity|].
  simpl. destruct (PyStr.is_space t) eqn:Et; simpl; [exact IH | now rewrite Et].
Qed.

Lemma strip_tokens_nil_iff (l : list PyStr.token) :
  PyStr.strip_tokens l = [] <-> forallb PyStr.is_space l = true.
Proof. unfold PyStr.strip_tokens. now rewrite rstrip_tokens_nil_iff, forallb_lstrip_tokens. Qed.

Lemma lstrip_tokens_head (l : list PyStr.token) (t : PyStr.token) (r : list PyStr.token) :
  PyStr.lstrip_tokens l = t :: r -> PyStr.is_space t = false.
Proof.
  induction l as [|u l IH]; simpl; [discriminate|].
  destruct (PyStr.is_space u) eqn:Eu; [exact IH | now intros [= <- <-]].
Qed.

Lemma rstrip_tokens_head (l : list PyStr.token) (t : PyStr.token) (r : list PyStr.token) :
  PyStr.rstrip_tokens l = t :: r -> exists l', l = t :: l'.
Proof.
  destruct l as [|u l]; simpl; [discriminate|].
  destruct (PyStr.rstrip_tokens l); [destruct (PyStr.is_space u)|];
    intros [= <- <-] || discriminate; eauto.
Qed.

Lemma last_cons_default {A : Type} (l : list A) (a d d' : A) :
  List.last (a :: l) d = List.last (a :: l) d'.
Proof.
  revert a. induction l as [|b l IH]; intros a; [reflexivity|].
  change (List.last (b :: l) d = List.last (b :: l) d'). apply IH.
Qed.

Lemma rstrip_tokens_last (l : list PyStr.token) (t : PyStr.token) (r : list PyStr.token) :
  PyStr.rstrip_tokens l = t :: r -> PyStr.is_space (List.last r t) = false.
Proof.
  revert t r. induction l as [|u l IH]; simpl; [discriminate|].
  intros t r. destruct (PyStr.rstrip_tokens l) as [|v w] eqn:Er.
  - destruct (PyStr.is_space u) eqn:Eu; [discriminate|]. now intros [= <- <-].
  - intros [= <- <-]. specialize (IH v w eq_refl).
    rewrite (last_cons_default w v u v).
    destruct w; exact IH.
Qed.

Lemma strip_tokens_tight (l : list PyStr.token) :
  PyStr.tight_tokens (PyStr.strip_tokens l) = true.
Proof.
  unfold PyStr.strip_tokens, PyStr.tight_tokens.
  destruct (PyStr.rstrip_tokens (PyStr.lstrip_tokens l)) as [|t r] eqn:E; [reflexivity|].
  pose proof (rstrip_tokens_last _ _ _ E) as Hlast.
  apply rstrip_tokens_head in E as [l' E].
  apply lstrip_tokens_head in E. now rewrite E, Hlast.
Qed.

Lemma rstrip_tokens_tight (l : list PyStr.token) :
  PyStr.tight_tokens l = true -> PyStr.rstrip_tokens l = l.
Proof.
  assert (H : forall (r : list PyStr.token) t,
             PyStr.is_space (List.last r t) = false ->
             PyStr.rstrip_tokens (t :: r) = t :: r).
  { induction r as [|u r IH]; intros t Ht.
    - simpl in *. now rewrite Ht.
    - assert (E : PyStr.rstrip_tokens (u :: r) = u :: r).
      { apply IH. rewrite (last_cons_default r u t u) in Ht.
        destruct r; exact Ht. }
      change (PyStr.rstrip_tokens (t :: u :: r))
        with (match PyStr.rstrip_tokens (u :: r) with
              | [] => if PyStr.is_space t then [] else [t]
              | r0 => t :: r0
              end).
      now rewrite E. }
  destruct l as [|t r]; [reflexivity|]. simpl.
  intros Ht. apply andb_true_iff in Ht as [_ Ht]. apply negb_true_iff in Ht.
  exact (H r t Ht).
Qed.

Lemma strip_tokens_padded (sp l sp' : list PyStr.token) :
  forallb PyStr.is_space sp = true -> forallb PyStr.is_space sp' = true ->
  PyStr.tight_tokens l = true ->
  PyStr.strip_tokens (sp ++ l ++ sp') = l.
Proof.
  intros Hsp Hsp' Hl. unfold PyStr.strip_tokens.
  rewrite lstrip_tokens_app_space by assumption.
  destruct l as [|t r].
  - simpl. now rewrite lstrip_tokens_all_space.
  - assert (Ht : PyStr.is_space t = false).
    { simpl in Hl. apply andb_true_iff in Hl as [Ht _]. now apply negb_true_iff in Ht. }
    change ((t :: r) ++ sp') with (t :: (r ++ sp')).
    cbn [PyStr.lstrip_tokens]. rewrite Ht.
    change (t :: (r ++ sp')) with ((t :: r) ++ sp').
    rewrite rstrip_tokens_app_space by assumption.
    now apply rstrip_tokens_tight.
Qed.

Lemma strip_tokens_pad (sp l sp' : list PyStr.token) :
  forallb PyStr.is_space sp = true -> forallb PyStr.is_space sp' = true ->
  PyStr.strip_tokens (sp ++ l ++ sp') = PyStr.strip_tokens l.
Proof.
  intros Hsp Hsp'.
  destruct (lstrip_tokens_decompose l) as (s1 & Hl1 & Hs1).
  destruct (rstrip_tokens_decompose (PyStr.lstrip_tokens l)) as (s2 & Hl2 & Hs2).
  transitivity (PyStr.strip_tokens ((sp ++ s1) ++ PyStr.strip_tokens l ++ (s2 ++ sp'))).
  { f_equal. rewrite <- !app_assoc. f_equal.
    rewrite (app_assoc _ s2 sp'). unfold PyStr.strip_tokens. rewrite <- Hl2.
    rewrite app_assoc, <- Hl1. reflexivity. }
  apply strip_tokens_padded.
  - now rewrite forallb_app, Hsp, Hs1.
  - now rewrite forallb_app, Hs2, Hsp'.
  - apply strip_tokens_tight.
Qed.

(** *** [strip] on texts *)

Lemma tokens_untokens_space (sp : list PyStr.token) :
  Forall valid_token sp -> forallb PyStr.is_space sp = true ->
  PyStr.tokens (PyStr.untokens sp) = sp.
Proof.
  intros Hv Hs. rewrite <- (append_Empty_r (PyStr.untokens sp)).
  rewrite tokens_space_prefix by assumption. apply app_nil_r.
Qed.

Lemma all_space_untokens (sp : list PyStr.token) :
  Forall valid_token sp -> forallb PyStr.is_space sp = true ->
  PyStr.all_space (PyStr.untokens sp) = true.
Proof.
  intros Hv Hs. unfold PyStr.all_space. now rewrite tokens_untokens_space.
Qed.

(** The tokens of a text: white space, the tokens [strip] keeps, white
    space. *)
Lemma strip_parts (s : string) :
  exists sp sp',
    PyStr.tokens s = sp ++ PyStr.strip_tokens (PyStr.tokens s) ++ sp'
    /\ forallb PyStr.is_space sp = true /\ forallb PyStr.is_space sp' = true
    /\ Forall valid_token sp /\ Forall valid_token sp'.
Proof.
  destruct (lstrip_tokens_decompose (PyStr.tokens s)) as (sp & H1 & Hsp).
  destruct (rstrip_tokens_decompose (PyStr.lstrip_tokens (PyStr.tokens s)))
    as (sp' & H2 & Hsp').
  assert (E : PyStr.tokens s = sp ++ PyStr.strip_tokens (PyStr.tokens s) ++ sp').
  { unfold PyStr.strip_tokens. now rewrite <- H2. }
  exists sp, sp'. split; [exact E|]. split; [exact Hsp|]. split; [exact Hsp'|].
  pose proof (tokens_valid s) as Hv. rewrite E in Hv.
  apply Forall_app in Hv as [Hv1 Hv2]. apply Forall_app in Hv2 as [_ Hv2].
  split; assumption.
Qed.

Lemma tokens_strip (s : string) :
  PyStr.tokens (PyStr.strip s) = PyStr.strip_tokens (PyStr.tokens s).
Proof.
  destruct (strip_parts s) as (sp & sp' & E & Hsp & Hsp' & Hv & Hv').
  unfold PyStr.strip.
  set (m := PyStr.strip_tokens (PyStr.tokens s)) in *.
  pose proof (untokens_tokens s) as Hs. rewrite E, !untokens_app in Hs.
  pose proof E as E'. rewrite <- Hs in E' at 1.
  rewrite tokens_space_prefix in E' by assumption.
  apply app_inv_head in E'.
  rewrite tokens_app_clean in E'
    by (apply all_space_starts_clean, all_space_untokens; assumption).
  rewrite (tokens_untokens_space sp') in E' by assumption.
  now apply app_inv_tail in E'.
Qed.

Lemma strip_empty_iff (s : string) :
  PyStr.strip s = "" <-> PyStr.all_space s = true.
Proof.
  unfold PyStr.all_space. rewrite <- strip_tokens_nil_iff. split.
  - intros H. rewrite <- tokens_strip, H. reflexivity.
  - intros H. unfold PyStr.strip. now rewrite H.
Qed.

Lemma strip_decompose (s : string) :
  exists pre post,
    s = pre +:+ PyStr.strip s +:+ post
    /\ PyStr.all_space pre = true /\ PyStr.all_space post = true
    /\ PyStr.tight (PyStr.strip s) = true.
Proof.
  destruct (strip_parts s) as (sp & sp' & E & Hsp & Hsp' & Hv & Hv').
  exists (PyStr.untokens sp), (PyStr.untokens sp').
  split; [|split; [|split]].
  - unfold PyStr.strip. rewrite <- !untokens_app, <- E. symmetry. apply untokens_tokens.
  - now apply all_space_untokens.
  - now apply all_space_untokens.
  - unfold PyStr.tight. rewrite tokens_strip. apply strip_tokens_tight.
Qed.

Lemma tokens_padded (pre s post : string) :
  PyStr.all_space pre = true -> PyStr.all_space post = true ->
  PyStr.tokens (pre +:+ s +:+ post)
  = PyStr.tokens pre ++ PyStr.tokens s ++ PyStr.tokens post.
Proof.
  intros Hpre Hpost. rewrite tokens_app_space by assumption.
  now rewrite tokens_app_clean by (now apply all_space_starts_clean).
Qed.

Lemma strip_padded (pre core post : string) :
  PyStr.all_space pre = true -> PyStr.all_space post = true ->
  PyStr.tight core = true ->
  PyStr.strip (pre +:+ core +:+ post) = core.
Proof.
  intros Hpre Hpost Hcore. unfold PyStr.strip.
  rewrite tokens_padded by assumption.
  rewrite strip_tokens_padded by assumption. apply untokens_tokens.
Qed.

Lemma strip_pad (pre s post : string) :
  PyStr.all_space pre = true -> PyStr.all_space post = true ->
  PyStr.strip (pre +:+ s +:+ post) = PyStr.strip s.
Proof.
  intros Hpre Hpost. unfold PyStr.strip.
  rewrite tokens_padded by assumption.
  now rewrite strip_tokens_pad by assumption.
Qed.

(** *** Blank texts *)

Lemma byte_of_code (a : ascii) (n : nat) :
  PyStr.code a = n -> a = ascii_of_nat n.
Proof. intros <-. symmetry. apply ascii_nat_embedding. Qed.

Lemma is_ws_enc_whitespace (enc : string) :
  is_ws_enc enc = true <-> exists cp, In cp PyStr.whitespace /\ enc = PyStr.utf8 cp.
Proof.
  unfold is_ws_enc. rewrite existsb_exists. split.
  - intros (x & Hin & Heq). apply in_map_iff in Hin as (cp & <- & Hcp).
    apply String.eqb_eq in Heq. eauto.
  - intros (cp & Hcp & ->). exists (PyStr.utf8 cp). split.
    + now apply in_map.
    + apply String.eqb_refl.
Qed.

Lemma isspace1_ws (a : ascii) :
  PyStr.isspace1 a = true -> is_ws_enc (String a "") = true.
Proof.
  destruct a as [[] [] [] [] [] [] [] []]; vm_compute; intros H;
    first [discriminate H | reflexivity].
Qed.

Lemma isspace2_ws (a b : ascii) :
  PyStr.isspace2 a b = true -> is_ws_enc (String a (String b "")) = true.
Proof.
  unfold PyStr.isspace2. intros H. bool_facts;
    match goal with
    | Ha : PyStr.code a = _, Hb : PyStr.code b = _ |- _ =>
        apply byte_of_code in Ha, Hb; subst a b; reflexivity
    end.
Qed.

Lemma isspace3_ws (a b c : ascii) :
  PyStr.isspace3 a b c = true ->
  is_ws_enc (String a (String b (String c ""))) = true.
Proof.
  intros H.
  assert (Hab : (PyStr.code a = 225 /\ PyStr.code b = 154
                 \/ PyStr.code a = 226 /\ PyStr.code b = 128
                 \/ PyStr.code a = 226 /\ PyStr.code b = 129
                 \/ PyStr.code a = 227 /\ PyStr.code b = 128)%nat).
  { revert H. unfold PyStr.isspace3. intros H. bool_facts; lia. }
  destruct Hab as [[Ha Hb]|[[Ha Hb]|[[Ha Hb]|[Ha Hb]]]];
    apply byte_of_code in Ha, Hb; subst a b;
    destruct c as [[] [] [] [] [] [] [] []]; revert H; vm_compute; intros H;
    first [discriminate H | reflexivity].
Qed.

Lemma head_space_ws (s enc rest : string) :
  PyStr.head_space s = Some (enc, rest) -> is_ws_enc enc = true.
Proof.
  destruct s as [|a s]; [discriminate|]. simpl.
  destruct (PyStr.isspace1 a) eqn:E1.
  { intros [= <- <-]. now apply isspace1_ws. }
  destruct s as [|b s]; [discriminate|].
  destruct (PyStr.isspace2 a b) eqn:E2.
  { intros [= <- <-]. now apply isspace2_ws. }
  destruct s as [|c s]; [discriminate|].
  destruct (PyStr.isspace3 a b c) eqn:E3; [|discriminate].
  intros [= <- <-]. now apply isspace3_ws.
Qed.

Lemma all_space_utf8 (cp : N) :
  In cp PyStr.whitespace -> PyStr.all_space (PyStr.utf8 cp) = true.
Proof.
  unfold PyStr.whitespace. simpl.
  intros H. repeat (destruct H as [<-|H]; [reflexivity|]). destruct H.
Qed.

(** [all_space] decides blankness. *)
Lemma all_space_blank (s : string) :
  PyStr.all_space s = true <-> PyStr.blank s.
Proof.
  split.
  - induction s as [s IH] using string_length_ind.
    destruct s as [|a s]; [constructor|].
    unfold PyStr.all_space. rewrite tokens_unfold.
    destruct (PyStr.head_space (String a s)) as [[enc rest]|] eqn:E;
      [|discriminate].
    simpl. intros Hrest.
    pose proof (head_space_Some _ _ _ E) as (Hs & Hlen & _).
    apply head_space_ws, is_ws_enc_whitespace in E as (cp & Hcp & ->).
    rewrite Hs. constructor; [assumption|]. now apply IH.
  - induction 1 as [|cp s Hcp _ IH]; [reflexivity|].
    rewrite all_space_append; [exact IH | now apply all_space_utf8].
Qed.

Lemma strip_empty_blank (s : string) :
  PyStr.strip s = "" <-> PyStr.blank s.
Proof. now rewrite strip_empty_iff, all_space_blank. Qed.

(** *** Trimmed texts *)

Lemma tight_tokens_prefix (sp l : list PyStr.token) :
  PyStr.tight_tokens (sp ++ l) = true -> forallb PyStr.is_space sp = true ->
  sp = [].
Proof.
  destruct sp as [|t sp]; [reflexivity|]. simpl.
  intros H1 H2. apply andb_true_iff in H2 as [H2 _]. rewrite H2 in H1. discriminate.
Qed.

Lemma tight_tokens_suffix (l sp : list PyStr.token) :
  PyStr.tight_tokens (l ++ sp) = true -> forallb PyStr.is_space sp = true ->
  sp = [].
Proof.
  intros H1 H2. apply rstrip_tokens_tight in H1.
  rewrite rstrip_tokens_app_space in H1 by assumption.
  destruct (rstrip_tokens_decompose l) as (sp0 & Hl & _).
  apply (f_equal (@length _)) in H1, Hl. rewrite length_app in H1, Hl.
  destruct sp; [reflexivity|]. simpl in H1. lia.
Qed.

Lemma tokens_nil (s : string) : PyStr.tokens s = [] -> s = "".
Proof. intros H. rewrite <- (untokens_tokens s), H. reflexivity. Qed.

Lemma tight_trimmed (s : string) :
  PyStr.tight s = true <-> PyStr.trimmed s.
Proof.
  unfold PyStr.tight. split.
  - intros Ht. split.
    + intros ws rest -> Hws. apply all_space_blank in Hws.
      rewrite tokens_app_space in Ht by assumption.
      apply tokens_nil. now apply (tight_tokens_prefix _ _ Ht).
    + intros rest ws -> Hws. apply all_space_blank in Hws.
      rewrite tokens_app_clean in Ht by (now apply all_space_starts_clean).
      apply tokens_nil. now apply (tight_tokens_suffix _ _ Ht).
  - intros [Hpre Hpost].
    destruct (strip_decompose s) as (pre & post & Hs & Hp & Hq & Ht).
    assert (pre = "") as ->.
    { apply (Hpre pre (PyStr.strip s +:+ post) Hs). now apply all_space_blank. }
    assert (post = "") as ->.
    { apply (Hpost (PyStr.strip s) post Hs). now apply all_space_blank. }
    rewrite append_Empty, append_Empty_r in Hs. rewrite Hs. exact Ht.
Qed.

(** *** ASCII text *)

Lemma is_ascii_app (a b : string) :
  PyStr.is_ascii (a +:+ b) = PyStr.is_ascii a && PyStr.is_ascii b.
Proof.
  induction a as [|c a IH]; [reflexivity|].
  rewrite append_String. simpl. now rewrite IH, andb_assoc.
Qed.

Lemma is_ascii_strip (s : string) :
  PyStr.is_ascii s = true -> PyStr.is_ascii (PyStr.strip s) = true.
Proof.
  destruct (strip_decompose s) as (pre & post & Hs & _).
  intros H. rewrite Hs, !is_ascii_app in H.
  apply andb_true_iff in H as [_ H]. now apply andb_true_iff in H as [H _].
Qed.

Lemma ascii_upper_app (a b : string) :
  PyStr.ascii_upper (a +:+ b) = PyStr.ascii_upper a +:+ PyStr.ascii_upper b.
Proof.
  induction a as [|c a IH]; [reflexivity|].
  rewrite append_String. simpl. now rewrite IH.
Qed.

(** A byte is left alone, or it is a letter and becomes a letter. *)
Lemma ascii_upper_char_cases (a : ascii) :
  PyStr.ascii_upper_char a = a
  \/ (97 <= PyStr.code a <= 122
      /\ 65 <= PyStr.code (PyStr.ascii_upper_char a) <= 90)%nat.
Proof.
  unfold PyStr.ascii_upper_char.
  destruct ((97 <=? PyStr.code a) && (PyStr.code a <=? 122))%nat eqn:E;
    [right | now left].
  bool_facts. unfold PyStr.code in *. split; [lia|].
  rewrite nat_ascii_embedding by lia. lia.
Qed.

Lemma isspace1_upper (a : ascii) :
  PyStr.isspace1 (PyStr.ascii_upper_char a) = PyStr.isspace1 a.
Proof.
  destruct (ascii_upper_char_cases a) as [->|[Ha Ha']]; [reflexivity|].
  unfold PyStr.isspace1. transitivity false; [|symmetry]; bool_false.
Qed.

Lemma isspace2_upper (a b : ascii) :
  PyStr.isspace2 (PyStr.ascii_upper_char a) (PyStr.ascii_upper_char b)
  = PyStr.isspace2 a b.
Proof.
  destruct (ascii_upper_char_cases a) as [->|[Ha Ha']];
    destruct (ascii_upper_char_cases b) as [->|[Hb Hb']];
    try reflexivity;
    unfold PyStr.isspace2; (transitivity false; [|symmetry]); bool_false.
Qed.

Lemma isspace3_upper (a b c : ascii) :
  PyStr.isspace3 (PyStr.ascii_upper_char a) (PyStr.ascii_upper_char b)
    (PyStr.ascii_upper_char c)
  = PyStr.isspace3 a b c.
Proof.
  destruct (ascii_upper_char_cases a) as [->|[Ha Ha']];
    destruct (ascii_upper_char_cases b) as [->|[Hb Hb']];
    destruct (ascii_upper_char_cases c) as [->|[Hc Hc']];
    try reflexivity;
    unfold PyStr.isspace3; (transitivity false; [|symmetry]); bool_false.
Qed.

Lemma isspace1_not_letter (a : ascii) :
  PyStr.isspace1 a = true -> PyStr.ascii_upper_char a = a.
Proof.
  intros H. destruct (ascii_upper_char_cases a) as [E|[Ha _]]; [exact E|].
  apply isspace1_code in H. lia.
Qed.

Lemma continuation_not_letter (a : ascii) :
  (128 <= PyStr.code a)%nat -> PyStr.ascii_upper_char a = a.
Proof.
  intros H. destruct (ascii_upper_char_cases a) as [E|[Ha _]]; [exact E|lia].
Qed.

(** The letters a to z are in no white space character, so upper-casing
    them changes neither where the white space is nor what it is. *)
Lemma head_space_upper (s : string) :
  PyStr.head_space (PyStr.ascii_upper s)
  = match PyStr.head_space s with
    | Some (enc, rest) => Some (enc, PyStr.ascii_upper rest)
    | None => None
    end.
Proof.
  destruct s as [|a s]; [reflexivity|]. simpl.
  rewrite isspace1_upper. destruct (PyStr.isspace1 a) eqn:E1.
  { now rewrite isspace1_not_letter. }
  destruct s as [|b s]; [reflexivity|]. simpl.
  rewrite isspace2_upper. destruct (PyStr.isspace2 a b) eqn:E2.
  { apply isspace2_code in E2 as [Ha Hb].
    rewrite !continuation_not_letter by lia. reflexivity. }
  destruct s as [|c s]; [reflexivity|]. simpl.
  rewrite isspace3_upper. destruct (PyStr.isspace3 a b c) eqn:E3; [|reflexivity].
  apply isspace3_code in E3 as (Ha & Hb & Hc).
  rewrite !continuation_not_letter by lia. reflexivity.
Qed.

Lemma ascii_upper_length (s : string) :
  String.length (PyStr.ascii_upper s) = String.length s.
Proof. induction s as [|c s IH]; [reflexivity|]. simpl. now rewrite IH. Qed.

Lemma tokens_ascii_upper (s : string) :
  PyStr.tokens (PyStr.ascii_upper s) = map upper_token (PyStr.tokens s).
Proof.
  induction s as [s IH] using string_length_ind.
  destruct s as [|a s]; [reflexivity|].
  change (PyStr.ascii_upper (String a s))
    with (String (PyStr.ascii_upper_char a) (PyStr.ascii_upper s)).
  rewrite !tokens_unfold.
  change (String (PyStr.ascii_upper_char a) (PyStr.ascii_upper s))
    with (PyStr.ascii_upper (String a s)).
  rewrite head_space_upper.
  destruct (PyStr.head_space (String a s)) as [[enc rest]|] eqn:E.
  - pose proof (head_space_Some _ _ _ E) as (_ & Hlen & _).
    simpl. now rewrite IH.
  - simpl. rewrite IH by (simpl; lia). reflexivity.
Qed.

Lemma is_space_upper_token (t : PyStr.token) :
  PyStr.is_space (upper_token t) = PyStr.is_space t.
Proof. now destruct t. Qed.

Lemma lstrip_tokens_upper (l : list PyStr.token) :
  PyStr.lstrip_tokens (map upper_token l) = map upper_token (PyStr.lstrip_tokens l).
Proof.
  induction l as [|t l IH]; [reflexivity|].
  simpl. rewrite is_space_upper_token. now destruct (PyStr.is_space t).
Qed.

Lemma rstrip_tokens_upper (l : list PyStr.token) :
  PyStr.rstrip_tokens (map upper_token l) = map upper_token (PyStr.rstrip_tokens l).
Proof.
  induction l as [|t l IH]; [reflexivity|].
  simpl. rewrite IH, is_space_upper_token.
  destruct (PyStr.rstrip_tokens l); [now destruct (PyStr.is_space t) | reflexivity].
Qed.

Lemma untokens_upper (l : list PyStr.token) :
  Forall valid_token l ->
  PyStr.untokens (map upper_token l) = PyStr.ascii_upper (PyStr.untokens l).
Proof.
  induction 1 as [|t l Ht _ IH]; [reflexivity|].
  simpl. rewrite ascii_upper_app, IH. f_equal.
  destruct t as [enc|b]; [|reflexivity]. simpl in *.
  specialize (Ht ""). rewrite append_Empty_r in Ht.
  pose proof (head_space_upper enc) as Hu. rewrite Ht in Hu.
  apply head_space_Some in Hu as (Hu & _). now rewrite append_Empty_r in Hu.
Qed.

Lemma strip_ascii_upper (s : string) :
  PyStr.strip (PyStr.ascii_upper s) = PyStr.ascii_upper (PyStr.strip s).
Proof.
  unfold PyStr.strip, PyStr.strip_tokens.
  rewrite tokens_ascii_upper, lstrip_tokens_upper, rstrip_tokens_upper.
  apply untokens_upper.
  change (Forall valid_token (PyStr.strip_tokens (PyStr.tokens s))).
  rewrite <- tokens_strip. apply tokens_valid.
Qed.

Lemma upper_strip_ascii (s : string) :
  PyStr.is_ascii s = true ->
  PyStr.upper (PyStr.strip s) = PyStr.strip (PyStr.ascii_upper s).
Proof.
  intros Hs. rewrite PyStr.upper_ascii by (now apply is_ascii_strip).
  symmetry. apply strip_ascii_upper.
Qed.

Lemma is_container_iff (st : string) :
  is_container st = true <->
  PyStr.upper (PyStr.strip st) = "CONTAINER"
  \/ PyStr.upper (PyStr.strip st) = "CONTAINER_ID".
Proof.
  unfold is_container, PyStr.isin. simpl.
  rewrite !orb_true_iff, !String.eqb_eq. intuition discriminate.
Qed.

Lemma strip_decompose_blank (st : string) :
  exists pre post,
    st = pre +:+ PyStr.strip st +:+ post
    /\ PyStr.blank pre /\ PyStr.blank post /\ PyStr.trimmed (PyStr.strip st).
Proof.
  destruct (strip_decompose st) as (pre & post & Hst & Hpre & Hpost & Ht).
  exists pre, post. split; [exact Hst|].
  split; [now apply all_space_blank|].
  split; [now apply all_space_blank | now apply tight_trimmed].
Qed.

Lemma strip_padded_blank (pre core post : string) :
  PyStr.blank pre -> PyStr.blank post -> PyStr.trimmed core ->
  PyStr.strip (pre +:+ core +:+ post) = core.
Proof.
  intros Hpre Hpost Hcore.
  apply strip_padded; [now apply all_space_blank .. | now apply tight_trimmed].
Qed.

Lemma run_checked_unfold raises dp (work_df : list InputRow) :
  run_checked raises dp work_df
  = if decide (container_rows work_df = []) then NoContainers
    else if raises (map eta (container_rows work_df))
            || raises (map ata (container_rows work_df))
         then Failed
    else let cs := assign_timestamps dp (container_rows work_df) in
         if column_sub_raises eta_max eta_min (bol_spread cs)
            || column_sub_raises ata_max ata_min (bol_spread cs)
         then Failed
         else Completed (report_of cs).
Proof.
  unfold run_checked, pd_to_datetime.
  destruct (container_rows work_df) as [|r crs]; [reflexivity|].
  rewrite decide_False by discriminate.
  destruct (raises (map eta (r :: crs))); [reflexivity|].
  destruct (raises (map ata (r :: crs))); reflexivity.
Qed.

(** C6: a shipment type passes the container test exactly when its trimmed,
    upper-cased text is CONTAINER or CONTAINER_ID.  Trimming takes a text
    apart into white space characters, a text with no white space character
    at either end, and white space characters, and keeps the middle; so the
    test is passed exactly by the texts that are such a padding around a
    text that upper-cases to one of the two words, and on ASCII text the
    upper-casing is the one of the letters a to z.  Container passes; TRUCK,
    CONTAINERS and MY CONTAINER do not.  A row that fails the test leaves
    every output of the run unchanged. *)
Theorem is_container_correct :
  (forall st : string,
      is_container st = true <->
      PyStr.upper (PyStr.strip st) = "CONTAINER"
      \/ PyStr.upper (PyStr.strip st) = "CONTAINER_ID")
  /\ (forall st : string,
        exists pre post,
          st = pre +:+ PyStr.strip st +:+ post
          /\ PyStr.blank pre /\ PyStr.blank post
          /\ PyStr.trimmed (PyStr.strip st))
  /\ (forall pre core post : string,
        PyStr.blank pre -> PyStr.blank post -> PyStr.trimmed core ->
        PyStr.strip (pre +:+ core +:+ post) = core)
  /\ (forall st : string,
        is_container st = true <->
        exists pre core post,
          st = pre +:+ core +:+ post
          /\ PyStr.blank pre /\ PyStr.blank post /\ PyStr.trimmed core
          /\ (PyStr.upper core = "CONTAINER" \/ PyStr.upper core = "CONTAINER_ID"))
  /\ (forall st : string,
        PyStr.is_ascii st = true ->
        (is_container st = true <->
         PyStr.ascii_upper (PyStr.strip st) = "CONTAINER"
         \/ PyStr.ascii_upper (PyStr.strip st) = "CONTAINER_ID"))
  /\ (is_container "Container" = true
      /\ is_container (PyStr.utf8 160 +:+ "container_id" +:+ PyStr.utf8 8195) = true
      /\ is_container "TRUCK" = false
      /\ is_container "CONTAINERS" = false
      /\ is_container "MY CONTAINER" = false
      /\ is_container "CONTAINER ID" = false
      /\ is_container "" = false)
  /\ (forall raises dp (before after : list InputRow) (r : InputRow),
        is_container (shipment_type r) = false ->
        run dp (before ++ r :: after) = run dp (before ++ after)
        /\ run_checked raises dp (before ++ r :: after)
           = run_checked raises dp (before ++ after))
  /\ (forall raises dp (work_df : list InputRow),
        run dp work_df = run dp (container_rows work_df)
        /\ run_checked raises dp work_df
           = run_checked raises dp (container_rows work_df)).
Proof.
  split; [exact is_container_iff|].
  split; [exact strip_decompose_blank|].
  split; [exact strip_padded_blank|].
  split; [|split; [|split; [|split]]].
  - intros st. rewrite is_container_iff. split.
    + intros Hup.
      destruct (strip_decompose_blank st) as (pre & post & Hst & Hpre & Hpost & Ht).
      exists pre, (PyStr.strip st), post. auto.
    + intros (pre & core & post & -> & Hpre & Hpost & Hcore & Hup).
      now rewrite strip_padded_blank.
  - intros st Hst. rewrite is_container_iff.
    now rewrite PyStr.upper_ascii by (now apply is_ascii_strip).
  - repeat split; container_fact.
  - intros raises dp before after r Hr.
    assert (E : container_rows (before ++ r :: after) = container_rows (before ++ after)).
    { rewrite !container_rows_app. simpl. now rewrite Hr. }
    split; [unfold run | rewrite !run_checked_unfold]; now rewrite E.
  - intros raises dp work_df.
    split; [unfold run | rewrite !run_checked_unfold];
      now rewrite container_rows_idem.
Qed.

(** ** Value counts and the summary table *)

Lemma elem_of_unique (l : list string) (x : string) : x ∈ unique l <-> x ∈ l.
Proof.
  induction l as [|y l IH]; simpl; [reflexivity|].
  rewrite !elem_of_cons, list_elem_of_filter, IH.
  destruct (decide (x = y)); intuition.
Qed.

Lemma NoDup_unique (l : list string) : NoDup (unique l).
Proof.
  induction l as [|y l IH]; simpl; constructor.
  - rewrite list_elem_of_filter. intros [H _]. now apply H.
  - now apply NoDup_filter.
Qed.

Lemma insert_desc_Permutation (p : string * nat) (l : list (string * nat)) :
  insert_desc p l ≡ₚ p :: l.
Proof.
  induction l as [|q l IH]; simpl; [reflexivity|].
  destruct (snd q <=? snd p)%nat; [reflexivity|].
  rewrite IH. apply perm_swap.
Qed.

Lemma sort_values_desc_Permutation (l : list (string * nat)) :
  sort_values_desc l ≡ₚ l.
Proof.
  unfold sort_values_desc. induction l as [|p l IH]; simpl; [reflexivity|].
  now rewrite insert_desc_Permutation, IH.
Qed.

Lemma value_counts_Permutation (l : list string) :
  value_counts l ≡ₚ map (fun b => (b, occurrences b l)) (unique l).
Proof. apply sort_values_desc_Permutation. Qed.

Lemma elem_of_value_counts (l : list string) (b : string) (n : nat) :
  (b, n) ∈ value_counts l <-> b ∈ l /\ n = occurrences b l.
Proof.
  rewrite value_counts_Permutation, list_elem_of_In, in_map_iff. split.
  - intros (b' & [= -> ->] & Hb). split; [|reflexivity].
    now apply elem_of_unique, list_elem_of_In.
  - intros [Hb ->]. exists b. split; [reflexivity|].
    now apply list_elem_of_In, elem_of_unique.
Qed.

Lemma value_counts_keys (l : list string) :
  map fst (value_counts l) ≡ₚ unique l.
Proof.
  rewrite value_counts_Permutation, map_map. simpl. now rewrite map_id.
Qed.

Lemma occurrences_pos (l : list string) (b : string) :
  b ∈ l -> (0 < occurrences b l)%nat.
Proof.
  unfold occurrences. intros Hb.
  assert (Hin : b ∈ filter (fun y => y = b) l) by (apply list_elem_of_filter; auto).
  destruct (filter _ l); [now apply elem_of_nil in Hin | simpl; lia].
Qed.

Lemma occurrences_map {A} (f : A -> string) (b : string) (l : list A) :
  occurrences b (map f l) = length (filter (fun a => f a = b) l).
Proof.
  unfold occurrences. induction l as [|a l IH]; [reflexivity|].
  simpl. rewrite !filter_cons. destruct (decide (f a = b)); simpl; now rewrite IH.
Qed.

Lemma sum_indicator (u : list string) (x : string) :
  NoDup u -> x ∈ u ->
  sum_list_with (fun b => if decide (x = b) then 1 else 0) u = 1.
Proof.
  induction 1 as [|y u Hy Hu IH]; intros Hx; [now apply elem_of_nil in Hx|].
  simpl. apply elem_of_cons in Hx as [->|Hx].
  - rewrite decide_True by reflexivity.
    assert (H0 : sum_list_with (fun b => if decide (y = b) then 1 else 0) u = 0).
    { clear -Hy. induction u as [|z u IH]; [reflexivity|]. simpl.
      rewrite not_elem_of_cons in Hy. destruct Hy as [Hz Hy].
      rewrite decide_False by assumption. now rewrite IH. }
    lia.
  - rewrite decide_False by (intros ->; contradiction). now rewrite IH.
Qed.

Lemma sum_occurrences (u l : list string) :
  NoDup u -> (forall x, x ∈ l -> x ∈ u) ->
  sum_list_with (fun b => occurrences b l) u = length l.
Proof.
  intros Hu. induction l as [|x l IH]; intros Hsub.
  - unfold occurrences. simpl. clear. induction u; simpl; auto.
  - assert (Hx : x ∈ u) by (apply Hsub; left).
    assert (Hl : forall y, y ∈ l -> y ∈ u) by (intros y Hy; apply Hsub; now right).
    specialize (IH Hl).
    assert (Hsplit : sum_list_with (fun b => occurrences b (x :: l)) u
                     = sum_list_with (fun b => if decide (x = b) then 1 else 0) u
                       + sum_list_with (fun b => occurrences b l) u).
    { clear. induction u as [|b u IHu]; [reflexivity|].
      simpl. rewrite IHu. unfold occurrences. rewrite filter_cons.
      destruct (decide (x = b)); simpl; lia. }
    rewrite Hsplit, IH, (sum_indicator u x Hu Hx). reflexivity.
Qed.

Lemma value_counts_total (l : list string) :
  sum_list_with snd (value_counts l) = length l.
Proof.
  rewrite value_counts_Permutation.
  transitivity (sum_list_with (fun b => occurrences b l) (unique l)).
  - induction (unique l) as [|b u IH]; simpl; [reflexivity | now rewrite IH].
  - apply sum_occurrences; [apply NoDup_unique|].
    intros x. apply elem_of_unique.
Qed.

Lemma elem_of_bucket_rows (m : string) (counts : list (string * nat)) (row : SummaryRow) :
  row ∈ bucket_rows m counts <->
  exists b n, (b, n) ∈ counts
              /\ row = mkSummaryRow m b (dict_get bucket_descriptions b b) n.
Proof.
  unfold bucket_rows. rewrite list_elem_of_In, in_map_iff. split.
  - intros ([b n] & <- & Hin). exists b, n. split; [now apply list_elem_of_In | reflexivity].
  - intros (b & n & Hin & ->). exists (b, n). split; [reflexivity | now apply list_elem_of_In].
Qed.

Lemma bucket_rows_metric (m : string) (counts : list (string * nat)) :
  Forall (fun row => metric row = m) (bucket_rows m counts).
Proof.
  apply Forall_forall. intros row Hrow.
  apply elem_of_bucket_rows in Hrow as (b & n & _ & ->). reflexivity.
Qed.

Lemma filter_metric_all (m : string) (rows : list SummaryRow) :
  Forall (fun row => metric row = m) rows ->
  filter (fun row => metric row = m) rows = rows.
Proof.
  induction 1 as [|row rows Hm _ IH]; [reflexivity|].
  rewrite filter_cons, decide_True by assumption. now rewrite IH.
Qed.

Lemma filter_metric_none (m m' : string) (rows : list SummaryRow) :
  m <> m' ->
  Forall (fun row => metric row = m') rows ->
  filter (fun row => metric row = m) rows = [].
Proof.
  intros Hne. induction 1 as [|row rows Hm _ IH]; [reflexivity|].
  rewrite filter_cons, decide_False by congruence. exact IH.
Qed.

Lemma summary_eta_rows (spread : list BolAggregate) :
  filter (fun row => metric row = "ETA") (summary_rows spread)
  = bucket_rows "ETA" (value_counts (map eta_spread_bucket spread)).
Proof.
  unfold summary_rows. rewrite !filter_app.
  rewrite (filter_metric_all "ETA") by apply bucket_rows_metric.
  rewrite (filter_metric_none "ETA" "ATA" (bucket_rows "ATA" _))
    by first [apply bucket_rows_metric | intros ?; discriminate].
  rewrite filter_cons, decide_False by discriminate. now rewrite app_nil_r.
Qed.

Lemma summary_ata_rows (spread : list BolAggregate) :
  filter (fun row => metric row = "ATA") (summary_rows spread)
  = bucket_rows "ATA" (value_counts (map ata_spread_bucket spread)).
Proof.
  unfold summary_rows. rewrite !filter_app.
  rewrite (filter_metric_all "ATA" (bucket_rows "ATA" _)) by apply bucket_rows_metric.
  rewrite (filter_metric_none "ATA" "ETA" (bucket_rows "ETA" _))
    by first [apply bucket_rows_metric | intros ?; discriminate].
  rewrite filter_cons, decide_False by discriminate. now rewrite app_nil_r.
Qed.

Lemma bucket_rows_counts (m : string) (counts : list (string * nat)) :
  sum_list_with count (bucket_rows m counts) = sum_list_with snd counts.
Proof.
  unfold bucket_rows. induction counts as [|bc counts IH]; [reflexivity|].
  simpl. f_equal. exact IH.
Qed.

Lemma bucket_rows_keys (m : string) (counts : list (string * nat)) :
  map (fun row => (metric row, bucket row)) (bucket_rows m counts)
  = map (pair m) (map fst counts).
Proof. unfold bucket_rows. rewrite !map_map. reflexivity. Qed.

Lemma NoDup_bucket_rows_keys (m : string) (l : list string) :
  NoDup (map (fun row => (metric row, bucket row)) (bucket_rows m (value_counts l))).
Proof.
  rewrite bucket_rows_keys, value_counts_keys.
  apply (NoDup_fmap_2 (pair m)), NoDup_unique.
Qed.

Lemma metric_rows_have_bucket (m : string) (l : list string) (b : string) (n : nat) :
  (exists row, row ∈ bucket_rows m (value_counts l)
               /\ bucket row = b /\ count row = n)
  <-> b ∈ l /\ n = occurrences b l.
Proof.
  rewrite <- elem_of_value_counts. split.
  - intros (row & Hrow & <- & <-).
    now apply elem_of_bucket_rows in Hrow as (b & n & Hin & ->).
  - intros Hin. eexists. split; [apply elem_of_bucket_rows; eauto|]. split; reflexivity.
Qed.

Lemma summary_metric_bucket (spread : list BolAggregate) (m : string)
    (col : BolAggregate -> string) (b : string) (n : nat) :
  filter (fun row => metric row = m) (summary_rows spread)
  = bucket_rows m (value_counts (map col spread)) ->
  (exists row, row ∈ summary_rows spread
               /\ metric row = m /\ bucket row = b /\ count row = n)
  <-> b ∈ map col spread /\ n = length (filter (fun a => col a = b) spread).
Proof.
  intros Hf. rewrite <- occurrences_map, <- (metric_rows_have_bucket m), <- Hf.
  split.
  - intros (row & Hin & Hm & Hb & Hn). exists row. split; [|auto].
    apply list_elem_of_filter. auto.
  - intros (row & Hin & Hb & Hn). apply list_elem_of_filter in Hin as [Hm Hin].
    exists row. auto.
Qed.

(** C8: the summary holds, for ETA and for ATA separately, one row for each
    bucket that occurs among the BOLs, counting the BOLs of that bucket, and no
    row with a zero count; no (metric, bucket) pair is repeated; and the
    mixed-presence row, counting the BOLs with mixed ATA presence, is always
    there as the last row. *)
Theorem summary_rows_correct (spread : list BolAggregate) :
  (forall b n,
      (exists row, row ∈ summary_rows spread
                   /\ metric row = "ETA" /\ bucket row = b /\ count row = n)
      <-> b ∈ map eta_spread_bucket spread
          /\ n = length (filter (fun a => eta_spread_bucket a = b) spread))
  /\ (forall b n,
      (exists row, row ∈ summary_rows spread
                   /\ metric row = "ATA" /\ bucket row = b /\ count row = n)
      <-> b ∈ map ata_spread_bucket spread
          /\ n = length (filter (fun a => ata_spread_bucket a = b) spread))
  /\ NoDup (map (fun row => (metric row, bucket row)) (summary_rows spread))
  /\ (exists front,
        summary_rows spread
        = front ++ [mkSummaryRow "ATA_MIXED_PRESENCE" MIXED_PRESENT_AND_MISSING
                      "BOLs where some containers have ATA and others do not"
                      (length (filter is_mixed spread))]
        /\ Forall (fun row => (metric row = "ETA" \/ metric row = "ATA")
                              /\ (0 < count row)%nat) front).
Proof.
  split; [|split; [|split]].
  - intros b n. apply summary_metric_bucket, summary_eta_rows.
  - intros b n. apply summary_metric_bucket, summary_ata_rows.
  - unfold summary_rows. rewrite !map_app.
    apply NoDup_app. split; [apply NoDup_bucket_rows_keys|]. split.
    + intros [m b] Hin Hin'.
      apply list_elem_of_In, in_map_iff in Hin as (row & Hkey & Hrow).
      apply list_elem_of_In, elem_of_bucket_rows in Hrow as (b1 & n1 & _ & ->).
      injection Hkey as <- <-.
      apply elem_of_app in Hin' as [Hin'|Hin'].
      * apply list_elem_of_In, in_map_iff in Hin' as (row & Hkey & Hrow).
        apply list_elem_of_In, elem_of_bucket_rows in Hrow as (b2 & n2 & _ & ->).
        discriminate.
      * apply list_elem_of_singleton in Hin'. discriminate.
    + apply NoDup_app. split; [apply NoDup_bucket_rows_keys|]. split.
      * intros [m b] Hin Hin'.
        apply list_elem_of_In, in_map_iff in Hin as (row & Hkey & Hrow).
        apply list_elem_of_In, elem_of_bucket_rows in Hrow as (b1 & n1 & _ & ->).
        injection Hkey as <- <-.
        apply list_elem_of_singleton in Hin'. discriminate.
      * apply NoDup_singleton.
  - exists (bucket_rows "ETA" (value_counts (map eta_spread_bucket spread))
            ++ bucket_rows "ATA" (value_counts (map ata_spread_bucket spread))).
    split.
    + unfold summary_rows, mixed_row, mixed_ata_bols.
      rewrite length_map, <- app_assoc. reflexivity.
    + apply Forall_app. split; apply Forall_forall; intros row Hrow;
        apply elem_of_bucket_rows in Hrow as (b & n & Hin & ->); simpl;
        apply elem_of_value_counts in Hin as [Hb ->];
        (split; [auto | now apply occurrences_pos]).
Qed.

Lemma bol_spread_length (cs : list ContainerRow) :
  length (bol_spread cs) = length (remove_dups (map row_bol_id cs)).
Proof. rewrite bol_spread_unfold, length_map. apply group_keys_length. Qed.

(** C9: in the summary of a run the counts of the ETA rows add up to the
    number of distinct BOL ids among the container rows, and so do the counts
    of the ATA rows. *)
Theorem summary_totals dp (work_df : list InputRow) (rep : Report) :
  run dp work_df = Some rep ->
  sum_list_with count (filter (fun row => metric row = "ETA") (summary_df rep))
  = length (remove_dups (map bol_id (container_rows work_df)))
  /\ sum_list_with count (filter (fun row => metric row = "ATA") (summary_df rep))
     = length (remove_dups (map bol_id (container_rows work_df))).
Proof.
  intros Hrun. unfold run in Hrun.
  destruct (container_rows work_df) as [|r0 crs] eqn:E; [discriminate|].
  injection Hrun as <-. simpl summary_df.
  set (cs := assign_timestamps dp (r0 :: crs)).
  assert (Hn : length (bol_spread cs) = length (remove_dups (map bol_id (r0 :: crs)))).
  { rewrite bol_spread_length. f_equal. f_equal.
    transitivity (map bol_id (map c_row cs)); [now rewrite map_map|].
    unfold cs. now rewrite assign_timestamps_rows. }
  rewrite summary_eta_rows, summary_ata_rows, !bucket_rows_counts,
    !value_counts_total, !length_map.
  split; exact Hn.
Qed.

(** ** Presence counts against parsing *)

Lemma group_rows_app (k : string) (l1 l2 : list ContainerRow) :
  group_rows k (l1 ++ l2) = group_rows k l1 ++ group_rows k l2.
Proof. unfold group_rows. apply filter_app. Qed.

Lemma group_rows_cons_same (r : ContainerRow) (l : list ContainerRow) :
  group_rows (row_bol_id r) (r :: l) = r :: group_rows (row_bol_id r) l.
Proof. unfold group_rows. now rewrite filter_cons, decide_True. Qed.

Lemma group_rows_c_row (k : string) (cs : list ContainerRow) :
  map c_row (group_rows k cs) = filter (fun r => bol_id r = k) (map c_row cs).
Proof.
  unfold group_rows. induction cs as [|r cs IH]; [reflexivity|].
  simpl. rewrite !filter_cons.
  destruct (decide (bol_id (c_row r) = k)); simpl; now rewrite IH.
Qed.

Lemma bol_spread_lookup (cs : list ContainerRow) (a : BolAggregate) :
  a ∈ bol_spread cs ->
  a = aggregate_group (agg_bol_id a) (group_rows (agg_bol_id a) cs).
Proof. intros Ha. now apply elem_of_bol_spread in Ha as (k & _ & ->). Qed.

Lemma length_filter_map {A} (P : string -> Prop) `{!forall x, Decision (P x)}
    (f : A -> string) (l : list A) :
  length (filter P (map f l)) = length (filter (fun a => P (f a)) l).
Proof.
  induction l as [|a l IH]; [reflexivity|].
  simpl. rewrite !filter_cons. destruct (decide (P (f a))); simpl; now rewrite IH.
Qed.

Lemma aggregate_group_counts (k : string) (g : list ContainerRow) :
  n_containers (aggregate_group k g) = length (map c_row g)
  /\ n_eta_present (aggregate_group k g)
     = length (filter (fun r => PyStr.strip (eta r) <> "") (map c_row g))
  /\ n_eta_missing (aggregate_group k g)
     = length (filter (fun r => PyStr.strip (eta r) = "") (map c_row g))
  /\ n_ata_present (aggregate_group k g)
     = length (filter (fun r => PyStr.strip (ata r) <> "") (map c_row g))
  /\ n_ata_missing (aggregate_group k g)
     = length (filter (fun r => PyStr.strip (ata r) = "") (map c_row g)).
Proof.
  simpl. unfold count_present, count_missing.
  rewrite length_map.
  rewrite <- (map_map c_row eta), <- (map_map c_row ata).
  rewrite !length_filter_map. repeat split; reflexivity.
Qed.

Lemma count_present_cons_True (x : string) (s : list string) :
  PyStr.strip x <> "" -> count_present (x :: s) = S (count_present s).
Proof. intros Hx. unfold count_present. now rewrite filter_cons, decide_True. Qed.

Lemma aggregate_group_unparsed_eta (k : string) (g1 g2 : list ContainerRow)
    (r : ContainerRow) :
  PyStr.strip (row_eta r) <> "" -> eta_dt r = None ->
  n_eta_present (aggregate_group k (g1 ++ r :: g2))
  = S (n_eta_present (aggregate_group k (g1 ++ g2)))
  /\ eta_min (aggregate_group k (g1 ++ r :: g2)) = eta_min (aggregate_group k (g1 ++ g2))
  /\ eta_max (aggregate_group k (g1 ++ r :: g2)) = eta_max (aggregate_group k (g1 ++ g2)).
Proof.
  intros Htxt Hdt. simpl. rewrite !map_app. simpl. rewrite Hdt.
  rewrite !count_present_app, count_present_cons_True by assumption.
  unfold series_min, series_max. rewrite !skipna_reduce_app_None.
  repeat split; lia.
Qed.

Lemma aggregate_group_unparsed_ata (k : string) (g1 g2 : list ContainerRow)
    (r : ContainerRow) :
  PyStr.strip (row_ata r) <> "" -> ata_dt r = None ->
  n_ata_present (aggregate_group k (g1 ++ r :: g2))
  = S (n_ata_present (aggregate_group k (g1 ++ g2)))
  /\ ata_min (aggregate_group k (g1 ++ r :: g2)) = ata_min (aggregate_group k (g1 ++ g2))
  /\ ata_max (aggregate_group k (g1 ++ r :: g2)) = ata_max (aggregate_group k (g1 ++ g2)).
Proof.
  intros Htxt Hdt. simpl. rewrite !map_app. simpl. rewrite Hdt.
  rewrite !count_present_app, count_present_cons_True by assumption.
  unfold series_min, series_max. rewrite !skipna_reduce_app_None.
  repeat split; lia.
Qed.

Lemma presence_counts_text (cs cs' : list ContainerRow) :
  map c_row cs = map c_row cs' ->
  map presence_counts (bol_spread cs) = map presence_counts (bol_spread cs').
Proof.
  intros Hrows. rewrite !bol_spread_unfold, !map_map.
  assert (Hk : group_keys cs = group_keys cs').
  { unfold group_keys. rewrite <- !(map_map c_row bol_id). now rewrite Hrows. }
  rewrite Hk. apply map_ext. intros k. unfold presence_counts.
  destruct (aggregate_group_counts k (group_rows k cs)) as (-> & -> & -> & -> & ->).
  destruct (aggregate_group_counts k (group_rows k cs')) as (-> & -> & -> & -> & ->).
  rewrite !group_rows_c_row, Hrows. reflexivity.
Qed.

Lemma assign_timestamps_zip dp (ce ca : list string) (crs : list InputRow) :
  zip_with (fun r dts => mkContainerRow r (fst dts) (snd dts)) crs
    (zip (map (coerce_cell dp ce) (map eta crs)) (map (coerce_cell dp ca) (map ata crs)))
  = map (fun r => mkContainerRow r (coerce_cell dp ce (eta r)) (coerce_cell dp ca (ata r)))
      crs.
Proof. induction crs as [|r crs IH]; [reflexivity|]. simpl. now rewrite IH. Qed.

Lemma assign_timestamps_map dp (crs : list InputRow) :
  assign_timestamps dp crs
  = map (fun r => mkContainerRow r (coerce_cell dp (map eta crs) (eta r))
                    (coerce_cell dp (map ata crs) (ata r)))
      crs.
Proof. unfold assign_timestamps, to_datetime. apply assign_timestamps_zip. Qed.

Lemma coerce_cell_unparsable dp (col : list string) (s : string) :
  s = "" \/ dp col s = Unparsable -> coerce_cell dp col s = None.
Proof.
  unfold coerce_cell. intros [->|Hs]; [reflexivity|].
  rewrite Hs. now destruct (String.eqb s "").
Qed.

Lemma skipna_reduce_filter_parsed op (f : ContainerRow -> option Z)
    (g : list ContainerRow) :
  skipna_reduce op (map f g)
  = skipna_reduce op (map f (filter (fun r => f r <> None) g)).
Proof.
  unfold skipna_reduce. induction g as [|r g IH]; [reflexivity|].
  rewrite filter_cons. destruct (decide (f r <> None)) as [Hr|Hr]; simpl.
  - now rewrite IH.
  - destruct (f r); [exfalso; apply Hr; discriminate | exact IH].
Qed.

Lemma skipna_reduce_unparsed_group op (f : ContainerRow -> option Z)
    (g : list ContainerRow) :
  (forall r, r ∈ g -> f r = None) -> skipna_reduce op (map f g) = None.
Proof.
  intros Hall. apply skipna_reduce_all_None, Forall_forall.
  intros x Hx. apply list_elem_of_In, in_map_iff in Hx as (r & <- & Hr).
  now apply Hall, list_elem_of_In.
Qed.

Lemma strip_nonempty_iff (s : string) :
  PyStr.strip s <> "" <-> PyStr.all_space s = false.
Proof. rewrite strip_empty_iff. apply not_true_iff_false. Qed.

Lemma strip_nonempty_blank (s : string) :
  PyStr.strip s <> "" <-> ~ PyStr.blank s.
Proof. now rewrite strip_empty_blank. Qed.

(** C4: a cell is missing exactly when its trimmed text is empty, that is,
    when the cell is blank: empty or made of white space characters only.
    The present and missing counts of a BOL count the non-blank and the blank
    cells of its rows and are the same whatever the parser makes of the text;
    a row whose cell is not blank while its timestamp is NaT (as it is for a
    cell the parser rejects) adds one to the present count and leaves the
    minimum and maximum of its BOL as they are without it. *)
Theorem presence_counts_ignore_parsing :
  (forall s : string, PyStr.strip s = "" <-> PyStr.blank s)
  /\ (forall s : string, PyStr.all_space s = true <-> PyStr.blank s)
  /\ (forall (cs : list ContainerRow) (a : BolAggregate),
        a ∈ bol_spread cs ->
        let rows := filter (fun r => bol_id r = agg_bol_id a) (map c_row cs) in
        n_eta_present a
        = length (filter (fun r => PyStr.all_space (eta r) = false) rows)
        /\ n_eta_missing a
           = length (filter (fun r => PyStr.all_space (eta r) = true) rows)
        /\ n_ata_present a
           = length (filter (fun r => PyStr.all_space (ata r) = false) rows)
        /\ n_ata_missing a
           = length (filter (fun r => PyStr.all_space (ata r) = true) rows))
  /\ (forall dp dp' (crs : list InputRow),
        map presence_counts (bol_spread (assign_timestamps dp crs))
        = map presence_counts (bol_spread (assign_timestamps dp' crs)))
  /\ (forall dp (crs : list InputRow) (c : ContainerRow),
        c ∈ assign_timestamps dp crs ->
        (dp (map eta crs) (row_eta c) = Unparsable -> eta_dt c = None)
        /\ (dp (map ata crs) (row_ata c) = Unparsable -> ata_dt c = None))
  /\ (forall (l1 l2 : list ContainerRow) (r : ContainerRow) (a : BolAggregate),
        a ∈ bol_spread (l1 ++ r :: l2) ->
        agg_bol_id a = row_bol_id r ->
        let a' := aggregate_group (row_bol_id r) (group_rows (row_bol_id r) (l1 ++ l2)) in
        (~ PyStr.blank (row_eta r) -> eta_dt r = None ->
         n_eta_present a = S (n_eta_present a')
         /\ eta_min a = eta_min a' /\ eta_max a = eta_max a')
        /\ (~ PyStr.blank (row_ata r) -> ata_dt r = None ->
            n_ata_present a = S (n_ata_present a')
            /\ ata_min a = ata_min a' /\ ata_max a = ata_max a')).
Proof.
  split; [exact strip_empty_blank|]. split; [exact all_space_blank|].
  split; [|split; [|split]].
  - intros cs a Ha rows. subst rows.
    pose proof (bol_spread_lookup cs a Ha) as E.
    set (k := agg_bol_id a) in *. clearbody k. subst a.
    destruct (aggregate_group_counts k (group_rows k cs)) as (_ & -> & -> & -> & ->).
    rewrite group_rows_c_row.
    repeat split; f_equal; apply list_filter_iff; intros r;
      (apply strip_empty_iff || apply strip_nonempty_iff).
  - intros dp dp' crs. apply presence_counts_text.
    now rewrite !assign_timestamps_rows.
  - intros dp crs c Hc. rewrite assign_timestamps_map in Hc.
    apply list_elem_of_In, in_map_iff in Hc as (r & <- & _). simpl.
    split; intros Hu; apply coerce_cell_unparsable; now right.
  - intros l1 l2 r a Ha Hid a'. subst a'.
    rewrite (bol_spread_lookup _ a Ha), Hid.
    rewrite !group_rows_app, group_rows_cons_same.
    split; intros Htxt Hdt; apply strip_nonempty_blank in Htxt.
    + now apply aggregate_group_unparsed_eta.
    + now apply aggregate_group_unparsed_ata.
Qed.

(** * Further properties of the aggregation *)

(** ** Group sizes and keys *)

Lemma group_rows_length (k : string) (cs : list ContainerRow) :
  length (group_rows k cs) = occurrences k (map row_bol_id cs).
Proof. unfold group_rows. now rewrite occurrences_map. Qed.

(** X1: the groups partition the container rows: the container counts of
    the aggregate rows add up to the number of container rows, and every
    aggregate row stands for at least one container. *)
Theorem n_containers_partition (cs : list ContainerRow) :
  sum_list_with n_containers (bol_spread cs) = length cs
  /\ Forall (fun a => (1 <= n_containers a)%nat) (bol_spread cs).
Proof.
  split.
  - rewrite bol_spread_unfold.
    transitivity (sum_list_with (fun k => occurrences k (map row_bol_id cs))
                    (group_keys cs)).
    + induction (group_keys cs) as [|k ks IH]; [reflexivity|].
      simpl. rewrite IH. f_equal. apply group_rows_length.
    + rewrite sum_occurrences, length_map; [reflexivity | apply group_keys_NoDup |].
      intros k. apply elem_of_group_keys.
  - apply Forall_forall. intros a Ha.
    apply elem_of_bol_spread in Ha as (k & Hk & ->). simpl.
    rewrite group_rows_length. now apply occurrences_pos.
Qed.

Lemma report_of_eta_keys (cs : list ContainerRow) :
  map v_bol_id (bol_eta_spread (report_of cs)) = group_keys cs.
Proof. simpl. rewrite map_map. apply bol_spread_ids. Qed.

Lemma report_of_ata_keys (cs : list ContainerRow) :
  map v_bol_id (bol_ata_spread (report_of cs)) = group_keys cs.
Proof. simpl. rewrite map_map. apply bol_spread_ids. Qed.

Lemma run_Some_inv dp (work_df : list InputRow) (rep : Report) :
  run dp work_df = Some rep ->
  rep = report_of (assign_timestamps dp (container_rows work_df))
  /\ container_rows work_df <> [].
Proof.
  unfold run. destruct (container_rows work_df) as [|r0 crs]; [discriminate|].
  intros [= <-]. split; [reflexivity | discriminate].
Qed.

(** X2: the ETA table and the ATA table of a report list the same BOL ids,
    in ascending order and without repetition, and these are exactly the BOL
    ids of the container rows; the container counts of the two tables agree. *)
Theorem spread_views_keys dp (work_df : list InputRow) (rep : Report) :
  run dp work_df = Some rep ->
  map v_bol_id (bol_eta_spread rep) = map v_bol_id (bol_ata_spread rep)
  /\ map v_n_containers (bol_eta_spread rep) = map v_n_containers (bol_ata_spread rep)
  /\ Sorted String.le (map v_bol_id (bol_eta_spread rep))
  /\ NoDup (map v_bol_id (bol_eta_spread rep))
  /\ (forall k, k ∈ map v_bol_id (bol_eta_spread rep)
                <-> k ∈ map bol_id (container_rows work_df)).
Proof.
  intros Hrun. apply run_Some_inv in Hrun as [-> _].
  rewrite report_of_eta_keys, report_of_ata_keys.
  split; [reflexivity|]. split; [|split; [|split]].
  - simpl. now rewrite !map_map.
  - apply group_keys_Sorted.
  - apply group_keys_NoDup.
  - intros k. rewrite elem_of_group_keys.
    rewrite <- (assign_timestamps_rows dp (container_rows work_df)) at 2.
    now rewrite map_map.
Qed.

(** ** Extrema and spreads *)

Lemma elem_of_group_rows (k : string) (cs : list ContainerRow) (r : ContainerRow) :
  r ∈ group_rows k cs <-> r ∈ cs /\ row_bol_id r = k.
Proof. unfold group_rows. rewrite list_elem_of_filter. tauto. Qed.

Lemma elem_of_map_dt (f : ContainerRow -> option Z) (g : list ContainerRow) (t : Z) :
  Some t ∈ map f g <-> exists r, r ∈ g /\ f r = Some t.
Proof.
  rewrite list_elem_of_In, in_map_iff. split.
  - intros (r & Hr & Hin). exists r. split; [now apply list_elem_of_In | assumption].
  - intros (r & Hin & Hr). exists r. split; [assumption | now apply list_elem_of_In].
Qed.

Lemma series_min_max_None (s : list (option Z)) :
  series_min s = None <-> series_max s = None.
Proof. unfold series_min, series_max. now rewrite !skipna_reduce_all_None. Qed.

Lemma series_min_le_max (s : list (option Z)) (mn mx : Z) :
  series_min s = Some mn -> series_max s = Some mx -> (mn <= mx)%Z.
Proof.
  intros Hmn Hmx. apply series_min_spec in Hmn as [Hin _].
  apply series_max_spec in Hmx as [_ Hub]. now apply Hub.
Qed.

Lemma series_min_iff (s : list (option Z)) (m : Z) :
  series_min s = Some m <->
  Some m ∈ s /\ (forall t, Some t ∈ s -> (m <= t)%Z).
Proof.
  split; [apply series_min_spec|]. intros [Hin Hlb].
  destruct (series_min s) as [m'|] eqn:E.
  - apply series_min_spec in E as [Hin' Hlb'].
    specialize (Hlb _ Hin'). specialize (Hlb' _ Hin). f_equal. lia.
  - unfold series_min in E. apply skipna_reduce_all_None in E.
    rewrite Forall_forall in E. specialize (E _ Hin). discriminate.
Qed.

Lemma series_max_iff (s : list (option Z)) (m : Z) :
  series_max s = Some m <->
  Some m ∈ s /\ (forall t, Some t ∈ s -> (t <= m)%Z).
Proof.
  split; [apply series_max_spec|]. intros [Hin Hub].
  destruct (series_max s) as [m'|] eqn:E.
  - apply series_max_spec in E as [Hin' Hub'].
    specialize (Hub _ Hin'). specialize (Hub' _ Hin). f_equal. lia.
  - unfold series_max in E. apply skipna_reduce_all_None in E.
    rewrite Forall_forall in E. specialize (E _ Hin). discriminate.
Qed.

Lemma series_None_iff op (f : ContainerRow -> option Z) (g : list ContainerRow) :
  skipna_reduce op (map f g) = None <-> forall r, r ∈ g -> f r = None.
Proof.
  rewrite skipna_reduce_all_None, Forall_forall. split.
  - intros Hall r Hr. apply Hall, list_elem_of_In, in_map, list_elem_of_In, Hr.
  - intros Hall x Hx. apply list_elem_of_In, in_map_iff in Hx as (r & <- & Hr).
    now apply Hall, list_elem_of_In.
Qed.

(** The extrema of one timestamp column over the rows of one BOL. *)
Lemma group_extrema (f : ContainerRow -> option Z) (k : string)
    (cs : list ContainerRow) :
  let s := map f (group_rows k cs) in
  (forall m, series_min s = Some m <->
     (exists r, r ∈ cs /\ row_bol_id r = k /\ f r = Some m)
     /\ (forall r t, r ∈ cs -> row_bol_id r = k -> f r = Some t -> (m <= t)%Z))
  /\ (forall m, series_max s = Some m <->
     (exists r, r ∈ cs /\ row_bol_id r = k /\ f r = Some m)
     /\ (forall r t, r ∈ cs -> row_bol_id r = k -> f r = Some t -> (t <= m)%Z))
  /\ (series_min s = None <->
      forall r, r ∈ cs -> row_bol_id r = k -> f r = None)
  /\ (series_max s = None <->
      forall r, r ∈ cs -> row_bol_id r = k -> f r = None).
Proof.
  intros s. subst s.
  assert (Hin : forall t, Some t ∈ map f (group_rows k cs)
                          <-> exists r, r ∈ cs /\ row_bol_id r = k /\ f r = Some t).
  { intros t. rewrite elem_of_map_dt. split.
    - intros (r & Hr & Hf). apply elem_of_group_rows in Hr as [Hr Hk]. eauto.
    - intros (r & Hr & Hk & Hf). exists r.
      split; [now apply elem_of_group_rows | assumption]. }
  assert (Hnone : (forall r, r ∈ group_rows k cs -> f r = None)
                  <-> (forall r, r ∈ cs -> row_bol_id r = k -> f r = None)).
  { split.
    - intros Hall r Hr Hk. now apply Hall, elem_of_group_rows.
    - intros Hall r Hr. apply elem_of_group_rows in Hr as [Hr Hk]. auto. }
  split; [|split; [|split]].
  - intros m. rewrite series_min_iff, Hin. split.
    + intros [Hex Hlb]. split; [exact Hex|].
      intros r t Hr Hk Hf. apply Hlb, Hin. eauto.
    + intros [Hex Hlb]. split; [exact Hex|].
      intros t Ht. apply Hin in Ht as (r & Hr & Hk & Hf). eauto.
  - intros m. rewrite series_max_iff, Hin. split.
    + intros [Hex Hub]. split; [exact Hex|].
      intros r t Hr Hk Hf. apply Hub, Hin. eauto.
    + intros [Hex Hub]. split; [exact Hex|].
      intros t Ht. apply Hin in Ht as (r & Hr & Hk & Hf). eauto.
  - unfold series_min. now rewrite series_None_iff.
  - unfold series_max. now rewrite series_None_iff.
Qed.

(** X3: the ETA minimum of a BOL is the timestamp of one of its rows and no
    parsed ETA of the BOL lies below it; the maximum is the timestamp of one of
    its rows and none lies above it; the BOL has a minimum and a maximum as
    soon as one of its rows has a parsed ETA, and it has neither exactly when
    none of its rows has one.  The same holds for ATA. *)
Theorem extrema_attained (cs : list ContainerRow) (a : BolAggregate) :
  a ∈ bol_spread cs ->
  (forall m, eta_min a = Some m ->
     (exists r, r ∈ cs /\ row_bol_id r = agg_bol_id a /\ eta_dt r = Some m)
     /\ (forall r t, r ∈ cs -> row_bol_id r = agg_bol_id a ->
                     eta_dt r = Some t -> (m <= t)%Z))
  /\ (forall m, eta_max a = Some m ->
     (exists r, r ∈ cs /\ row_bol_id r = agg_bol_id a /\ eta_dt r = Some m)
     /\ (forall r t, r ∈ cs -> row_bol_id r = agg_bol_id a ->
                     eta_dt r = Some t -> (t <= m)%Z))
  /\ (forall m, ata_min a = Some m ->
     (exists r, r ∈ cs /\ row_bol_id r = agg_bol_id a /\ ata_dt r = Some m)
     /\ (forall r t, r ∈ cs -> row_bol_id r = agg_bol_id a ->
                     ata_dt r = Some t -> (m <= t)%Z))
  /\ (forall m, ata_max a = Some m ->
     (exists r, r ∈ cs /\ row_bol_id r = agg_bol_id a /\ ata_dt r = Some m)
     /\ (forall r t, r ∈ cs -> row_bol_id r = agg_bol_id a ->
                     ata_dt r = Some t -> (t <= m)%Z))
  /\ (forall r t, r ∈ cs -> row_bol_id r = agg_bol_id a -> eta_dt r = Some t ->
        exists mn mx, eta_min a = Some mn /\ eta_max a = Some mx
                      /\ (mn <= t <= mx)%Z)
  /\ (forall r t, r ∈ cs -> row_bol_id r = agg_bol_id a -> ata_dt r = Some t ->
        exists mn mx, ata_min a = Some mn /\ ata_max a = Some mx
                      /\ (mn <= t <= mx)%Z)
  /\ (eta_min a = None <->
      forall r, r ∈ cs -> row_bol_id r = agg_bol_id a -> eta_dt r = None)
  /\ (eta_max a = None <->
      forall r, r ∈ cs -> row_bol_id r = agg_bol_id a -> eta_dt r = None)
  /\ (ata_min a = None <->
      forall r, r ∈ cs -> row_bol_id r = agg_bol_id a -> ata_dt r = None)
  /\ (ata_max a = None <->
      forall r, r ∈ cs -> row_bol_id r = agg_bol_id a -> ata_dt r = None).
Proof.
  intros Ha. pose proof (bol_spread_lookup cs a Ha) as E.
  set (k := agg_bol_id a) in *. clearbody k. subst a.
  unfold aggregate_group. cbn [eta_min eta_max ata_min ata_max].
  destruct (group_extrema eta_dt k cs) as (Hemin & Hemax & Hen & Hex).
  destruct (group_extrema ata_dt k cs) as (Hamin & Hamax & Han & Hax).
  cbv zeta in Hemin, Hemax, Hen, Hex, Hamin, Hamax, Han, Hax.
  assert (Hsome : forall (f : ContainerRow -> option Z) r t,
             (series_min (map f (group_rows k cs)) = None <->
              forall r, r ∈ cs -> row_bol_id r = k -> f r = None) ->
             (series_max (map f (group_rows k cs)) = None <->
              forall r, r ∈ cs -> row_bol_id r = k -> f r = None) ->
             (forall m, series_min (map f (group_rows k cs)) = Some m ->
                forall r t, r ∈ cs -> row_bol_id r = k -> f r = Some t -> (m <= t)%Z) ->
             (forall m, series_max (map f (group_rows k cs)) = Some m ->
                forall r t, r ∈ cs -> row_bol_id r = k -> f r = Some t -> (t <= m)%Z) ->
             r ∈ cs -> row_bol_id r = k -> f r = Some t ->
             exists mn mx, series_min (map f (group_rows k cs)) = Some mn
                           /\ series_max (map f (group_rows k cs)) = Some mx
                           /\ (mn <= t <= mx)%Z).
  { intros f r t Hn Hx Hlb Hub Hr Hk Hf.
    destruct (series_min (map f (group_rows k cs))) as [mn|] eqn:Emn.
    2:{ destruct Hn as [Hn _]. rewrite (Hn eq_refl r Hr Hk) in Hf. discriminate. }
    destruct (series_max (map f (group_rows k cs))) as [mx|] eqn:Emx.
    2:{ destruct Hx as [Hx _]. rewrite (Hx eq_refl r Hr Hk) in Hf. discriminate. }
    exists mn, mx. split; [reflexivity|]. split; [reflexivity|].
    split; [exact (Hlb mn eq_refl r t Hr Hk Hf) | exact (Hub mx eq_refl r t Hr Hk Hf)]. }
  split; [intros m Hm; now apply Hemin|].
  split; [intros m Hm; now apply Hemax|].
  split; [intros m Hm; now apply Hamin|].
  split; [intros m Hm; now apply Hamax|].
  split.
  { intros r t. apply Hsome; [exact Hen | exact Hex | |].
    - intros m Hm. now apply Hemin.
    - intros m Hm. now apply Hemax. }
  split.
  { intros r t. apply Hsome; [exact Han | exact Hax | |].
    - intros m Hm. now apply Hamin.
    - intros m Hm. now apply Hamax. }
  split; [exact Hen|]. split; [exact Hex|]. split; [exact Han | exact Hax].
Qed.

(** ** Rejected cells and the ends of a run *)











Lemma run_checked_Completed raises dp (work_df : list InputRow) (rep : Report) :
  run_checked raises dp work_df = Completed rep -> run dp work_df = Some rep.
Proof.
  rewrite run_checked_unfold. unfold run.
  destruct (container_rows work_df) as [|r crs]; [discriminate|].
  rewrite decide_False by discriminate.
  destruct (_ || _); [discriminate|]. cbv zeta.
  destruct (_ || _); [discriminate|]. now intros [= <-].
Qed.

Lemma run_checked_NoContainers raises dp (work_df : list InputRow) :
  run_checked raises dp work_df = NoContainers <-> container_rows work_df = [].
Proof.
  rewrite run_checked_unfold.
  destruct (decide (container_rows work_df = [])) as [E|E]; [tauto|].
  destruct (_ || _); [split; [discriminate | contradiction]|]. cbv zeta.
  destruct (_ || _); split; (discriminate || contradiction).
Qed.


Lemma spread_hours_nonneg (mn mx : Z) :
  (mn <= mx)%Z -> exists q, spread_hours (Some mx) (Some mn) = FFin q /\ (0 <= q)%Q.
Proof.
  intros Hle. eexists. split; [reflexivity|].
  unfold Qle. simpl. lia.
Qed.

(** X4: for each metric the minimum and maximum of a BOL are both missing or
    both present with minimum <= maximum; the spread is NaN exactly when
    they are missing and is otherwise a finite number that is not negative. *)
Theorem spread_never_negative (cs : list ContainerRow) (a : BolAggregate) :
  a ∈ bol_spread cs ->
  ((eta_min a = None <-> eta_max a = None)
   /\ (forall mn mx, eta_min a = Some mn -> eta_max a = Some mx -> (mn <= mx)%Z)
   /\ (eta_spread_hours a = FNaN <-> eta_min a = None)
   /\ (eta_spread_hours a = FNaN
       \/ exists q, eta_spread_hours a = FFin q /\ (0 <= q)%Q))
  /\ ((ata_min a = None <-> ata_max a = None)
      /\ (forall mn mx, ata_min a = Some mn -> ata_max a = Some mx -> (mn <= mx)%Z)
      /\ (ata_spread_hours a = FNaN <-> ata_min a = None)
      /\ (ata_spread_hours a = FNaN
          \/ exists q, ata_spread_hours a = FFin q /\ (0 <= q)%Q)).
Proof.
  intros Ha. pose proof (bol_spread_lookup cs a Ha) as E.
  set (k := agg_bol_id a) in *. clearbody k. subst a. simpl.
  assert (Hgen : forall s : list (option Z),
             (series_min s = None <-> series_max s = None)
             /\ (forall mn mx, series_min s = Some mn -> series_max s = Some mx ->
                               (mn <= mx)%Z)
             /\ (spread_hours (series_max s) (series_min s) = FNaN
                 <-> series_min s = None)
             /\ (spread_hours (series_max s) (series_min s) = FNaN
                 \/ exists q, spread_hours (series_max s) (series_min s) = FFin q
                              /\ (0 <= q)%Q)).
  { intros s. pose proof (series_min_max_None s) as Hnone.
    pose proof (series_min_le_max s) as Hle.
    split; [exact Hnone|]. split; [exact Hle|].
    destruct (series_min s) as [mn|], (series_max s) as [mx|].
    - split; [split; discriminate|]. right. apply spread_hours_nonneg. now apply Hle.
    - exfalso. destruct Hnone as [_ Hn]. now discriminate Hn.
    - exfalso. destruct Hnone as [Hn _]. now discriminate Hn.
    - split; [split; reflexivity | now left]. }
  split; apply Hgen.
Qed.

Lemma classify_spread_ns (mn mx : Z) :
  classify_spread_hours (Some (spread_hours (Some mx) (Some mn)))
  = bucket_of_extrema (Some mn) (Some mx).
Proof.
  unfold bucket_of_extrema, spread_hours.
  set (d := (mx - mn)%Z).
  destruct (Z.eqb_spec d 0) as [Hz|Hnz].
  - apply classify_fin_zero. unfold Qeq. simpl. lia.
  - destruct (Z.ltb_spec 0 d) as [Hpos|Hneg].
    + destruct (Z.leb_spec d day_ns) as [Hle|Hgt].
      * apply classify_fin_between; unfold Qlt, Qle; simpl; unfold day_ns in Hle; lia.
      * apply classify_fin_above. unfold Qlt. simpl. unfold day_ns in Hgt. lia.
    + rewrite classify_fin_nonzero by (unfold Qeq; simpl; lia).
      assert (E : Qle_bool (d # 3600000000000) 0 = true).
      { apply Qle_bool_iff. unfold Qle. simpl. lia. }
      rewrite E. reflexivity.
Qed.

(** X5: the bucket of a BOL is decided by the nanoseconds between its
    minimum and maximum: NO_VALID_TIMESTAMP without extrema, NO_DIFFERENCE at
    0, BETWEEN_1_AND_24_HOURS up to and including 86400000000000 ns, and
    MORE_THAN_24_HOURS from one nanosecond more. *)
Theorem bucket_thresholds (cs : list ContainerRow) :
  Forall (fun a =>
            eta_spread_bucket a = bucket_of_extrema (eta_min a) (eta_max a)
            /\ ata_spread_bucket a = bucket_of_extrema (ata_min a) (ata_max a))
         (bol_spread cs).
Proof.
  apply Forall_forall. intros a Ha.
  pose proof (bol_spread_lookup cs a Ha) as E.
  set (k := agg_bol_id a) in *. clearbody k. subst a. simpl.
  assert (Hgen : forall mn mx : option Z,
             classify_spread_hours (Some (spread_hours mx mn))
             = bucket_of_extrema mn mx).
  { intros [mn|] [mx|]; try reflexivity. apply classify_spread_ns. }
  split; apply Hgen.
Qed.

(** ** Blank cells and mixed presence *)

Lemma length_filter_pos {A} (P : A -> Prop) `{!forall x, Decision (P x)} (l : list A) :
  (0 < length (filter P l))%nat <-> exists x, x ∈ l /\ P x.
Proof.
  split.
  - intros Hpos. destruct (filter P l) as [|x l'] eqn:E; [simpl in Hpos; lia|].
    assert (Hx : x ∈ filter P l) by (rewrite E; left).
    apply list_elem_of_filter in Hx as [HP Hx]. eauto.
  - intros (x & Hx & HP).
    assert (Hin : x ∈ filter P l) by (apply list_elem_of_filter; auto).
    destruct (filter P l); [now apply elem_of_nil in Hin | simpl; lia].
Qed.

(** X6: a cell counts as missing exactly when it is blank, that is, empty or
    made of white space characters only: the missing counts of a BOL count
    its rows with such a cell, and the present counts count the other rows. *)
Theorem missing_counts_blank_cells (cs : list ContainerRow) :
  (forall s : string, PyStr.all_space s = true <-> PyStr.blank s)
  /\ Forall (fun a =>
       let rows := filter (fun r => bol_id r = agg_bol_id a) (map c_row cs) in
       n_eta_missing a = length (filter (fun r => PyStr.all_space (eta r) = true) rows)
       /\ n_eta_present a = length (filter (fun r => PyStr.all_space (eta r) = false) rows)
       /\ n_ata_missing a = length (filter (fun r => PyStr.all_space (ata r) = true) rows)
       /\ n_ata_present a = length (filter (fun r => PyStr.all_space (ata r) = false) rows))
      (bol_spread cs).
Proof.
  split; [exact all_space_blank|].
  apply Forall_forall. intros a Ha rows. subst rows.
  pose proof (bol_spread_lookup cs a Ha) as E.
  set (k := agg_bol_id a) in *. clearbody k. subst a.
  destruct (aggregate_group_counts k (group_rows k cs)) as (_ & -> & -> & -> & ->).
  rewrite group_rows_c_row.
  assert (Hnot : forall s, PyStr.strip s <> "" <-> PyStr.all_space s = false).
  { intros s. rewrite strip_empty_iff. apply not_true_iff_false. }
  repeat split; f_equal; apply list_filter_iff; intros r;
    (apply strip_empty_iff || apply Hnot).
Qed.

(** X7: a BOL is flagged as mixed exactly when one of its container rows has
    a non-blank ATA cell and another one a blank ATA cell (empty or made of
    white space characters only); such a BOL has at least two container
    rows. *)
Theorem mixed_means_present_and_missing (cs : list ContainerRow) (a : BolAggregate) :
  a ∈ bol_spread cs ->
  (is_mixed a <->
   (exists r, r ∈ cs /\ row_bol_id r = agg_bol_id a /\ ~ PyStr.blank (row_ata r))
   /\ (exists r, r ∈ cs /\ row_bol_id r = agg_bol_id a /\ PyStr.blank (row_ata r)))
  /\ (is_mixed a -> (2 <= n_containers a)%nat).
Proof.
  intros Ha. pose proof (bol_spread_lookup cs a Ha) as E.
  set (k := agg_bol_id a) in *. clearbody k.
  assert (Hsum : n_ata_present a + n_ata_missing a = n_containers a).
  { rewrite E. simpl. now rewrite count_present_missing, length_map. }
  split; [|unfold is_mixed; lia].
  unfold is_mixed. rewrite E. simpl.
  unfold count_present, count_missing. rewrite !length_filter_map, !length_filter_pos.
  split.
  - intros [(r1 & Hr1 & H1) (r2 & Hr2 & H2)].
    apply elem_of_group_rows in Hr1 as [Hr1 Hk1].
    apply elem_of_group_rows in Hr2 as [Hr2 Hk2].
    split; [exists r1 | exists r2]; repeat split; auto.
    + now apply strip_nonempty_blank.
    + now apply strip_empty_blank.
  - intros [(r1 & Hr1 & Hk1 & H1) (r2 & Hr2 & Hk2 & H2)].
    split; [exists r1 | exists r2]; (split; [now apply elem_of_group_rows|]).
    + now apply strip_nonempty_blank.
    + now apply strip_empty_blank.
Qed.

(** ** Size of the mixed presence detail *)

Lemma mixed_ata_bols_NoDup (cs : list ContainerRow) :
  NoDup (mixed_ata_bols (bol_spread cs)).
Proof.
  unfold mixed_ata_bols.
  apply (sublist_NoDup _ (map agg_bol_id (bol_spread cs))).
  - rewrite bol_spread_ids. apply group_keys_NoDup.
  - change (agg_bol_id <$> filter is_mixed (bol_spread cs)
            `sublist_of` agg_bol_id <$> bol_spread cs).
    apply fmap_sublist, sublist_filter.
Qed.

Lemma mixed_ata_bols_in_rows (cs : list ContainerRow) (k : string) :
  k ∈ mixed_ata_bols (bol_spread cs) -> k ∈ map row_bol_id cs.
Proof.
  intros Hk. apply elem_of_mixed_ata_bols in Hk as (a & Ha & <- & _).
  apply bol_spread_id_in_rows in Ha. now rewrite map_map in Ha.
Qed.

Lemma detail_bol_ids (cs : list ContainerRow) (mixed : list string) (k : string) :
  k ∈ map bol_id (bol_mixed_ata_presence_detail cs mixed)
  <-> k ∈ mixed /\ k ∈ map row_bol_id cs.
Proof.
  rewrite detail_as_filter, !list_elem_of_In, !in_map_iff. split.
  - intros (r & <- & Hr). apply list_elem_of_In, list_elem_of_filter in Hr as [Hm Hr].
    apply list_elem_of_In, in_map_iff in Hr as (c & <- & Hc).
    split; [now apply list_elem_of_In | eauto].
  - intros [Hm (c & <- & Hc)]. exists (c_row c). split; [reflexivity|].
    apply list_elem_of_In, list_elem_of_filter. split; [now apply list_elem_of_In|].
    apply list_elem_of_In, in_map_iff. eauto.
Qed.

Lemma length_filter_keys {A} (f : A -> string) (u : list string) (l : list A) :
  NoDup u ->
  length (filter (fun r => f r ∈ u) l)
  = sum_list_with (fun k => length (filter (fun r => f r = k) l)) u.
Proof.
  intros Hu. induction l as [|r l IH].
  - simpl. clear. induction u as [|k u IHu]; [reflexivity | simpl; now rewrite <- IHu].
  - rewrite filter_cons.
    assert (Hsplit : sum_list_with (fun k => length (filter (fun r0 => f r0 = k) (r :: l))) u
                     = sum_list_with (fun k => if decide (f r = k) then 1 else 0) u
                       + sum_list_with (fun k => length (filter (fun r0 => f r0 = k) l)) u).
    { clear. induction u as [|k u IHu]; [reflexivity|].
      simpl. rewrite IHu, filter_cons. destruct (decide (f r = k)); simpl; lia. }
    rewrite Hsplit, <- IH. destruct (decide (f r ∈ u)) as [Hin|Hout].
    + rewrite (sum_indicator u (f r) Hu Hin). reflexivity.
    + assert (H0 : sum_list_with (fun k => if decide (f r = k) then 1 else 0) u = 0).
      { clear -Hout. induction u as [|k u IHu]; [reflexivity|]. simpl.
        rewrite not_elem_of_cons in Hout. destruct Hout as [Hk Hout].
        rewrite decide_False by assumption. now rewrite IHu. }
      now rewrite H0.
Qed.

Lemma sum_list_with_map {A B} (g : A -> B) (h : B -> nat) (l : list A) :
  sum_list_with h (map g l) = sum_list_with (fun a => h (g a)) l.
Proof. induction l as [|a l IH]; [reflexivity | simpl; now rewrite IH]. Qed.

Lemma sum_list_with_ext_in {A} (h h' : A -> nat) (l : list A) :
  (forall a, a ∈ l -> h a = h' a) -> sum_list_with h l = sum_list_with h' l.
Proof.
  induction l as [|a l IH]; intros Hext; [reflexivity|].
  simpl. rewrite (Hext a) by left. rewrite IH; [reflexivity|].
  intros b Hb. apply Hext. now right.
Qed.

(** X8: the mixed presence detail has as many rows as the mixed BOLs have
    containers, it is empty exactly when no BOL is mixed, and the count of the
    mixed-presence row of the summary is the number of distinct BOL ids in the
    detail. *)
Theorem mixed_detail_size (cs : list ContainerRow) :
  length (mixed_detail (report_of cs))
  = sum_list_with n_containers (filter is_mixed (bol_spread cs))
  /\ (mixed_detail (report_of cs) = [] <-> Forall (fun a => ~ is_mixed a) (bol_spread cs))
  /\ Forall (fun row =>
               metric row = "ATA_MIXED_PRESENCE" ->
               count row = length (remove_dups (map bol_id (mixed_detail (report_of cs)))))
            (summary_df (report_of cs)).
Proof.
  assert (Hlen : length (mixed_detail (report_of cs))
                 = sum_list_with n_containers (filter is_mixed (bol_spread cs))).
  { simpl. unfold bol_mixed_ata_presence_detail. rewrite length_map.
    rewrite (length_filter_keys row_bol_id) by apply mixed_ata_bols_NoDup.
    unfold mixed_ata_bols. rewrite sum_list_with_map.
    apply sum_list_with_ext_in. intros a Ha.
    apply list_elem_of_filter in Ha as [_ Ha].
    transitivity (n_containers
                    (aggregate_group (agg_bol_id a) (group_rows (agg_bol_id a) cs)));
      [reflexivity | now rewrite <- bol_spread_lookup]. }
  split; [exact Hlen|]. split.
  - split.
    + intros Hnil. apply Forall_forall. intros a Ha Hm.
      assert (Hk : agg_bol_id a ∈ map bol_id (mixed_detail (report_of cs))).
      { simpl. apply detail_bol_ids. split.
        - apply elem_of_mixed_ata_bols. exists a. destruct Hm. auto.
        - apply bol_spread_id_in_rows in Ha. now rewrite map_map in Ha. }
      rewrite Hnil in Hk. now apply elem_of_nil in Hk.
    + intros Hnone. apply length_zero_iff_nil. rewrite Hlen.
      replace (filter is_mixed (bol_spread cs)) with (@nil BolAggregate); [reflexivity|].
      symmetry. clear Hlen. induction Hnone as [|a l Ha _ IH]; [reflexivity|].
      rewrite filter_cons. destruct (decide (is_mixed a)); [contradiction | exact IH].
  - apply Forall_forall. intros row Hrow Hmetric.
    simpl in Hrow. unfold summary_rows in Hrow.
    apply elem_of_app in Hrow as [Hrow|Hrow];
      [|apply elem_of_app in Hrow as [Hrow|Hrow]].
    + apply elem_of_bucket_rows in Hrow as (b & n & _ & ->). discriminate.
    + apply elem_of_bucket_rows in Hrow as (b & n & _ & ->). discriminate.
    + apply list_elem_of_singleton in Hrow. subst row. simpl.
      apply Permutation_length, NoDup_Permutation.
      * apply mixed_ata_bols_NoDup.
      * apply NoDup_remove_dups.
      * intros k. rewrite elem_of_remove_dups, detail_bol_ids. split; [|tauto].
        intros Hk. split; [assumption | now apply mixed_ata_bols_in_rows].
Qed.

(** ** Shape of a report *)

Lemma container_rows_nil_iff (work_df : list InputRow) :
  container_rows work_df = []
  <-> Forall (fun r => is_container (shipment_type r) = false) work_df.
Proof.
  unfold container_rows. induction work_df as [|r l IH]; simpl.
  - split; [constructor | reflexivity].
  - destruct (is_container (shipment_type r)) eqn:E.
    + split; [discriminate|]. intros H. inversion H; congruence.
    + rewrite IH. split; [now constructor | intros H; now inversion H].
Qed.

Lemma NoDup_labels_length (u : list string) :
  NoDup u -> (forall b, b ∈ u -> b ∈ bucket_labels) -> (length u <= 4)%nat.
Proof.
  intros Hu Hsub.
  apply (submseteq_length u bucket_labels), NoDup_submseteq; assumption.
Qed.

Lemma value_counts_length (l : list string) :
  length (value_counts l) = length (unique l).
Proof.
  rewrite <- (length_map fst). apply Permutation_length, value_counts_keys.
Qed.

Lemma bucket_rows_length (m : string) (counts : list (string * nat)) :
  length (bucket_rows m counts) = length counts.
Proof. unfold bucket_rows. apply length_map. Qed.

Lemma metric_rows_bounds (m : string) (l : list string) :
  (forall b, b ∈ l -> b ∈ bucket_labels) ->
  (length (bucket_rows m (value_counts l)) <= 4)%nat
  /\ (l <> [] -> (1 <= length (bucket_rows m (value_counts l)))%nat).
Proof.
  intros Hsub. rewrite bucket_rows_length, value_counts_length. split.
  - apply NoDup_labels_length; [apply NoDup_unique|].
    intros b Hb. now apply Hsub, elem_of_unique.
  - destruct l as [|x l]; [congruence|]. simpl. lia.
Qed.

Lemma bol_spread_buckets (cs : list ContainerRow) :
  (forall b, b ∈ map eta_spread_bucket (bol_spread cs) -> b ∈ bucket_labels)
  /\ (forall b, b ∈ map ata_spread_bucket (bol_spread cs) -> b ∈ bucket_labels).
Proof.
  split; intros b Hb; apply list_elem_of_In, in_map_iff in Hb as (a & <- & Ha);
    apply list_elem_of_In, elem_of_bol_spread in Ha as (k & _ & ->);
    unfold aggregate_group; cbn [eta_spread_bucket ata_spread_bucket];
    apply classify_in_labels.
Qed.

Lemma described_label (m : string) (b : string) (n : nat) :
  b ∈ bucket_labels ->
  (b, description (mkSummaryRow m b (dict_get bucket_descriptions b b) n))
  ∈ bucket_descriptions.
Proof.
  unfold bucket_labels. rewrite !elem_of_cons, elem_of_nil.
  intros [-> | [-> | [-> | [-> | []]]]]; vm_compute; repeat constructor.
Qed.

Lemma bol_spread_nonempty (cs : list ContainerRow) :
  cs <> [] -> bol_spread cs <> [].
Proof.
  intros Hne Hnil. destruct cs as [|r cs]; [congruence|].
  assert (Hk : row_bol_id r ∈ group_keys (r :: cs)) by (apply elem_of_group_keys; left).
  rewrite <- bol_spread_ids, Hnil in Hk. now apply elem_of_nil in Hk.
Qed.

Lemma bol_spread_length_le (cs : list ContainerRow) :
  (length (bol_spread cs) <= length cs)%nat.
Proof.
  rewrite bol_spread_length, <- (length_map row_bol_id cs).
  apply submseteq_length, NoDup_submseteq; [apply NoDup_remove_dups|].
  intros k. now rewrite elem_of_remove_dups.
Qed.

(** X9: a run ends with the warning exactly when no row passes the
    container test, and [run] gives no report in exactly that case; a report
    that a run delivers is the report of [run]; a report has at least one BOL
    row and at most one per container row, its summary has between three and
    nine rows, and every summary row carries one of the five fixed
    descriptions (the fallback of the description lookup is never used). *)
Theorem report_shape raises dp (work_df : list InputRow) :
  (run_checked raises dp work_df = NoContainers
   <-> Forall (fun r => is_container (shipment_type r) = false) work_df)
  /\ (run_checked raises dp work_df = NoContainers <-> run dp work_df = None)
  /\ (forall rep, run_checked raises dp work_df = Completed rep ->
                  run dp work_df = Some rep)
  /\ (forall rep, run dp work_df = Some rep ->
        (1 <= length (bol_eta_spread rep) <= length (container_rows work_df))%nat
        /\ length (bol_ata_spread rep) = length (bol_eta_spread rep)
        /\ (3 <= length (summary_df rep) <= 9)%nat
        /\ Forall (fun row => (bucket row, description row) ∈ bucket_descriptions)
                  (summary_df rep)).
Proof.
  split; [|split; [|split]].
  - now rewrite run_checked_NoContainers, container_rows_nil_iff.
  - rewrite run_checked_NoContainers. unfold run.
    destruct (container_rows work_df); split; congruence.
  - apply run_checked_Completed.
  - intros rep Hrun. apply run_Some_inv in Hrun as [-> Hne].
    set (cs := assign_timestamps dp (container_rows work_df)).
    assert (Hlen : length cs = length (container_rows work_df)).
    { unfold cs. rewrite <- (length_map c_row). now rewrite assign_timestamps_rows. }
    assert (Hcs : cs <> []).
    { intros Hnil. rewrite Hnil in Hlen. simpl in Hlen.
      destruct (container_rows work_df); [congruence | discriminate]. }
    pose proof (bol_spread_nonempty cs Hcs) as Hsp.
    pose proof (bol_spread_length_le cs) as Hle.
    destruct (bol_spread_buckets cs) as [Heta Hata].
    simpl. rewrite !length_map. split; [|split; [reflexivity|split]].
    + destruct (bol_spread cs); [congruence | simpl in *; lia].
    + unfold summary_rows. rewrite !length_app. simpl.
      destruct (metric_rows_bounds "ETA" _ Heta) as [He4 He1].
      destruct (metric_rows_bounds "ATA" _ Hata) as [Ha4 Ha1].
      assert (Hm : forall f : BolAggregate -> string, map f (bol_spread cs) <> []).
      { intros f Hnil. apply Hsp. now apply map_eq_nil in Hnil. }
      specialize (He1 (Hm _)). specialize (Ha1 (Hm _)). lia.
    + unfold summary_rows. rewrite !Forall_app. repeat split.
      * apply Forall_forall. intros row Hrow.
        apply elem_of_bucket_rows in Hrow as (b & n & Hin & ->).
        apply elem_of_value_counts in Hin as [Hb _]. now apply described_label, Heta.
      * apply Forall_forall. intros row Hrow.
        apply elem_of_bucket_rows in Hrow as (b & n & Hin & ->).
        apply elem_of_value_counts in Hin as [Hb _]. now apply described_label, Hata.
      * constructor; [|constructor]. vm_compute. repeat constructor.
Qed.

(** ** Order of the summary rows *)

Lemma insert_desc_Sorted (p : string * nat) (l : list (string * nat)) :
  Sorted (fun x y => (snd y <= snd x)%nat) l ->
  Sorted (fun x y => (snd y <= snd x)%nat) (insert_desc p l).
Proof.
  induction 1 as [|q l Hl IH Hhd]; simpl; [repeat constructor|].
  destruct (Nat.leb_spec (snd q) (snd p)) as [Hle|Hgt].
  - repeat constructor; assumption.
  - constructor; [exact IH|].
    destruct l as [|q' l]; simpl.
    + constructor. lia.
    + destruct (snd q' <=? snd p)%nat; constructor; [lia|].
      now inversion Hhd.
Qed.

Lemma value_counts_Sorted (l : list string) :
  Sorted (fun x y => (snd y <= snd x)%nat) (value_counts l).
Proof.
  unfold value_counts, sort_values_desc.
  induction (map _ (unique l)) as [|p ps IH]; simpl; [constructor|].
  now apply insert_desc_Sorted.
Qed.

Lemma bucket_rows_Sorted (m : string) (counts : list (string * nat)) :
  Sorted (fun x y => (snd y <= snd x)%nat) counts ->
  Sorted (fun r1 r2 => (count r2 <= count r1)%nat) (bucket_rows m counts).
Proof.
  unfold bucket_rows. induction 1 as [|q l Hl IH Hhd]; simpl; constructor.
  - exact IH.
  - destruct Hhd; simpl; constructor. assumption.
Qed.

(** X10: within the ETA rows of the summary, and within its ATA rows, the
    counts never increase from one row to the next. *)
Theorem summary_counts_descending (spread : list BolAggregate) :
  Sorted (fun r1 r2 => (count r2 <= count r1)%nat)
         (filter (fun row => metric row = "ETA") (summary_rows spread))
  /\ Sorted (fun r1 r2 => (count r2 <= count r1)%nat)
            (filter (fun row => metric row = "ATA") (summary_rows spread)).
Proof.
  rewrite summary_eta_rows, summary_ata_rows.
  split; apply bucket_rows_Sorted, value_counts_Sorted.
Qed.

(** ** ETA and ATA are treated alike *)

Lemma container_rows_swap (work_df : list InputRow) :
  container_rows (map swap_eta_ata work_df) = map swap_eta_ata (container_rows work_df).
Proof.
  unfold container_rows. induction work_df as [|r l IH]; [reflexivity|].
  simpl. destruct (is_container (shipment_type r)); simpl; now rewrite IH.
Qed.

Lemma assign_timestamps_swap dp (crs : list InputRow) :
  assign_timestamps dp (map swap_eta_ata crs)
  = map swap_timestamps (assign_timestamps dp crs).
Proof.
  rewrite !assign_timestamps_map, !map_map. reflexivity.
Qed.

Lemma group_keys_swap (cs : list ContainerRow) :
  group_keys (map swap_timestamps cs) = group_keys cs.
Proof. unfold group_keys. now rewrite map_map. Qed.

Lemma group_rows_swap (k : string) (cs : list ContainerRow) :
  group_rows k (map swap_timestamps cs) = map swap_timestamps (group_rows k cs).
Proof.
  unfold group_rows. induction cs as [|r cs IH]; [reflexivity|].
  simpl. rewrite !filter_cons. simpl.
  destruct (decide (bol_id (c_row r) = k)); simpl; now rewrite IH.
Qed.

Lemma aggregate_group_swap (k : string) (g : list ContainerRow) :
  eta_view (aggregate_group k (map swap_timestamps g)) = ata_view (aggregate_group k g)
  /\ ata_view (aggregate_group k (map swap_timestamps g)) = eta_view (aggregate_group k g).
Proof.
  unfold eta_view, ata_view, aggregate_group. simpl.
  rewrite !map_map, !length_map. simpl. split; reflexivity.
Qed.

Lemma bol_spread_swap (cs : list ContainerRow) :
  map eta_view (bol_spread (map swap_timestamps cs)) = map ata_view (bol_spread cs)
  /\ map ata_view (bol_spread (map swap_timestamps cs)) = map eta_view (bol_spread cs).
Proof.
  rewrite !bol_spread_unfold, group_keys_swap, !map_map.
  split; apply map_ext; intros k; rewrite group_rows_swap; apply aggregate_group_swap.
Qed.

Lemma run_unfold dp (work_df : list InputRow) :
  run dp work_df
  = if decide (container_rows work_df = []) then None
    else Some (report_of (assign_timestamps dp (container_rows work_df))).
Proof.
  unfold run. destruct (container_rows work_df) as [|r crs]; [reflexivity|].
  now rewrite decide_False.
Qed.

(** X11: ETA and ATA go through the same computation: exchanging the ETA
    and ATA columns of the input exchanges the ETA table and the ATA table of
    the report, and a run without report stays without report. *)
Theorem eta_ata_symmetry dp (work_df : list InputRow) :
  bol_eta_spread <$> run dp (map swap_eta_ata work_df)
  = bol_ata_spread <$> run dp work_df
  /\ bol_ata_spread <$> run dp (map swap_eta_ata work_df)
     = bol_eta_spread <$> run dp work_df.
Proof.
  rewrite !run_unfold, container_rows_swap.
  destruct (decide (container_rows work_df = [])) as [Hnil|Hne].
  - rewrite Hnil. split; reflexivity.
  - rewrite decide_False by (intros H; apply map_eq_nil in H; contradiction).
    rewrite assign_timestamps_swap.
    destruct (bol_spread_swap (assign_timestamps dp (container_rows work_df)))
      as [He Ha].
    simpl. rewrite He, Ha. split; reflexivity.
Qed.

(** ** The container test ignores case and padding *)

(** X12: the container test is trimmed and, on ASCII text, case-insensitive:
    a shipment type and the same text between white space characters get
    the same answer, and so do two ASCII shipment types that differ in the
    case of their letters only; in general the answer depends on the
    upper-cased trimmed text alone. *)
Theorem is_container_case_and_padding :
  (forall s s' : string,
      PyStr.is_ascii s = true -> PyStr.is_ascii s' = true ->
      PyStr.ascii_upper s = PyStr.ascii_upper s' ->
      is_container s = is_container s')
  /\ (forall s s' : string,
        PyStr.upper (PyStr.strip s) = PyStr.upper (PyStr.strip s') ->
        is_container s = is_container s')
  /\ (forall pre s post : string,
        PyStr.blank pre -> PyStr.blank post ->
        is_container (pre +:+ s +:+ post) = is_container s).
Proof.
  split; [|split].
  - intros s s' Hs Hs' Hup. unfold is_container.
    now rewrite !upper_strip_ascii, Hup by assumption.
  - intros s s' Hup. unfold is_container. now rewrite Hup.
  - intros pre s post Hpre Hpost. unfold is_container.
    now rewrite strip_pad by (now apply all_space_blank).
Qed.

(** * Role mapping *)

Lemma assign_column_Some (name src : string) (df w : gmap string (list string)) :
  assign_column name src df = Some w
  <-> exists col, df !! src = Some col /\ w = <[name := col]> df.
Proof.
  unfold assign_column. destruct (df !! src) as [col|]; simpl.
  - split; [intros [= <-]; eauto | intros (c & [= <-] & ->); reflexivity].
  - split; [discriminate | intros (c & Hc & _); discriminate].
Qed.

Lemma map_roles_Some (roles : Roles) (df w : gmap string (list string)) :
  map_roles roles df = Some w ->
  exists c1 c2 c3 c4 c5,
    let w1 := <["identifier" := c1]> df in
    let w2 := <["shipment_type" := c2]> w1 in
    let w3 := <["bol_id" := c3]> w2 in
    let w4 := <["eta" := c4]> w3 in
    df !! identifier_col roles = Some c1
    /\ w1 !! shipment_type_col roles = Some c2
    /\ w2 !! bol_id_col roles = Some c3
    /\ w3 !! eta_col roles = Some c4
    /\ w4 !! ata_col roles = Some c5
    /\ w = <["ata" := c5]> w4.
Proof.
  unfold map_roles. intros H.
  destruct (assign_column "identifier" _ df) as [w1|] eqn:E1; [|discriminate].
  simpl in H.
  destruct (assign_column "shipment_type" _ w1) as [w2|] eqn:E2; [|discriminate].
  simpl in H.
  destruct (assign_column "bol_id" _ w2) as [w3|] eqn:E3; [|discriminate].
  simpl in H.
  destruct (assign_column "eta" _ w3) as [w4|] eqn:E4; [|discriminate].
  simpl in H.
  apply assign_column_Some in E1 as (c1 & H1 & ->).
  apply assign_column_Some in E2 as (c2 & H2 & ->).
  apply assign_column_Some in E3 as (c3 & H3 & ->).
  apply assign_column_Some in E4 as (c4 & H4 & ->).
  apply assign_column_Some in H as (c5 & H5 & ->).
  exists c1, c2, c3, c4, c5. simpl. auto 10.
Qed.

(** X13: after the role mapping each working column holds the column its
    role points to, read at the moment of its assignment: when a role points
    to the name of a working column written before it, it gets that working
    column and not the uploaded column of that name; otherwise it gets the
    uploaded column.  Columns with other names are left as uploaded. *)
Theorem map_roles_resolution (roles : Roles) (df w : gmap string (list string)) :
  map_roles roles df = Some w ->
  w !! "identifier" = df !! identifier_col roles
  /\ w !! "shipment_type"
     = (if decide (shipment_type_col roles ∈ ["identifier"])
        then w !! shipment_type_col roles else df !! shipment_type_col roles)
  /\ w !! "bol_id"
     = (if decide (bol_id_col roles ∈ ["identifier"; "shipment_type"])
        then w !! bol_id_col roles else df !! bol_id_col roles)
  /\ w !! "eta"
     = (if decide (eta_col roles ∈ ["identifier"; "shipment_type"; "bol_id"])
        then w !! eta_col roles else df !! eta_col roles)
  /\ w !! "ata"
     = (if decide (ata_col roles ∈ ["identifier"; "shipment_type"; "bol_id"; "eta"])
        then w !! ata_col roles else df !! ata_col roles)
  /\ (forall c, c ∉ working_names -> w !! c = df !! c).
Proof.
  intros H. apply map_roles_Some in H as (c1 & c2 & c3 & c4 & c5 & H).
  destruct roles as [ic sc bc ec ac].
  simpl in H. destruct H as (H1 & H2 & H3 & H4 & H5 & ->). simpl.
  repeat split.
  - now simplify_map_eq.
  - case_decide as Hin; split_names; subst; simplify_map_eq; congruence.
  - case_decide as Hin; split_names; subst; simplify_map_eq; congruence.
  - case_decide as Hin; split_names; subst; simplify_map_eq; congruence.
  - case_decide as Hin; split_names; subst; simplify_map_eq; congruence.
  - intros c Hc. unfold working_names in Hc. split_names. now simplify_map_eq.
Qed.



Lemma work_rows_after_map_roles (roles : Roles) (df w : gmap string (list string)) :
  map_roles roles df = Some w -> is_Some (work_rows w).
Proof.
  intros H. apply map_roles_Some in H as (c1 & c2 & c3 & c4 & c5 & H).
  simpl in H. destruct H as (_ & _ & _ & _ & _ & ->).
  unfold work_rows. simplify_map_eq. eauto.
Qed.


(** X15: when the five roles name uploaded columns and no role names a
    working column written before it, the handler works on exactly the rows
    of the five chosen columns: it ends as the run over these rows ends,
    with the warning, in the error branch, or with the report. *)
Theorem run_app_faithful raises dp (roles : Roles) (df : gmap string (list string))
    (c1 c2 c3 c4 c5 : list string) :
  df !! identifier_col roles = Some c1 ->
  df !! shipment_type_col roles = Some c2 ->
  df !! bol_id_col roles = Some c3 ->
  df !! eta_col roles = Some c4 ->
  df !! ata_col roles = Some c5 ->
  shipment_type_col roles ∉ ["identifier"] ->
  bol_id_col roles ∉ ["identifier"; "shipment_type"] ->
  eta_col roles ∉ ["identifier"; "shipment_type"; "bol_id"] ->
  ata_col roles ∉ ["identifier"; "shipment_type"; "bol_id"; "eta"] ->
  run_app raises dp roles df
  = run_checked raises dp (rows_of_columns c1 c2 c3 c4 c5).
Proof.
  destruct roles as [ic sc bc ec ac]. simpl.
  intros H1 H2 H3 H4 H5 N2 N3 N4 N5. split_names.
  assert (Hw : map_roles (mkRoles ic sc bc ec ac) df ≫= work_rows
               = Some (rows_of_columns c1 c2 c3 c4 c5)).
  { unfold map_roles, assign_column. simpl.
    rewrite H1. simpl.
    rewrite lookup_insert_ne, H2 by congruence. simpl.
    rewrite !lookup_insert_ne, H3 by congruence. simpl.
    rewrite !lookup_insert_ne, H4 by congruence. simpl.
    rewrite !lookup_insert_ne, H5 by congruence. simpl.
    unfold work_rows. now simplify_map_eq. }
  unfold run_app. now rewrite Hw.
Qed.

Lemma assign_column_height (n : nat) (name src : string)
    (df w : gmap string (list string)) :
  frame_height n df -> assign_column name src df = Some w -> frame_height n w.
Proof.
  intros Hdf Hw. apply assign_column_Some in Hw as (col & Hcol & ->).
  intros c col' Hc. destruct (decide (name = c)) as [->|Hne].
  - rewrite lookup_insert_eq in Hc. injection Hc as <-. now apply (Hdf src).
  - rewrite lookup_insert_ne in Hc by assumption. now apply (Hdf c).
Qed.

Lemma map_roles_height (n : nat) (roles : Roles) (df w : gmap string (list string)) :
  frame_height n df -> map_roles roles df = Some w -> frame_height n w.
Proof.
  unfold map_roles. intros Hdf H.
  destruct (assign_column "identifier" _ df) as [w1|] eqn:E1; [|discriminate].
  simpl in H.
  destruct (assign_column "shipment_type" _ w1) as [w2|] eqn:E2; [|discriminate].
  simpl in H.
  destruct (assign_column "bol_id" _ w2) as [w3|] eqn:E3; [|discriminate].
  simpl in H.
  destruct (assign_column "eta" _ w3) as [w4|] eqn:E4; [|discriminate].
  simpl in H.
  eauto 10 using assign_column_height.
Qed.

Lemma rows_of_columns_length (n : nat) (ids sts bols etas atas : list string) :
  length ids = n -> length sts = n -> length bols = n ->
  length etas = n -> length atas = n ->
  length (rows_of_columns ids sts bols etas atas) = n.
Proof.
  revert ids sts bols etas atas.
  induction n as [|n IH]; intros [|i ids] [|s sts] [|b bols] [|e etas] [|a atas];
    simpl; try discriminate; try reflexivity.
  intros. f_equal. apply IH; lia.
Qed.

(** X16: the role mapping keeps the frame rectangular: on an upload of n
    rows every column of the working frame has n cells, and the working
    columns read by row give n rows. *)
Theorem map_roles_keeps_height (n : nat) (roles : Roles)
    (df w : gmap string (list string)) :
  frame_height n df ->
  map_roles roles df = Some w ->
  frame_height n w
  /\ exists rows, work_rows w = Some rows /\ length rows = n.
Proof.
  intros Hdf Hw. pose proof (map_roles_height n roles df w Hdf Hw) as Hh.
  split; [exact Hh|].
  destruct (work_rows_after_map_roles roles df w Hw) as [rows Hrows].
  exists rows. split; [exact Hrows|].
  unfold work_rows in Hrows.
  destruct (w !! "identifier") as [c1|] eqn:E1; [|discriminate]. simpl in Hrows.
  destruct (w !! "shipment_type") as [c2|] eqn:E2; [|discriminate]. simpl in Hrows.
  destruct (w !! "bol_id") as [c3|] eqn:E3; [|discriminate]. simpl in Hrows.
  destruct (w !! "eta") as [c4|] eqn:E4; [|discriminate]. simpl in Hrows.
  destruct (w !! "ata") as [c5|] eqn:E5; [|discriminate]. simpl in Hrows.
  injection Hrows as <-.
  apply rows_of_columns_length; eapply Hh; eassumption.
Qed.

(** * Order of the rows and the report *)

Lemma bol_spread_perm_eq (cs cs' : list ContainerRow) :
  cs ≡ₚ cs' -> bol_spread cs = bol_spread cs'.
Proof.
  intros Hp. rewrite !bol_spread_unfold, (group_keys_Permutation cs cs' Hp).
  apply map_ext. intros k. apply aggregate_group_Permutation.
  unfold group_rows. now rewrite Hp.
Qed.

(** X17: reordering the container rows changes nothing in the ETA table, the
    ATA table and the summary of the report; the mixed presence detail holds
    the same rows, reordered. *)
Theorem report_of_Permutation (cs cs' : list ContainerRow) :
  cs ≡ₚ cs' ->
  bol_eta_spread (report_of cs) = bol_eta_spread (report_of cs')
  /\ bol_ata_spread (report_of cs) = bol_ata_spread (report_of cs')
  /\ summary_df (report_of cs) = summary_df (report_of cs')
  /\ mixed_detail (report_of cs) ≡ₚ mixed_detail (report_of cs').
Proof.
  intros Hp. simpl. rewrite (bol_spread_perm_eq cs cs' Hp).
  repeat split. unfold bol_mixed_ata_presence_detail. now rewrite Hp.
Qed.

End Properties.

(** * The sample frames *)

#[local] Existing Instance PyStr.ascii_casing.

Lemma classify_negative_witness :
  (-1 < 0)%Q /\ classify_spread_hours (Some (FFin (-1))) = MORE_THAN_24_HOURS.
Proof.
  split; [reflexivity | apply (classify_negative_is_more_than_24 (-1)); reflexivity].
Defined.

Example sample_run_reports : run Sample.dateparse Sample.work_df = Some Sample.report.
Proof. reflexivity. Qed.

(** Two container rows of one BOL twelve hours apart. *)
Example sample_eta_view_B1 :
  filter (fun v => v_bol_id v = "B1") (bol_eta_spread Sample.report)
  = [ mkSpreadView "B1" 2 2 0
        (Some 1704067200000000000%Z) (Some 1704110400000000000%Z)
        (FFin (43200000000000 # 3600000000000)) BETWEEN_1_AND_24_HOURS ].
Proof. vm_compute. reflexivity. Qed.

(** A BOL whose only ETA cell is empty, and one whose only cell is rejected. *)
Example sample_eta_view_unparsed :
  filter (fun v => v_bol_id v <> "B1") (bol_eta_spread Sample.report)
  = [ mkSpreadView "A0" 1 1 0 None None FNaN NO_VALID_TIMESTAMP;
      mkSpreadView "B2" 1 0 1 None None FNaN NO_VALID_TIMESTAMP ].
Proof. vm_compute. reflexivity. Qed.

Example sample_mixed_detail :
  map identifier (mixed_detail Sample.report) = ["c1"; "c2"].
Proof. vm_compute. reflexivity. Qed.

Example sample_summary :
  map (fun row => (metric row, bucket row, count row)) (summary_df Sample.report)
  = [ ("ETA", NO_VALID_TIMESTAMP, 2); ("ETA", BETWEEN_1_AND_24_HOURS, 1);
      ("ATA", NO_VALID_TIMESTAMP, 2); ("ATA", NO_DIFFERENCE, 1);
      ("ATA_MIXED_PRESENCE", MIXED_PRESENT_AND_MISSING, 1) ].
Proof. vm_compute. reflexivity. Qed.

Example summary_of_no_aggregate :
  summary_rows []
  = [ mkSummaryRow "ATA_MIXED_PRESENCE" MIXED_PRESENT_AND_MISSING
        "BOLs where some containers have ATA and others do not" 0 ].
Proof. reflexivity. Qed.

Example is_container_examples :
  is_container "Container" = true /\ is_container "  container_id " = true
  /\ is_container "TRUCK" = false /\ is_container "CONTAINERS" = false
  /\ is_container "MY CONTAINER" = false /\ is_container "" = false.
Proof. repeat split; reflexivity. Qed.

Example strip_examples :
  PyStr.strip "  a b  " = "a b" /\ PyStr.strip "   " = "" /\ PyStr.strip "" = ""
  /\ PyStr.strip (SampleBlank.nbsp +:+ "a b" +:+ SampleBlank.emsp) = "a b"
  /\ PyStr.strip (SampleBlank.nbsp +:+ " " +:+ SampleBlank.emsp) = "".
Proof. repeat split; reflexivity. Qed.

(** Every white space character is removed at both ends; ZERO WIDTH SPACE,
    MONGOLIAN VOWEL SEPARATOR, the byte order mark, BACKSPACE and the letter
    x are not. *)
Example strip_white_space_table :
  forallb (fun cp => String.eqb (PyStr.strip (PyStr.utf8 cp +:+ "a b" +:+ PyStr.utf8 cp)) "a b")
    PyStr.whitespace = true
  /\ forallb (fun cp => String.eqb (PyStr.strip (PyStr.utf8 cp +:+ " ")) (PyStr.utf8 cp))
       [8203; 6158; 65279; 8; 120]%N = true.
Proof. split; vm_compute; reflexivity. Qed.

(** The bytes of NO-BREAK SPACE and of EM SPACE. *)
Example utf8_examples :
  SampleBlank.nbsp = String (ascii_of_nat 194) (String (ascii_of_nat 160) "")
  /\ SampleBlank.emsp
     = String (ascii_of_nat 226) (String (ascii_of_nat 128) (String (ascii_of_nat 131) "")).
Proof. split; reflexivity. Qed.

(** The same frame with the ends of the run: the sample frame is reported;
    two cells with different UTC offsets stop the run, and so do two
    timestamps 550 years apart although [run] has a report for them. *)
Example sample_run_checked :
  run_checked SampleStops.raises Sample.dateparse Sample.work_df
  = Completed Sample.report
  /\ run_checked SampleStops.raises SampleStops.dateparse SampleStops.offsets_df
     = Failed
  /\ run_checked SampleStops.raises SampleStops.dateparse SampleStops.far_apart_df
     = Failed
  /\ run_checked SampleStops.raises Sample.dateparse
       [mkInputRow "t1" "TRUCK" "B1" "2024-02-01" "2024-02-01"]
     = NoContainers.
Proof. repeat split; vm_compute; reflexivity. Qed.

Example sample_far_apart :
  map (fun v => (v_min v, v_max v))
    (default [] (bol_eta_spread <$> run SampleStops.dateparse SampleStops.far_apart_df))
  = [ (Some (-8520336000000000000)%Z, Some 8835955200000000000%Z) ]
  /\ (int64_max < 8835955200000000000 - -8520336000000000000)%Z.
Proof. split; vm_compute; reflexivity. Qed.
Lemma mixed_detail_witness :
  run Sample.dateparse Sample.work_df = Some Sample.report
  /\ map identifier
       (filter (fun r => bol_id r = "B1") (mixed_detail Sample.report))
     = ["c1"; "c2"].
Proof.
  assert (Hrun : run Sample.dateparse Sample.work_df = Some Sample.report)
    by reflexivity.
  split; [exact Hrun|].
  destruct (mixed_detail_correct Sample.dateparse Sample.work_df Sample.report Hrun)
    as (_ & Hrows & _ & _).
  rewrite (Hrows "B1") by (vm_compute; constructor).
  vm_compute. reflexivity.
Defined.

Lemma bol_spread_Permutation_witness :
  Sample.containers ≡ₚ reverse Sample.containers
  /\ bol_spread Sample.containers = bol_spread (reverse Sample.containers).
Proof.
  assert (Hp : Sample.containers ≡ₚ reverse Sample.containers)
    by (symmetry; apply reverse_Permutation).
  split; [exact Hp|].
  apply (bol_spread_Permutation Sample.containers (reverse Sample.containers) Hp).
Defined.

Lemma summary_totals_witness :
  run Sample.dateparse Sample.work_df = Some Sample.report
  /\ sum_list_with count
       (filter (fun row => metric row = "ETA") (summary_df Sample.report)) = 3
  /\ sum_list_with count
       (filter (fun row => metric row = "ATA") (summary_df Sample.report)) = 3.
Proof.
  assert (Hrun : run Sample.dateparse Sample.work_df = Some Sample.report)
    by reflexivity.
  split; [exact Hrun|].
  destruct (summary_totals Sample.dateparse Sample.work_df Sample.report Hrun)
    as [He Ha].
  rewrite He, Ha. split; vm_compute; reflexivity.
Defined.

Lemma is_container_witness :
  is_container (SampleBlank.nbsp +:+ "container_id" +:+ SampleBlank.emsp) = true
  /\ run Sample.dateparse Sample.work_df
     = run Sample.dateparse
         [ mkInputRow "c1" "Container" "B1" "2024-01-01T00:00:00" "";
           mkInputRow "c2" " container_id " "B1" "2024-01-01T12:00:00" "2024-02-01";
           mkInputRow "c3" "CONTAINER" "A0" "not a date" "  ";
           mkInputRow "c4" "CONTAINER" "B2" "" "" ].
Proof.
  destruct is_container_correct as (_ & _ & _ & Hpad & _ & _ & Hdrop & _). split.
  - apply Hpad. exists SampleBlank.nbsp, "container_id", SampleBlank.emsp.
    split; [reflexivity|].
    split; [apply all_space_blank; reflexivity|].
    split; [apply all_space_blank; reflexivity|].
    split; [apply tight_trimmed; reflexivity | right; reflexivity].
  - apply (Hdrop SampleStops.raises Sample.dateparse
             [ mkInputRow "c1" "Container" "B1" "2024-01-01T00:00:00" "";
               mkInputRow "c2" " container_id " "B1" "2024-01-01T12:00:00" "2024-02-01" ]
             [ mkInputRow "c3" "CONTAINER" "A0" "not a date" "  ";
               mkInputRow "c4" "CONTAINER" "B2" "" "" ]
             (mkInputRow "t1" "TRUCK" "B1" "2024-02-01" "2024-02-01")).
    reflexivity.
Defined.
(** In BOL K1 the ETA cell of k2 is text the parser rejects, the ETA cell of
    k3 is two spaces and the ATA cell of k1 is a NO-BREAK SPACE: two ETA
    cells are present and one is missing, two ATA cells are present and one
    is missing, and the minimum is the one parsed ETA. *)
Lemma presence_counts_witness :
  n_eta_present SampleBlank.aggregate = 2
  /\ n_eta_missing SampleBlank.aggregate = 1
  /\ n_ata_present SampleBlank.aggregate = 2
  /\ n_ata_missing SampleBlank.aggregate = 1
  /\ eta_min SampleBlank.aggregate = Some 1706745600000000000%Z.
Proof.
  destruct presence_counts_ignore_parsing as (_ & _ & Hcount & _ & _ & Hrow).
  set (r := mkContainerRow
              (mkInputRow "k2" (SampleBlank.nbsp +:+ "container" +:+ SampleBlank.emsp)
                 "K1" "not a date" "2024-02-01")
              None (Some 1706745600000000000%Z)).
  set (l1 := [ mkContainerRow (mkInputRow "k1" "CONTAINER" "K1" "2024-02-01" SampleBlank.nbsp)
                 (Some 1706745600000000000%Z) None ]).
  set (l2 := [ mkContainerRow
                 (mkInputRow "k3" "Container" "K1" "  " "2024-01-01T00:00:00")
                 None (Some 1704067200000000000%Z) ]).
  assert (Hcs : SampleBlank.containers = l1 ++ r :: l2) by reflexivity.
  assert (Hin : SampleBlank.aggregate ∈ bol_spread SampleBlank.containers).
  { apply elem_of_bol_spread. exists "K1". split; [|reflexivity].
    vm_compute. repeat constructor. }
  destruct (Hcount _ _ Hin) as (Hep & Hem & Hap & Ham).
  rewrite Hep, Hem, Hap, Ham. rewrite Hcs in Hin.
  destruct (Hrow l1 l2 r _ Hin eq_refl) as [Heta _].
  destruct Heta as (_ & Hmin & _).
  { intros Hb. apply all_space_blank in Hb. vm_compute in Hb. discriminate Hb. }
  { reflexivity. }
  rewrite Hmin. repeat split; vm_compute; reflexivity.
Defined.

Lemma spread_views_keys_witness :
  run Sample.dateparse Sample.work_df = Some Sample.report
  /\ map v_bol_id (bol_eta_spread Sample.report) = ["A0"; "B1"; "B2"]
  /\ map v_bol_id (bol_ata_spread Sample.report) = ["A0"; "B1"; "B2"].
Proof.
  assert (Hrun : run Sample.dateparse Sample.work_df = Some Sample.report)
    by reflexivity.
  split; [exact Hrun|].
  destruct (spread_views_keys Sample.dateparse Sample.work_df Sample.report Hrun)
    as (Hsame & _).
  rewrite <- Hsame. split; vm_compute; reflexivity.
Defined.

Lemma sample_B1_aggregate :
  aggregate_group "B1" (group_rows "B1" Sample.containers)
  ∈ bol_spread Sample.containers.
Proof.
  apply elem_of_bol_spread. exists "B1". split; [|reflexivity].
  vm_compute. repeat constructor.
Qed.

Lemma extrema_attained_witness :
  exists r, r ∈ Sample.containers /\ row_bol_id r = "B1"
            /\ eta_dt r = Some 1704067200000000000%Z.
Proof.
  destruct (extrema_attained Sample.containers _ sample_B1_aggregate)
    as (Hmin & _).
  destruct (Hmin 1704067200000000000%Z eq_refl) as [Hex _]. exact Hex.
Defined.

Lemma spread_never_negative_witness :
  (eta_min (aggregate_group "B1" (group_rows "B1" Sample.containers)) = None
   <-> eta_max (aggregate_group "B1" (group_rows "B1" Sample.containers)) = None)
  /\ (1704067200000000000 <= 1704110400000000000)%Z.
Proof.
  destruct (spread_never_negative Sample.containers _ sample_B1_aggregate)
    as ((Hnone & Hle & _) & _).
  split; [exact Hnone|]. apply Hle; reflexivity.
Defined.

Lemma mixed_means_present_and_missing_witness :
  is_mixed (aggregate_group "B1" (group_rows "B1" Sample.containers))
  /\ (2 <= n_containers (aggregate_group "B1" (group_rows "B1" Sample.containers)))%nat.
Proof.
  destruct (mixed_means_present_and_missing Sample.containers _ sample_B1_aggregate)
    as [Hiff Hsize].
  assert (Hm : is_mixed (aggregate_group "B1" (group_rows "B1" Sample.containers))).
  { apply Hiff. split.
    - exists (mkContainerRow
                (mkInputRow "c2" " container_id " "B1" "2024-01-01T12:00:00" "2024-02-01")
                (Some 1704110400000000000%Z) (Some 1706745600000000000%Z)).
      split; [vm_compute; repeat constructor|]. split; [reflexivity|].
      intros Hb. apply all_space_blank in Hb. vm_compute in Hb. discriminate Hb.
    - exists (mkContainerRow
                (mkInputRow "c1" "Container" "B1" "2024-01-01T00:00:00" "")
                (Some 1704067200000000000%Z) None).
      split; [vm_compute; repeat constructor|]. split; [reflexivity|].
      constructor. }
  split; [exact Hm | exact (Hsize Hm)].
Defined.

Lemma report_shape_witness :
  run_checked SampleStops.raises Sample.dateparse Sample.work_df
  = Completed Sample.report
  /\ (3 <= length (summary_df Sample.report) <= 9)%nat.
Proof.
  assert (Hc : run_checked SampleStops.raises Sample.dateparse Sample.work_df
               = Completed Sample.report) by (vm_compute; reflexivity).
  split; [exact Hc|].
  destruct (report_shape SampleStops.raises Sample.dateparse Sample.work_df)
    as (_ & _ & Hrun & Hrep).
  destruct (Hrep Sample.report (Hrun _ Hc)) as (_ & _ & Hsum & _). exact Hsum.
Defined.
Lemma is_container_case_and_padding_witness :
  is_container "cOnTaInEr" = is_container "CONTAINER"
  /\ is_container (SampleBlank.nbsp +:+ "container" +:+ SampleBlank.emsp)
     = is_container "container".
Proof.
  destruct is_container_case_and_padding as (Hcase & _ & Hpad). split.
  - apply Hcase; reflexivity.
  - apply Hpad; apply all_space_blank; reflexivity.
Defined.
Lemma map_roles_resolution_witness :
  exists w, map_roles SampleCsv.crossed_roles SampleCsv.crossed_df = Some w
            /\ w !! "eta" = Some [""] /\ w !! "ata" = Some [""].
Proof.
  destruct (map_roles SampleCsv.crossed_roles SampleCsv.crossed_df)
    as [w|] eqn:E; [|vm_compute in E; discriminate].
  exists w. split; [reflexivity|].
  destruct (map_roles_resolution _ _ w E) as (_ & _ & _ & He & Ha & _).
  simpl in He, Ha. rewrite Ha, He. split; reflexivity.
Defined.

Lemma run_app_faithful_witness :
  run_app SampleStops.raises Sample.dateparse SampleCsv.roles SampleCsv.df
  = Completed Sample.report.
Proof.
  rewrite (run_app_faithful SampleStops.raises Sample.dateparse
             SampleCsv.roles SampleCsv.df
             ["c1"; "c2"; "t1"; "c3"; "c4"]
             ["Container"; " container_id "; "TRUCK"; "CONTAINER"; "CONTAINER"]
             ["B1"; "B1"; "B1"; "A0"; "B2"]
             ["2024-01-01T00:00:00"; "2024-01-01T12:00:00"; "2024-02-01";
              "not a date"; ""]
             [""; "2024-02-01"; "2024-02-01"; "  "; ""]);
    try (vm_compute; reflexivity);
    intros Hin; split_names; discriminate.
Defined.
Lemma sample_csv_height : frame_height 5 SampleCsv.df.
Proof.
  intros c col Hc. unfold SampleCsv.df in Hc.
  apply elem_of_list_to_map_2, list_elem_of_In in Hc. simpl in Hc.
  repeat (destruct Hc as [[= <- <-]|Hc]; [reflexivity|]). contradiction.
Qed.

Lemma map_roles_keeps_height_witness :
  exists w rows, map_roles SampleCsv.roles SampleCsv.df = Some w
                 /\ work_rows w = Some rows /\ length rows = 5.
Proof.
  destruct (map_roles SampleCsv.roles SampleCsv.df) as [w|] eqn:E;
    [|vm_compute in E; discriminate].
  destruct (map_roles_keeps_height 5 SampleCsv.roles SampleCsv.df w
              sample_csv_height E) as [_ (rows & Hrows & Hlen)].
  exists w, rows. auto.
Defined.

Lemma report_of_Permutation_witness :
  summary_df (report_of Sample.containers)
  = summary_df (report_of (reverse Sample.containers)).
Proof.
  destruct (report_of_Permutation Sample.containers (reverse Sample.containers))
    as (_ & _ & Hsum & _); [symmetry; apply reverse_Permutation | exact Hsum].
Defined.
